(** * Verification of the asynchronous document pipeline of ai-recruitment

    A shallow embedding of the worker pipeline of the backend
    (workers/cv_processor.py, workers/jd_processor.py, workers/profiler.py),
    of the run-record managers it writes through
    (services/users/cv_profile_manager.py,
    services/roles/role_profile_manager.py,
    services/roles/role_listing_manager.py) and of the rate limiter of the
    service clients (services/llm/processor.py, services/vision/client.py).

    Conventions.
    - Python [int] is [Z]; a Python [float] that the code only adds, divides
      and rounds is an exact rational [Q]; wall-clock readings are integer
      clock ticks ([Z]).
    - A Cosmos container is a [gmap string _] keyed by the document id;
      [upsert_item] is map insertion at the id of the document,
      [delete_item] is map deletion, and a document read at a key has that
      key as its id.
    - Calls to collaborators (PDF reader, extraction, vision, LLM, embeddings,
      uuid, clock) are answered by an environment record passed to the stage
      function, one record per processed item.
    - Python exceptions are values of [exn]; code that may raise returns
      [res A]. *)

From Stdlib Require Import ZArith QArith Qround Qabs Lqa Lia Ascii String List.
From stdpp Require Import gmap strings list fin_maps pretty.

Local Open Scope Z_scope.
Local Open Scope string_scope.

(** ** services/llm/types.py *)

Record Date := { month : Z; year : Z }.

Record Location := { city : option string; country : option string }.

Inductive EmploymentType :=
  | CONTRACT | FULL_TIME | INTERNSHIP | PART_TIME | VOLUNTEER.

Inductive Level := ENTRY_LEVEL | JUNIOR | MID_LEVEL | SENIOR | EXECUTIVE.

Inductive RoleMode := HYBRID | ON_SITE | REMOTE.

Record Certification := {
  cert_field : option string;
  cert_level : option string;
  cert_name : option string }.

Record ContactDetails := { email : option string; phone_number : option string }.

Record Award := {
  award_date : option Date;
  award_description : option string;
  award_name : option string }.

Record Education := {
  edu_certification : Certification;
  edu_end_date : Date;
  edu_institution : option string;
  edu_location : Location;
  edu_start_date : Date }.

Record Employment := {
  emp_organization_name : option string;
  end_date : Date;
  emp_location : Location;
  emp_role : option string;
  start_date : Date;
  emp_summary : option string;
  emp_type : option EmploymentType }.

(** ** Derived aggregates of the profiler (workers/profiler.py) *)

Module Metrics.

Local Open Scope Q_scope.

(** Python's [round(x)] of a float with no [ndigits]: the nearest integer,
    a tie going to the even neighbour. *)
Definition py_round (x : Q) : Z :=
  let f := Qfloor x in
  match Qcompare (x - inject_Z f) (1 # 2) with
  | Lt => f
  | Gt => (f + 1)%Z
  | Eq => if Z.even f then f else (f + 1)%Z
  end.

(** The end date the loop body works with: a year of 0 means present day. *)
Definition effective_end (now : Date) (e : Employment) : Z * Z :=
  let end_year := year (end_date e) in
  let end_month := month (end_date e) in
  if (end_year =? 0)%Z then (year now, month now) else (end_year, end_month).

(** Body of the loop of [_calculate_average_tenure]. *)
Definition tenure_step (now : Date) (total_months : Z) (employment : Employment) : Z :=
  let start_year := year (start_date employment) in
  let start_month := month (start_date employment) in
  let '(end_year, end_month) := effective_end now employment in
  let months := ((end_year - start_year) * 12 + (end_month - start_month))%Z in
  (total_months + months)%Z.

Definition _calculate_average_tenure (now : Date) (employment_history : list Employment) : Z :=
  match employment_history with
  | [] => 0%Z
  | _ =>
      let total_months := fold_left (tenure_step now) employment_history 0%Z in
      py_round (inject_Z total_months / inject_Z (Z.of_nat (length employment_history)))
  end.

(** Body of the loop of [_calculate_years_experience]. *)
Definition experience_step (now : Date) (total_years : Q) (employment : Employment) : Q :=
  let start_year := year (start_date employment) in
  let start_month := month (start_date employment) in
  let '(end_year, end_month) := effective_end now employment in
  let years := (end_year - start_year)%Z in
  let months := (end_month - start_month)%Z in
  total_years + (inject_Z years + inject_Z months / 12).

Definition _calculate_years_experience (now : Date) (employment_history : list Employment) : Q :=
  let total_years := fold_left (experience_step now) employment_history 0 in
  inject_Z (py_round (total_years * 2)) / 2.

(** *** The aggregates as the specification words them *)

(** months = (end.year - start.year) * 12 + (end.month - start.month), the
    current year and month standing in for an end date whose year is 0. *)
Definition spec_months (now : Date) (e : Employment) : Z :=
  if (year (end_date e) =? 0)%Z
  then ((year now - year (start_date e)) * 12 + (month now - month (start_date e)))%Z
  else ((year (end_date e) - year (start_date e)) * 12
        + (month (end_date e) - month (start_date e)))%Z.

Definition spec_average_months (now : Date) (h : list Employment) : Q :=
  inject_Z (fold_right Z.add 0%Z (map (spec_months now) h))
  / inject_Z (Z.of_nat (length h)).



(** An employment record with only its two dates filled in. *)
Definition job (sy sm ey em : Z) : Employment :=
  {| emp_organization_name := None;
     end_date := {| month := em; year := ey |};
     emp_location := {| city := None; country := None |};
     emp_role := None;
     start_date := {| month := sm; year := sy |};
     emp_summary := None;
     emp_type := None |}.

End Metrics.

(** ** Python strings *)

Module PyStr.

(** [str.lower] on the ASCII letters (what decides a [".pdf"] suffix). *)
Definition ascii_lower (c : ascii) : ascii :=
  let n := nat_of_ascii c in
  if ((65 <=? n) && (n <=? 90))%nat then ascii_of_nat (n + 32) else c.

Fixpoint lower (s : string) : string :=
  match s with
  | EmptyString => EmptyString
  | String c s' => String (ascii_lower c) (lower s')
  end.

(** [s.endswith(suffix)] *)
Definition endswith (s suffix : string) : bool :=
  let n := String.length s in
  let m := String.length suffix in
  (m <=? n)%nat && String.eqb (substring (n - m) m s) suffix.

(** [needle in hay] for two strings: substring containment. *)
Fixpoint contains (needle hay : string) : bool :=
  if String.prefix needle hay then true
  else match hay with
       | EmptyString => false
       | String _ hay' => contains needle hay'
       end.

(** [any(needle in p for p in ps)] *)
Definition any_contains (needle : string) (ps : list string) : bool :=
  existsb (contains needle) ps.

(** [sep.join(parts)] *)
Fixpoint join (sep : string) (parts : list string) : string :=
  match parts with
  | [] => ""
  | [p] => p
  | p :: ps => p ++ sep ++ join sep ps
  end.

(** [f"{n}"] for a non-negative [int]. *)
Definition str_of_nat (n : nat) : string := pretty n.

End PyStr.

(** What [needle in hay] decides: [needle] occurs in [hay]. *)
Definition occurs_in (needle hay : string) : Prop :=
  exists before after, hay = before ++ needle ++ after.

(** ** Exceptions (exceptions.py and the built-in ones the code meets)

    [Empty] is [queue.Empty]; [OtherException] stands for any exception class
    that no [except] clause of the workers names (I/O errors, Cosmos errors,
    errors of the PDF libraries). *)

Inductive exn :=
  | CVError (error_message cv_id : string)
  | CVFormatError (error_message cv_id : string)
  | CVLengthError (error_message cv_id : string)
  | RoleListingError (error_message jd_id : string)
  | JDFormatError (error_message jd_id : string)
  | JDLengthError (error_message jd_id : string)
  | LLMInferenceError (error_message : string)
  | UserNotFoundError (error_message : string)
  | ValueError (error_message : string)
  | TypeError (error_message : string)
  | AttributeError (error_message : string)
  | KeyError (error_message : string)
  | ValidationError (error_message : string)
  | Empty
  | OtherException (error_message : string).

(** [str(e)] *)
Definition exn_str (e : exn) : string :=
  match e with
  | CVError m _ | CVFormatError m _ | CVLengthError m _
  | RoleListingError m _ | JDFormatError m _ | JDLengthError m _
  | LLMInferenceError m | UserNotFoundError m | ValueError m | TypeError m
  | AttributeError m | KeyError m | ValidationError m | OtherException m => m
  | Empty => ""
  end.

(** [isinstance(e, CVError)], with the [cv_id] the exception carries. *)
Definition as_CVError (e : exn) : option string :=
  match e with
  | CVError _ i | CVFormatError _ i | CVLengthError _ i => Some i
  | _ => None
  end.

(** [isinstance(e, RoleListingError)], with the [jd_id] it carries. *)
Definition as_RoleListingError (e : exn) : option string :=
  match e with
  | RoleListingError _ i | JDFormatError _ i | JDLengthError _ i => Some i
  | _ => None
  end.

Inductive res (A : Type) :=
  | Ok (a : A)
  | Raise (e : exn).
Arguments Ok {A} a.
Arguments Raise {A} e.

Definition is_ok {A} (r : res A) : bool :=
  match r with Ok _ => true | Raise _ => false end.

(** ** Logging *)

Inductive log_level := INFO | WARNING | ERROR.

Definition log_record : Type := log_level * string.

(** ** Schemas (services/users/schemas.py, services/roles/schemas.py) *)

Module CVProfileRunStatus.
Inductive t := COMPLETED | FAILED | PENDING.

(** The value of the [StrEnum] member, which is what the store holds. *)
Definition value (s : t) : string :=
  match s with
  | COMPLETED => "completed"
  | FAILED => "failed"
  | PENDING => "pending"
  end.

(** [CVProfileRunStatus(v)], as pydantic validates the field. *)
Definition of_value (v : string) : option t :=
  if String.eqb v "completed" then Some COMPLETED
  else if String.eqb v "failed" then Some FAILED
  else if String.eqb v "pending" then Some PENDING
  else None.

Definition eqb (a b : t) : bool :=
  match a, b with
  | COMPLETED, COMPLETED | FAILED, FAILED | PENDING, PENDING => true
  | _, _ => false
  end.
End CVProfileRunStatus.

Module RoleListingRunStatus.
Inductive t := COMPLETED | FAILED | PENDING.

Definition value (s : t) : string :=
  match s with
  | COMPLETED => "completed"
  | FAILED => "failed"
  | PENDING => "pending"
  end.

Definition of_value (v : string) : option t :=
  if String.eqb v "completed" then Some COMPLETED
  else if String.eqb v "failed" then Some FAILED
  else if String.eqb v "pending" then Some PENDING
  else None.

Definition eqb (a b : t) : bool :=
  match a, b with
  | COMPLETED, COMPLETED | FAILED, FAILED | PENDING, PENDING => true
  | _, _ => false
  end.
End RoleListingRunStatus.

Inductive UserRole := RECRUITER | JOB_SEEKER.

(** [CVProfile] of services/llm/types.py: the structured output of the LLM.
    [CVProfileRun] and [User] carry the same sixteen fields, which the code
    always copies together; they are kept as one record inside both. *)
Record CVProfile := {
  cv_awards : list Award;
  cv_contact_details : ContactDetails;
  cv_education_history : list Education;
  cv_employment_history : list Employment;
  cv_highlights : list string;
  cv_hobbies : list string;
  cv_industries : list string;
  cv_job_title : option string;
  cv_level : option Level;
  cv_location : Location;
  cv_name : option string;
  cv_nationality : option string;
  cv_skills : list string;
  cv_spoken_languages : list string;
  cv_summary : option string;
  cv_urls : list string }.

(** The field defaults of [CVProfileRun] and [User]. *)
Definition CVProfile_defaults : CVProfile :=
  {| cv_awards := []; cv_contact_details := {| email := None; phone_number := None |};
     cv_education_history := []; cv_employment_history := [];
     cv_highlights := []; cv_hobbies := []; cv_industries := [];
     cv_job_title := None; cv_level := None;
     cv_location := {| city := None; country := None |};
     cv_name := None; cv_nationality := None; cv_skills := [];
     cv_spoken_languages := []; cv_summary := None; cv_urls := [] |}.

(** [CVProfileRun]. The parameter [S] is the type of the [status] field:
    [CVProfileRunStatus.t] for the pydantic model, [string] for the JSON
    document held by the container. The constant fields [partition_key] and
    [type] (always ["cv_profile"]) are left out. *)
Record CVProfileRun_ (S : Type) := {
  cvr_id : string;
  cvr_created_at : Z;
  cvr_updated_at : Z;
  cvr_average_tenure : option Q;
  cvr_creativity_score : option Z;
  cvr_file_path : string;
  cvr_formatting_score : option Z;
  cvr_grammar_score : option Z;
  cvr_status : S;
  cvr_status_comment : option string;
  cvr_years_experience : option Q;
  cvr_profile : CVProfile }.
Arguments cvr_id {S} _.
Arguments cvr_created_at {S} _.
Arguments cvr_updated_at {S} _.
Arguments cvr_average_tenure {S} _.
Arguments cvr_creativity_score {S} _.
Arguments cvr_file_path {S} _.
Arguments cvr_formatting_score {S} _.
Arguments cvr_grammar_score {S} _.
Arguments cvr_status {S} _.
Arguments cvr_status_comment {S} _.
Arguments cvr_years_experience {S} _.
Arguments cvr_profile {S} _.

Abbreviation CVProfileRun := (CVProfileRun_ CVProfileRunStatus.t).
Abbreviation CVProfileRunDoc := (CVProfileRun_ string).

Definition cvr_with_status {S T} (s : T) (r : CVProfileRun_ S) : CVProfileRun_ T :=
  {| cvr_id := cvr_id r; cvr_created_at := cvr_created_at r;
     cvr_updated_at := cvr_updated_at r;
     cvr_average_tenure := cvr_average_tenure r;
     cvr_creativity_score := cvr_creativity_score r;
     cvr_file_path := cvr_file_path r;
     cvr_formatting_score := cvr_formatting_score r;
     cvr_grammar_score := cvr_grammar_score r;
     cvr_status := s; cvr_status_comment := cvr_status_comment r;
     cvr_years_experience := cvr_years_experience r;
     cvr_profile := cvr_profile r |}.

Definition cvr_with_updated_at {S} (t : Z) (r : CVProfileRun_ S) : CVProfileRun_ S :=
  {| cvr_id := cvr_id r; cvr_created_at := cvr_created_at r;
     cvr_updated_at := t;
     cvr_average_tenure := cvr_average_tenure r;
     cvr_creativity_score := cvr_creativity_score r;
     cvr_file_path := cvr_file_path r;
     cvr_formatting_score := cvr_formatting_score r;
     cvr_grammar_score := cvr_grammar_score r;
     cvr_status := cvr_status r; cvr_status_comment := cvr_status_comment r;
     cvr_years_experience := cvr_years_experience r;
     cvr_profile := cvr_profile r |}.

Definition cvr_with_id {S} (i : string) (r : CVProfileRun_ S) : CVProfileRun_ S :=
  {| cvr_id := i; cvr_created_at := cvr_created_at r;
     cvr_updated_at := cvr_updated_at r;
     cvr_average_tenure := cvr_average_tenure r;
     cvr_creativity_score := cvr_creativity_score r;
     cvr_file_path := cvr_file_path r;
     cvr_formatting_score := cvr_formatting_score r;
     cvr_grammar_score := cvr_grammar_score r;
     cvr_status := cvr_status r; cvr_status_comment := cvr_status_comment r;
     cvr_years_experience := cvr_years_experience r;
     cvr_profile := cvr_profile r |}.

(** [json.loads(run.model_dump_json())] *)
Definition cv_model_dump (r : CVProfileRun) : CVProfileRunDoc :=
  cvr_with_status (CVProfileRunStatus.value (cvr_status r)) r.

(** [CVProfileRun.model_validate(doc)] *)
Definition cv_model_validate (d : CVProfileRunDoc) : res CVProfileRun :=
  match CVProfileRunStatus.of_value (cvr_status d) with
  | Some s => Ok (cvr_with_status s d)
  | None => Raise (ValidationError "1 validation error for CVProfileRun: status")
  end.

(** [User]; [partition_key] and [type] (always ["user"]) are left out. *)
Record User := {
  u_id : string;
  u_created_at : Z;
  u_updated_at : Z;
  u_average_tenure : option Q;
  u_creativity_score : option Z;
  u_embeddings : list Q;
  u_formatting_score : option Z;
  u_grammar_score : option Z;
  u_is_onboarded : bool;
  u_location_preferences : list Location;
  u_profile_picture_url : option string;
  u_role : option UserRole;
  u_years_experience : option Q;
  u_profile : CVProfile }.

(** The domain fields that [RoleProfileRun] and [RoleListing] share, with the
    same types in both models. *)
Record RoleFields := {
  rf_benefits : list string;
  rf_description : option string;
  rf_employment_type : option EmploymentType;
  rf_industry : option string;
  rf_job_id : option string;
  rf_level : option Level;
  rf_location : Location;
  rf_organization_name : option string;
  rf_preferred_qualifications : list string;
  rf_requirements : list string;
  rf_role_mode : option RoleMode;
  rf_salary : option string;
  rf_title : option string;
  rf_url : option string }.

Definition RoleFields_defaults : RoleFields :=
  {| rf_benefits := []; rf_description := None; rf_employment_type := None;
     rf_industry := None; rf_job_id := None; rf_level := None;
     rf_location := {| city := None; country := None |};
     rf_organization_name := None; rf_preferred_qualifications := [];
     rf_requirements := []; rf_role_mode := None; rf_salary := None; rf_title := None;
     rf_url := None |}.

(** [RoleProfileRun], parametric in the type of [status] like [CVProfileRun_];
    [partition_key] and [type] (always ["role_profile_run"]) are left out. *)
Record RoleProfileRun_ (S : Type) := {
  rpr_id : string;
  rpr_created_at : Z;
  rpr_updated_at : Z;
  rpr_creator_id : string;
  rpr_file_path : string;
  rpr_status : S;
  rpr_status_comment : option string;
  rpr_fields : RoleFields }.
Arguments rpr_id {S} _.
Arguments rpr_created_at {S} _.
Arguments rpr_updated_at {S} _.
Arguments rpr_creator_id {S} _.
Arguments rpr_file_path {S} _.
Arguments rpr_status {S} _.
Arguments rpr_status_comment {S} _.
Arguments rpr_fields {S} _.

Abbreviation RoleProfileRun := (RoleProfileRun_ RoleListingRunStatus.t).
Abbreviation RoleProfileRunDoc := (RoleProfileRun_ string).

Definition rpr_with_status {S T} (s : T) (r : RoleProfileRun_ S) : RoleProfileRun_ T :=
  {| rpr_id := rpr_id r; rpr_created_at := rpr_created_at r;
     rpr_updated_at := rpr_updated_at r; rpr_creator_id := rpr_creator_id r;
     rpr_file_path := rpr_file_path r; rpr_status := s;
     rpr_status_comment := rpr_status_comment r; rpr_fields := rpr_fields r |}.

Definition rpr_with_updated_at {S} (t : Z) (r : RoleProfileRun_ S) : RoleProfileRun_ S :=
  {| rpr_id := rpr_id r; rpr_created_at := rpr_created_at r;
     rpr_updated_at := t; rpr_creator_id := rpr_creator_id r;
     rpr_file_path := rpr_file_path r; rpr_status := rpr_status r;
     rpr_status_comment := rpr_status_comment r; rpr_fields := rpr_fields r |}.

Definition rpr_with_id {S} (i : string) (r : RoleProfileRun_ S) : RoleProfileRun_ S :=
  {| rpr_id := i; rpr_created_at := rpr_created_at r;
     rpr_updated_at := rpr_updated_at r; rpr_creator_id := rpr_creator_id r;
     rpr_file_path := rpr_file_path r; rpr_status := rpr_status r;
     rpr_status_comment := rpr_status_comment r; rpr_fields := rpr_fields r |}.

Definition role_model_dump (r : RoleProfileRun) : RoleProfileRunDoc :=
  rpr_with_status (RoleListingRunStatus.value (rpr_status r)) r.

Definition role_model_validate (d : RoleProfileRunDoc) : res RoleProfileRun :=
  match RoleListingRunStatus.of_value (rpr_status d) with
  | Some s => Ok (rpr_with_status s d)
  | None => Raise (ValidationError "1 validation error for RoleProfileRun: status")
  end.

(** [RoleListing]; [partition_key] and [type] are left out. *)
Record RoleListing := {
  rl_id : string;
  rl_created_at : Z;
  rl_updated_at : Z;
  rl_creator_id : string;
  rl_embeddings : list Q;
  rl_is_active : bool;
  rl_fields : RoleFields }.

(** [RoleProfile] of services/llm/types.py: the structured listing the LLM
    returns. [location] defaults to [None]. *)
Record RoleProfile := {
  rp_benefits : list string;
  rp_description : string;
  rp_employment_type : option EmploymentType;
  rp_industry : option string;
  rp_job_id : option string;
  rp_level : option Level;
  rp_location : option Location;
  rp_organization_name : option string;
  rp_preferred_qualifications : list string;
  rp_requirements : list string;
  rp_role_mode : option RoleMode;
  rp_salary : option string;
  rp_title : string;
  rp_url : option string }.

(** Modelled from the spec: services/vision/types.py is not among the
    sources. [CVDescription] is the creativity assessment of the vision stage;
    the profiler reads its three sub-scores (creativity, formatting,
    grammar). *)
Record CVDescription := {
  creativity_score : Z;
  formatting_score : Z;
  grammar_score : Z }.

(** ** Configuration (config/__init__.py) *)

Module Configuration.
Definition CV_MAX_PAGES : nat := 2.
Definition JD_MAX_PAGES : nat := 3.
End Configuration.

(** ** The world the workers act on

    Four Cosmos containers, the three singleton worker objects with their
    queues ([None]: the singleton is not constructed yet), and the log. *)

Definition ProfilerItem : Type := string * list string * option CVDescription.

Record World := {
  cv_profiles : gmap string CVProfileRunDoc;
  role_profiles : gmap string RoleProfileRunDoc;
  role_listings : gmap string RoleListing;
  users : gmap string User;
  cv_worker : option (list (string * string));
  jd_worker : option (list (string * string));
  profiler_worker : option (list ProfilerItem);
  log : list log_record }.

Definition empty_world : World :=
  {| cv_profiles := ∅; role_profiles := ∅; role_listings := ∅; users := ∅;
     cv_worker := None; jd_worker := None; profiler_worker := None;
     log := [] |}.

Definition set_cv_profiles (m : gmap string CVProfileRunDoc) (w : World) : World :=
  {| cv_profiles := m; role_profiles := role_profiles w;
     role_listings := role_listings w; users := users w;
     cv_worker := cv_worker w; jd_worker := jd_worker w;
     profiler_worker := profiler_worker w; log := log w |}.

Definition set_role_profiles (m : gmap string RoleProfileRunDoc) (w : World) : World :=
  {| cv_profiles := cv_profiles w; role_profiles := m;
     role_listings := role_listings w; users := users w;
     cv_worker := cv_worker w; jd_worker := jd_worker w;
     profiler_worker := profiler_worker w; log := log w |}.

Definition set_role_listings (m : gmap string RoleListing) (w : World) : World :=
  {| cv_profiles := cv_profiles w; role_profiles := role_profiles w;
     role_listings := m; users := users w;
     cv_worker := cv_worker w; jd_worker := jd_worker w;
     profiler_worker := profiler_worker w; log := log w |}.

Definition set_users (m : gmap string User) (w : World) : World :=
  {| cv_profiles := cv_profiles w; role_profiles := role_profiles w;
     role_listings := role_listings w; users := m;
     cv_worker := cv_worker w; jd_worker := jd_worker w;
     profiler_worker := profiler_worker w; log := log w |}.

Definition set_cv_worker (q : option (list (string * string))) (w : World) : World :=
  {| cv_profiles := cv_profiles w; role_profiles := role_profiles w;
     role_listings := role_listings w; users := users w;
     cv_worker := q; jd_worker := jd_worker w;
     profiler_worker := profiler_worker w; log := log w |}.

Definition set_jd_worker (q : option (list (string * string))) (w : World) : World :=
  {| cv_profiles := cv_profiles w; role_profiles := role_profiles w;
     role_listings := role_listings w; users := users w;
     cv_worker := cv_worker w; jd_worker := q;
     profiler_worker := profiler_worker w; log := log w |}.

Definition set_profiler_worker (q : option (list ProfilerItem)) (w : World) : World :=
  {| cv_profiles := cv_profiles w; role_profiles := role_profiles w;
     role_listings := role_listings w; users := users w;
     cv_worker := cv_worker w; jd_worker := jd_worker w;
     profiler_worker := q; log := log w |}.

Definition set_log (l : list log_record) (w : World) : World :=
  {| cv_profiles := cv_profiles w; role_profiles := role_profiles w;
     role_listings := role_listings w; users := users w;
     cv_worker := cv_worker w; jd_worker := jd_worker w;
     profiler_worker := profiler_worker w; log := l |}.

(** ** Computations that act on the world and may raise

    A raised exception keeps the world as it is at the raise: what was written
    before stays written. *)

Definition M (A : Type) : Type := World -> res A * World.

Definition ret {A} (a : A) : M A := fun w => (Ok a, w).

Definition raise {A} (e : exn) : M A := fun w => (Raise e, w).

Definition bind {A B} (c : M A) (k : A -> M B) : M B :=
  fun w =>
    match c w with
    | (Ok a, w') => k a w'
    | (Raise e, w') => (Raise e, w')
    end.

Notation "'let!' x ':=' c 'in' k" := (bind c (fun x => k))
  (at level 10, x name, c at level 100, k at level 200).

(** An answer of a collaborator, taken from the environment. *)
Definition lift {A} (r : res A) : M A := fun w => (r, w).

Definition gets {A} (f : World -> A) : M A := fun w => (Ok (f w), w).

Definition modify (f : World -> World) : M unit := fun w => (Ok tt, f w).

(** [logger.info], [logger.warning], [logger.error] *)
Definition logger (lvl : log_level) (msg : string) : M unit :=
  modify (fun w => set_log (log w ++ [(lvl, msg)]) w).

(** [try: body  except <class> as e: handler]; [handler e = None] when no
    [except] clause matches [e]. An exception raised by the handler itself
    leaves the statement. *)
Definition try_except {A} (body : M A) (handler : exn -> option (M A)) : M A :=
  fun w =>
    match body w with
    | (Ok a, w') => (Ok a, w')
    | (Raise e, w') =>
        match handler e with
        | Some h => h w'
        | None => (Raise e, w')
        end
    end.

(** [try: body  finally: fin] *)
Definition try_finally {A} (body : M A) (fin : M unit) : M A :=
  fun w =>
    let '(r, w') := body w in
    match fin w' with
    | (Ok _, w'') => (r, w'')
    | (Raise e, w'') => (Raise e, w'')
    end.

(** [except Exception as e: logger.error(msg e); raise] *)
Definition log_and_reraise {A} (msg : exn -> string) (body : M A) : M A :=
  try_except body
    (fun e => Some (let! _ := logger ERROR (msg e) in raise e)).

(** Binding of the keyword arguments of a call: a keyword that names no
    parameter of the callee raises [TypeError] before the body runs, and so
    does a parameter without default that the call leaves out. [required]
    are the parameters without default, [given] the parameters bound by
    position. *)
Definition bind_arguments (fname : string) (params required given keywords : list string)
  : res unit :=
  match List.find (fun k => negb (existsb (String.eqb k) params)) keywords with
  | Some k =>
      Raise (TypeError (fname ++ "() got an unexpected keyword argument '" ++ k ++ "'"))
  | None =>
      match List.find (fun p => negb (existsb (String.eqb p) (given ++ keywords))) required with
      | Some p =>
          Raise (TypeError (fname ++ "() missing 1 required positional argument: '" ++ p ++ "'"))
      | None => Ok tt
      end
  end.

Definition nonempty (s : string) : bool := negb (String.eqb s "").

(** ** CVProfileManager (services/users/cv_profile_manager.py) *)

Module CVProfileManager.

Import CVProfileRunStatus.

Definition upsert_item (d : CVProfileRunDoc) : M unit :=
  modify (fun w => set_cv_profiles (<[cvr_id d := d]> (cv_profiles w)) w).

(** The document with a given id, and all documents of the container. *)
Definition item (m : gmap string CVProfileRunDoc) (i : string) : option CVProfileRunDoc :=
  cvr_with_id i <$> m !! i.

Definition items (m : gmap string CVProfileRunDoc) : list CVProfileRunDoc :=
  (fun kd => cvr_with_id (fst kd) (snd kd)) <$> map_to_list m.

Definition add_cv_profile (now : Z) (user_id file_path : string) : M unit :=
  if negb (nonempty user_id) then raise (ValueError "Missing user ID")
  else if negb (nonempty file_path) then raise (ValueError "Missing file path")
  else
    let! _ := logger INFO ("Creating CV profile run for user '" ++ user_id ++ "'...") in
    let cv_profile_run : CVProfileRun :=
      {| cvr_id := user_id; cvr_created_at := now; cvr_updated_at := now;
         cvr_average_tenure := None; cvr_creativity_score := None;
         cvr_file_path := file_path; cvr_formatting_score := None;
         cvr_grammar_score := None; cvr_status := PENDING;
         cvr_status_comment := None; cvr_years_experience := None;
         cvr_profile := CVProfile_defaults |} in
    upsert_item (cv_model_dump cv_profile_run).

Definition get_cv_profile (user_id : string) : M (option CVProfileRun) :=
  log_and_reraise
    (fun e => "Error fetching CV profile for user " ++ user_id ++ ": " ++ exn_str e)
    (let! results := gets (fun w => item (cv_profiles w) user_id) in
     match results with
     | None => ret None
     | Some d => let! r := lift (cv_model_validate d) in ret (Some r)
     end).

(** [[CVProfileRun.model_validate(result) for result in results]] *)
Fixpoint validate_all (results : list CVProfileRunDoc) : res (list CVProfileRun) :=
  match results with
  | [] => Ok []
  | d :: ds =>
      match cv_model_validate d with
      | Raise e => Raise e
      | Ok r =>
          match validate_all ds with
          | Raise e => Raise e
          | Ok rs => Ok (r :: rs)
          end
      end
  end.

(** The documents the query [c.status = 'pending'] selects. *)
Definition query_pending (m : gmap string CVProfileRunDoc) : list CVProfileRunDoc :=
  List.filter (fun d => String.eqb (cvr_status d) "pending") (items m).

Definition get_pending_cv_profiles : M (list CVProfileRun) :=
  log_and_reraise
    (fun e => "Error fetching pending CV profiles: " ++ exn_str e)
    (let! results := gets (fun w => query_pending (cv_profiles w)) in
     lift (validate_all results)).

Definition _create_cv_profile_run_from_cv_profile
    (now : Z) (user_id : string) (cv_profile : option CVProfile) (file_path : string)
    (average_tenure : option Q) (creativity_score formatting_score grammar_score : option Z)
    (status : t) (status_comment : option string) (years_experience : option Q)
  : res CVProfileRun :=
  match cv_profile with
  | None => Raise (AttributeError "'NoneType' object has no attribute 'awards'")
  | Some p =>
      Ok {| cvr_id := user_id; cvr_created_at := now; cvr_updated_at := now;
            cvr_average_tenure := average_tenure;
            cvr_creativity_score := creativity_score;
            cvr_file_path := file_path;
            cvr_formatting_score := formatting_score;
            cvr_grammar_score := grammar_score; cvr_status := status;
            cvr_status_comment := status_comment;
            cvr_years_experience := years_experience; cvr_profile := p |}
  end.

(** Parameters of [update_cv_profile] after [self], and those without a
    default. *)
Definition update_cv_profile_params : list string :=
  ["user_id"; "cv_profile"; "average_tenure"; "creativity_score";
   "formatting_score"; "grammar_score"; "status"; "status_comment";
   "years_experience"].
Definition update_cv_profile_required : list string := ["user_id"; "cv_profile"].

Definition update_cv_profile
    (now : Z) (user_id : string) (cv_profile : option CVProfile)
    (average_tenure : option Q) (creativity_score formatting_score grammar_score : option Z)
    (status : t) (status_comment : option string) (years_experience : option Q)
  : M unit :=
  log_and_reraise
    (fun e => "Error updating CV profile for user " ++ user_id ++ ": " ++ exn_str e)
    (let! profile := get_cv_profile user_id in
     match profile with
     | None => raise (ValueError ("No CV profile found for user " ++ user_id))
     | Some profile =>
         let! updated_profile :=
           lift (_create_cv_profile_run_from_cv_profile now user_id cv_profile
                   (cvr_file_path profile) average_tenure creativity_score
                   formatting_score grammar_score status status_comment
                   years_experience) in
         let updated_profile :=
           {| cvr_id := cvr_id updated_profile;
              cvr_created_at := cvr_created_at profile;
              cvr_updated_at := cvr_updated_at updated_profile;
              cvr_average_tenure := cvr_average_tenure updated_profile;
              cvr_creativity_score := cvr_creativity_score updated_profile;
              cvr_file_path := cvr_file_path updated_profile;
              cvr_formatting_score := cvr_formatting_score updated_profile;
              cvr_grammar_score := cvr_grammar_score updated_profile;
              cvr_status := cvr_status updated_profile;
              cvr_status_comment := cvr_status_comment updated_profile;
              cvr_years_experience := cvr_years_experience updated_profile;
              cvr_profile := cvr_profile updated_profile |} in
         let! _ := upsert_item (cv_model_dump updated_profile) in
         logger INFO ("Updated CV profile for user " ++ user_id)
     end).

End CVProfileManager.

(** ** RoleProfileManager (services/roles/role_profile_manager.py) *)

(** The attributes [_create_role_profile_run_from_profile] reads off its
    [role_profile] argument. The workers pass either a [RoleProfile] (the
    LLM's answer) or a [RoleProfileRun] (the run itself): both have them. *)
Record RoleProfileLike := {
  like_benefits : list string;
  like_description : option string;
  like_employment_type : option EmploymentType;
  like_industry : option string;
  like_level : option Level;
  like_location : option Location;
  like_organization_name : option string;
  like_preferred_qualifications : list string;
  like_requirements : list string;
  like_role_mode : option RoleMode;
  like_salary : option string;
  like_title : option string;
  like_url : option string }.

Definition like_of_RoleProfile (p : RoleProfile) : RoleProfileLike :=
  {| like_benefits := rp_benefits p;
     like_description := Some (rp_description p);
     like_employment_type := rp_employment_type p;
     like_industry := rp_industry p; like_level := rp_level p;
     like_location := rp_location p;
     like_organization_name := rp_organization_name p;
     like_preferred_qualifications := rp_preferred_qualifications p;
     like_requirements := rp_requirements p;
     like_role_mode := rp_role_mode p; like_salary := rp_salary p;
     like_title := Some (rp_title p); like_url := rp_url p |}.

Definition like_of_RoleProfileRun {S} (r : RoleProfileRun_ S) : RoleProfileLike :=
  let f := rpr_fields r in
  {| like_benefits := rf_benefits f; like_description := rf_description f;
     like_employment_type := rf_employment_type f;
     like_industry := rf_industry f; like_level := rf_level f;
     like_location := Some (rf_location f);
     like_organization_name := rf_organization_name f;
     like_preferred_qualifications := rf_preferred_qualifications f;
     like_requirements := rf_requirements f;
     like_role_mode := rf_role_mode f; like_salary := rf_salary f;
     like_title := rf_title f; like_url := rf_url f |}.

Module RoleProfileManager.

Import RoleListingRunStatus.

Definition upsert_item (d : RoleProfileRunDoc) : M unit :=
  modify (fun w => set_role_profiles (<[rpr_id d := d]> (role_profiles w)) w).

Definition item (m : gmap string RoleProfileRunDoc) (i : string) : option RoleProfileRunDoc :=
  rpr_with_id i <$> m !! i.

Definition items (m : gmap string RoleProfileRunDoc) : list RoleProfileRunDoc :=
  (fun kd => rpr_with_id (fst kd) (snd kd)) <$> map_to_list m.

Definition add_role_profile (now : Z) (role_id file_path creator_id : string) : M unit :=
  if negb (nonempty file_path) then raise (ValueError "Missing file path")
  else
    let! _ := logger INFO "Creating role profile run..." in
    let role_profile_run : RoleProfileRun :=
      {| rpr_id := role_id; rpr_created_at := now; rpr_updated_at := now;
         rpr_creator_id := creator_id; rpr_file_path := file_path;
         rpr_status := PENDING; rpr_status_comment := None;
         rpr_fields := RoleFields_defaults |} in
    upsert_item (role_model_dump role_profile_run).

(** [container.delete_item] raises when there is no such item. *)
Definition delete_role_profile (role_id : string) : M unit :=
  log_and_reraise
    (fun e => "Error deleting role profile " ++ role_id ++ ": " ++ exn_str e)
    (let! present := gets (fun w => role_profiles w !! role_id) in
     match present with
     | None => raise (OtherException "CosmosResourceNotFoundError")
     | Some _ =>
         let! _ := modify (fun w => set_role_profiles (delete role_id (role_profiles w)) w) in
         logger INFO ("Deleted role profile " ++ role_id)
     end).

Fixpoint validate_all (results : list RoleProfileRunDoc) : res (list RoleProfileRun) :=
  match results with
  | [] => Ok []
  | d :: ds =>
      match role_model_validate d with
      | Raise e => Raise e
      | Ok r =>
          match validate_all ds with
          | Raise e => Raise e
          | Ok rs => Ok (r :: rs)
          end
      end
  end.

Definition query_pending (m : gmap string RoleProfileRunDoc) : list RoleProfileRunDoc :=
  List.filter (fun d => String.eqb (rpr_status d) "pending") (items m).

Definition get_pending_role_profiles : M (list RoleProfileRun) :=
  log_and_reraise
    (fun e => "Error fetching pending role profiles: " ++ exn_str e)
    (let! results := gets (fun w => query_pending (role_profiles w)) in
     lift (validate_all results)).

Definition get_role_profile (role_id : string) : M (option RoleProfileRun) :=
  log_and_reraise
    (fun e => "Error fetching role profile " ++ role_id ++ ": " ++ exn_str e)
    (let! results := gets (fun w => item (role_profiles w) role_id) in
     match results with
     | None => ret None
     | Some d => let! r := lift (role_model_validate d) in ret (Some r)
     end).

(** [RoleProfileRun.model_validate({**existing_profile.model_dump(),
    **profile_data})]: the keys of [profile_data] replace those of the
    existing run; [id], [created_at] and [job_id] are the existing ones.
    [location] is not optional in [RoleProfileRun]. *)
Definition _create_role_profile_run_from_profile
    (now : Z) (role_profile : option RoleProfileLike) (file_path creator_id : string)
    (existing_profile : RoleProfileRun) (status : t) (status_comment : option string)
  : res RoleProfileRun :=
  match role_profile with
  | None => Raise (AttributeError "'NoneType' object has no attribute 'benefits'")
  | Some p =>
      match like_location p with
      | None => Raise (ValidationError "1 validation error for RoleProfileRun: location")
      | Some loc =>
          Ok {| rpr_id := rpr_id existing_profile;
                rpr_created_at := rpr_created_at existing_profile;
                rpr_updated_at := now;
                rpr_creator_id := creator_id;
                rpr_file_path := file_path;
                rpr_status := status;
                rpr_status_comment := status_comment;
                rpr_fields :=
                  {| rf_benefits := like_benefits p;
                     rf_description := like_description p;
                     rf_employment_type := like_employment_type p;
                     rf_industry := like_industry p;
                     rf_job_id := rf_job_id (rpr_fields existing_profile);
                     rf_level := like_level p;
                     rf_location := loc;
                     rf_organization_name := like_organization_name p;
                     rf_preferred_qualifications := like_preferred_qualifications p;
                     rf_requirements := like_requirements p;
                     rf_role_mode := like_role_mode p;
                     rf_salary := like_salary p;
                     rf_title := like_title p;
                     rf_url := like_url p |} |}
      end
  end.

Definition update_role_profile_params : list string :=
  ["role_id"; "role_profile"; "creator_id"; "status"; "status_comment"].
Definition update_role_profile_required : list string :=
  ["role_id"; "role_profile"; "creator_id"].

Definition update_role_profile
    (now : Z) (role_id : string) (role_profile : option RoleProfileLike)
    (creator_id : string) (status : t) (status_comment : option string)
  : M RoleProfileRun :=
  log_and_reraise
    (fun e => "Error updating role profile " ++ role_id ++ ": " ++ exn_str e)
    (let! existing_profile := get_role_profile role_id in
     match existing_profile with
     | None => raise (ValueError ("No role profile found with ID " ++ role_id))
     | Some existing_profile =>
         let! updated_profile :=
           lift (_create_role_profile_run_from_profile now role_profile
                   (rpr_file_path existing_profile) creator_id existing_profile
                   status status_comment) in
         let! _ := upsert_item (role_model_dump updated_profile) in
         let! _ := logger INFO ("Updated role profile " ++ role_id) in
         ret updated_profile
     end).

End RoleProfileManager.

(** ** RoleListingManager (services/roles/role_listing_manager.py) *)

Module RoleListingManager.

Definition add_role (role : RoleListing) : M unit :=
  let! _ := logger INFO ("Adding role listing '"
                         ++ default "None" (rf_title (rl_fields role)) ++ "'...") in
  modify (fun w => set_role_listings (<[rl_id role := role]> (role_listings w)) w).

(** The text the embedding of a new listing is computed from. *)
Definition embedding_text (role_profile_run : RoleProfileRun) (description : string) : string :=
  let f := rpr_fields role_profile_run in
  let description :=
    match rf_title f with
    | Some t => if nonempty t then t ++ ". " ++ description else description
    | None => description
    end in
  match rf_requirements f with
  | [] => description
  | reqs => description ++ ". Requirements: " ++ PyStr.join ". " reqs
  end.

(** [new_id] is the [uuid4] the [RoleListing] model draws for its [id],
    [now] its clock reading, [generate_embeddings] the embeddings client. *)
Definition add_role_from_profile
    (now : Z) (new_id : string) (generate_embeddings : string -> res (list Q))
    (role_profile_run : RoleProfileRun) : M RoleListing :=
  if negb (RoleListingRunStatus.eqb (rpr_status role_profile_run)
             RoleListingRunStatus.COMPLETED)
  then raise (ValueError "Cannot create role from incomplete profile")
  else
    let! _ := logger INFO ("Creating new role listing from profile "
                           ++ rpr_id role_profile_run ++ "...") in
    let new_role :=
      {| rl_id := new_id; rl_created_at := now; rl_updated_at := now;
         rl_creator_id := rpr_creator_id role_profile_run;
         rl_embeddings := []; rl_is_active := true;
         rl_fields := rpr_fields role_profile_run |} in
    let! new_role :=
      match rf_description (rpr_fields role_profile_run) with
      | None => ret new_role
      | Some description =>
          if nonempty description then
            match generate_embeddings (embedding_text role_profile_run description) with
            | Ok embeddings =>
                ret {| rl_id := rl_id new_role;
                       rl_created_at := rl_created_at new_role;
                       rl_updated_at := rl_updated_at new_role;
                       rl_creator_id := rl_creator_id new_role;
                       rl_embeddings := embeddings;
                       rl_is_active := rl_is_active new_role;
                       rl_fields := rl_fields new_role |}
            | Raise e =>
                let! _ := logger WARNING
                            ("Failed to generate embeddings for new role: " ++ exn_str e) in
                ret new_role
            end
          else ret new_role
      end in
    let! _ := add_role new_role in
    let! _ := logger INFO ("Created new role listing with ID " ++ rl_id new_role) in
    ret new_role.

End RoleListingManager.

(** ** UserManager (services/users/user_manager.py) *)

Module UserManager.

Definition add_user (user : User) : M unit :=
  let! _ := logger INFO ("Adding user '" ++ default "None" (cv_name (u_profile user)) ++ "'...") in
  modify (fun w => set_users (<[u_id user := user]> (users w)) w).

Definition get_user_by_id (user_id : string) : M (option User) :=
  gets (fun w => users w !! user_id).

Definition with_id (user_id : string) (u : User) : User :=
  {| u_id := user_id; u_created_at := u_created_at u; u_updated_at := u_updated_at u;
     u_average_tenure := u_average_tenure u;
     u_creativity_score := u_creativity_score u; u_embeddings := u_embeddings u;
     u_formatting_score := u_formatting_score u;
     u_grammar_score := u_grammar_score u; u_is_onboarded := u_is_onboarded u;
     u_location_preferences := u_location_preferences u;
     u_profile_picture_url := u_profile_picture_url u; u_role := u_role u;
     u_years_experience := u_years_experience u; u_profile := u_profile u |}.

Definition with_is_onboarded (b : bool) (u : User) : User :=
  {| u_id := u_id u; u_created_at := u_created_at u; u_updated_at := u_updated_at u;
     u_average_tenure := u_average_tenure u;
     u_creativity_score := u_creativity_score u; u_embeddings := u_embeddings u;
     u_formatting_score := u_formatting_score u;
     u_grammar_score := u_grammar_score u; u_is_onboarded := b;
     u_location_preferences := u_location_preferences u;
     u_profile_picture_url := u_profile_picture_url u; u_role := u_role u;
     u_years_experience := u_years_experience u; u_profile := u_profile u |}.

Definition update_user (user_id : string) (user : User) : M unit :=
  if negb (nonempty user_id) then raise (ValueError "Missing user_id or user data")
  else
    let! _ := logger INFO ("Updating user '" ++ user_id ++ "'...") in
    let! existing_user := get_user_by_id user_id in
    match existing_user with
    | None => raise (UserNotFoundError ("User with ID " ++ user_id ++ " not found"))
    | Some _ =>
        modify (fun w => set_users (<[user_id := with_id user_id user]> (users w)) w)
    end.

(** The embedding block of [update_user_from_cv_profile] reads
    [updated_user.experience], an attribute [User] does not have: the
    [AttributeError] is caught by the block's own [except] and logged, and
    the embeddings stay those of the existing user. *)
Definition update_user_from_cv_profile (user_id : string) (cv_profile_run : CVProfileRun)
  : M User :=
  if negb (CVProfileRunStatus.eqb (cvr_status cv_profile_run) CVProfileRunStatus.COMPLETED)
  then raise (ValueError "Cannot update user from incomplete CV profile")
  else
    let! existing_user := get_user_by_id user_id in
    match existing_user with
    | None => raise (UserNotFoundError ("User with ID " ++ user_id ++ " not found"))
    | Some existing_user =>
        let updated_user :=
          {| u_id := u_id existing_user;
             u_created_at := u_created_at existing_user;
             u_updated_at := u_updated_at existing_user;
             u_average_tenure := cvr_average_tenure cv_profile_run;
             u_creativity_score := cvr_creativity_score cv_profile_run;
             u_embeddings := u_embeddings existing_user;
             u_formatting_score := cvr_formatting_score cv_profile_run;
             u_grammar_score := cvr_grammar_score cv_profile_run;
             u_is_onboarded := u_is_onboarded existing_user;
             u_location_preferences := u_location_preferences existing_user;
             u_profile_picture_url := u_profile_picture_url existing_user;
             u_role := u_role existing_user;
             u_years_experience := cvr_years_experience cv_profile_run;
             u_profile := cvr_profile cv_profile_run |} in
        let! _ := logger WARNING
                    ("Failed to generate embeddings for user " ++ user_id
                     ++ ": 'User' object has no attribute 'experience'") in
        let! _ := update_user user_id updated_user in
        let! _ := logger INFO ("Updated user " ++ user_id ++ " with CV profile data") in
        ret updated_user
    end.

End UserManager.

(** [log_exception] of exceptions.py (the frame details are left out). *)
Definition log_exception (e : exn) : M unit :=
  logger ERROR ("Exception: " ++ exn_str e).

(** [Queue.task_done]: the count of unfinished tasks is not part of the
    world. *)
Definition task_done : M unit := ret tt.

(** [for x in xs: body x] *)
Fixpoint for_each {A} (xs : list A) (body : A -> M unit) : M unit :=
  match xs with
  | [] => ret tt
  | x :: xs' => let! _ := body x in for_each xs' body
  end.

Definition nl : string := String (ascii_of_nat 10) "".

(** ** ProfilerWorker (workers/profiler.py) *)

Module ProfilerWorker.

(** What the collaborators answer while one item is processed: the clock
    ([datetime.now]) as a timestamp and as a calendar date, and the body of
    the [try] of [LLMProcessor.analyze_cv]. *)
Record Env := {
  now : Z;
  today : Date;
  llm_parse : list string -> option CVDescription -> res (option CVProfile) }.

(** [ProfilerWorker()]: [__new__] hands out the one instance, [__init__]
    sets it up the first time only. There is no scan of the store here. *)
Definition init : M unit :=
  let! instance := gets profiler_worker in
  match instance with
  | Some _ => ret tt
  | None =>
      let! _ := modify (set_profiler_worker (Some [])) in
      let! _ := logger INFO "Started profiler thread Profiler-0" in
      logger INFO "Started profiler thread Profiler-1"
  end.

Definition add_to_queue (cv_id : string) (paragraphs : list string)
    (creativity_assessment : option CVDescription) : M unit :=
  let! instance := gets profiler_worker in
  match instance with
  | None => raise (AttributeError "'ProfilerWorker' object has no attribute 'profile_queue'")
  | Some q =>
      let! _ := modify (set_profiler_worker
                          (Some ((q ++ [(cv_id, paragraphs, creativity_assessment)])%list))) in
      logger INFO ("Added CV " ++ cv_id ++ " to profiling queue")
  end.

(** [self.profile_queue.get(timeout=1)] *)
Definition queue_get : M ProfilerItem :=
  let! instance := gets profiler_worker in
  match instance with
  | Some (item :: q) =>
      let! _ := modify (set_profiler_worker (Some q)) in ret item
  | _ => raise Empty
  end.

(** [LLMProcessor.analyze_cv]: whatever the body raises comes out as an
    [LLMInferenceError]. *)
Definition analyze_cv (env : Env) (paragraphs : list string)
    (creativity_assessment : option CVDescription) : M (option CVProfile) :=
  match llm_parse env paragraphs creativity_assessment with
  | Ok r => ret r
  | Raise e => raise (LLMInferenceError ("Failed to analyze CV: " ++ exn_str e))
  end.

(** The [try] body of [_process_queue]. *)
Definition process_item (thread_name : string) (env : Env) (item : ProfilerItem) : M unit :=
  let '(cv_id, paragraphs, creativity_assessment) := item in
  let! _ := logger INFO ("Profiler " ++ thread_name ++ " processing CV " ++ cv_id) in
  let! profile := analyze_cv env paragraphs creativity_assessment in
  let aggregates : option Q * option Q :=
    match profile with
    | Some p =>
        match cv_employment_history p with
        | [] => (None, None)
        | h => (Some (Metrics._calculate_years_experience (today env) h),
                Some (inject_Z (Metrics._calculate_average_tenure (today env) h)))
        end
    | None => (None, None)
    end in
  let years_experience := fst aggregates in
  let average_tenure := snd aggregates in
  let! _ := logger INFO ("Generated profile for CV " ++ cv_id) in
  let! _ := logger INFO "Total years of experience" in
  let! _ := logger INFO "Average tenure" in
  let! scores :=
    match creativity_assessment with
    | None => raise (AttributeError "'NoneType' object has no attribute 'creativity_score'")
    | Some c => ret c
    end in
  let! _ := lift (bind_arguments "update_cv_profile"
                    CVProfileManager.update_cv_profile_params
                    CVProfileManager.update_cv_profile_required
                    ["user_id"; "cv_profile"]
                    ["average_tenure"; "creativity_score"; "formatting_score";
                     "grammar_score"; "years_experience"]) in
  let! _ := CVProfileManager.update_cv_profile (now env) cv_id profile
              average_tenure (Some (creativity_score scores))
              (Some (formatting_score scores)) (Some (grammar_score scores))
              CVProfileRunStatus.COMPLETED None years_experience in
  let! user := UserManager.get_user_by_id cv_id in
  let! _ :=
    match user with
    | None => ret tt
    | Some _ =>
        let! cv_profile_run := CVProfileManager.get_cv_profile cv_id in
        match cv_profile_run with
        | None => raise (AttributeError "'NoneType' object has no attribute 'status'")
        | Some cv_profile_run =>
            let! user := UserManager.update_user_from_cv_profile cv_id cv_profile_run in
            if u_is_onboarded user then ret tt
            else UserManager.update_user cv_id (UserManager.with_is_onboarded true user)
        end
    end in
  logger INFO ("Profiler " ++ thread_name ++ " successfully processed CV " ++ cv_id).

(** [except Exception as e] of the inner [try]. *)
Definition on_exception (thread_name cv_id : string) (e : exn) : M unit :=
  logger ERROR ("Profiler " ++ thread_name ++ " encountered an error processing CV "
                ++ cv_id ++ ": " ++ exn_str e).

(** One turn of the [while self.is_running] loop of [_process_queue]. *)
Definition _process_queue (thread_name : string) (env : Env) : M unit :=
  try_except
    (let! item := queue_get in
     try_finally
       (try_except (process_item thread_name env item)
          (fun e => Some (on_exception thread_name (fst (fst item)) e)))
       task_done)
    (fun e => match e with
              | Empty => Some (ret tt)
              | _ => Some (log_exception e)
              end).

End ProfilerWorker.

(** ** CVProcessorWorker (workers/cv_processor.py) *)

Module CVProcessorWorker.

(** A link annotation of a PDF page, as the scan reads it: [annot_A] is the
    ["/A"] entry ([None] when the annotation has none) with its ["/URI"]
    ([None] when the action has none); [annot_Contents] and [annot_T] are the
    ["/Contents"] and ["/T"] entries. *)
Record Annotation := {
  annot_A : option (option string);
  annot_Contents : option string;
  annot_T : option string }.

(** A page: its ["/Annots"] entry, when it has one. *)
Record Page := { page_Annots : option (list Annotation) }.

(** What the collaborators answer while one item is processed. *)
Record Env := {
  now : Z;
  (** [open] and [PdfReader]: the pages of the document *)
  pdf_reader : string -> res (list Page);
  (** [DocumentProcessor.analyze_paragraphs] *)
  analyze_paragraphs : string -> res (list string);
  (** [fitz.open]: the number of pages to render *)
  fitz_open : string -> res nat;
  (** [os.path.join(os.path.dirname(file_path), "pages")] *)
  cv_page_directory : string -> string;
  (** [os.makedirs] and [os.listdir]: the stale entries of the pages
      directory, each with the outcome of removing it *)
  listdir : res (list (string * res unit));
  (** [page.get_pixmap] and [pix.save] for the page of a given number *)
  render_page : nat -> res unit;
  (** whether the vision client has an OpenAI client *)
  openai_client : bool;
  (** the body of the [try] of [describe_doc_pages] *)
  vision_parse : list string -> res (option CVDescription);
  (** [os.path.exists] of the pages directory and [shutil.rmtree] of it *)
  pages_exist : bool;
  rmtree : res unit }.

(** The paragraph the scan appends for a link that no paragraph contains. *)
Definition found_link (linked_text link : string) : string :=
  if nonempty linked_text
  then nl ++ "[Found link: '" ++ linked_text ++ "' -> " ++ link ++ "]"
  else nl ++ "[Found link: " ++ link ++ "]".

(** The text that was hyperlinked. *)
Definition linked_text_of (u : Annotation) : string :=
  match annot_Contents u with
  | Some c => c
  | None => match annot_T u with Some t => t | None => "" end
  end.

(** The effect of one link on the paragraph list. *)
Definition note_link (paragraphs : list string) (link linked_text : string) : list string :=
  if PyStr.any_contains link paragraphs then paragraphs
  else (paragraphs ++ [found_link linked_text link])%list.

(** Body of [for a in ann]. *)
Definition scan_annotation (paragraphs : list string) (u : Annotation) : res (list string) :=
  match annot_A u with
  | None => Raise (KeyError "'/A'")
  | Some None => Ok paragraphs
  | Some (Some link) => Ok (note_link paragraphs link (linked_text_of u))
  end.

Fixpoint scan_annotations (paragraphs : list string) (ann : list Annotation)
  : res (list string) :=
  match ann with
  | [] => Ok paragraphs
  | u :: ann' =>
      match scan_annotation paragraphs u with
      | Ok paragraphs' => scan_annotations paragraphs' ann'
      | Raise e => Raise e
      end
  end.

(** [for page in range(page_count)] *)
Fixpoint scan_links (paragraphs : list string) (pages : list Page) : res (list string) :=
  match pages with
  | [] => Ok paragraphs
  | page_object :: pages' =>
      match page_Annots page_object with
      | None => scan_links paragraphs pages'
      | Some ann =>
          match scan_annotations paragraphs ann with
          | Ok paragraphs' => scan_links paragraphs' pages'
          | Raise e => Raise e
          end
      end
  end.

(** Clearing the pages directory: a failure is logged and raised again. *)
Definition clear_pages (existing : list (string * res unit)) : M unit :=
  for_each existing
    (fun entry =>
       match snd entry with
       | Ok _ => ret tt
       | Raise e =>
           let! _ := logger ERROR ("Error clearing pages directory: " ++ exn_str e) in
           raise e
       end).

(** [for page in fitz_doc]: the pages are numbered from 0. *)
Fixpoint render_pages (env : Env) (dir : string) (number count : nat) : res (list string) :=
  match count with
  | O => Ok []
  | S count' =>
      match render_page env number with
      | Raise e => Raise e
      | Ok _ =>
          match render_pages env dir (S number) count' with
          | Raise e => Raise e
          | Ok names =>
              Ok ((dir ++ "/page-" ++ PyStr.str_of_nat number ++ ".png") :: names)
          end
      end
  end.

(** [VisionAnalysisClient.describe_doc_pages] *)
Definition describe_doc_pages (env : Env) (filenames : list string)
  : M (option CVDescription) :=
  match filenames with
  | [] => raise (ValueError "Filenames list cannot be empty")
  | _ =>
      if negb (openai_client env) then raise (ValueError "OpenAI client not configured")
      else
        match vision_parse env filenames with
        | Ok r => ret r
        | Raise e =>
            raise (LLMInferenceError
                     ("Failed to generate document page descriptions: " ++ exn_str e))
        end
  end.

Definition length_error_message (page_count : nat) : string :=
  "The file has " ++ PyStr.str_of_nat page_count
  ++ " pages, which is more than the maximum allowed ("
  ++ PyStr.str_of_nat Configuration.CV_MAX_PAGES ++ ")".

(** The branch [if file_path.lower().endswith(".pdf")]. *)
Definition process_pdf (thread_name : string) (env : Env) (cv_id file_path : string)
  : M (list string * option CVDescription) :=
  let! reader := lift (pdf_reader env file_path) in
  let page_count := length reader in
  if (Configuration.CV_MAX_PAGES <? page_count)%nat
  then raise (CVLengthError (length_error_message page_count) cv_id)
  else
    let! paragraphs := lift (analyze_paragraphs env file_path) in
    let! paragraphs := lift (scan_links paragraphs reader) in
    let! fitz_doc := lift (fitz_open env file_path) in
    let dir := cv_page_directory env file_path in
    let! existing := lift (listdir env) in
    let! _ := clear_pages existing in
    let! page_filenames := lift (render_pages env dir 0 fitz_doc) in
    let! creativity_assessment := describe_doc_pages env page_filenames in
    let! _ :=
      match creativity_assessment with
      | None => logger WARNING ("Worker " ++ thread_name
                  ++ " failed to generate creativity assessment for CV " ++ cv_id)
      | Some _ => ret tt
      end in
    let! _ :=
      if pages_exist env then
        match rmtree env with
        | Ok _ => logger INFO ("Cleaned up pages directory for CV " ++ cv_id)
        | Raise e => logger ERROR ("Error cleaning up pages directory for CV "
                                   ++ cv_id ++ ": " ++ exn_str e)
        end
      else ret tt in
    ret (paragraphs, creativity_assessment).

(** The [try] body of [_process_queue]. The two calls of
    [update_cv_profile] in this file pass the id as [cv_id=...]. *)
Definition process_item (thread_name : string) (env : Env) (cv_id file_path : string)
  : M unit :=
  let! _ := logger INFO ("Worker " ++ thread_name ++ " processing CV " ++ cv_id) in
  let! extracted :=
    if PyStr.endswith (PyStr.lower file_path) ".pdf"
    then process_pdf thread_name env cv_id file_path
    else raise (CVFormatError ("Unsupported file type: " ++ file_path) cv_id) in
  let paragraphs := fst extracted in
  let creativity_assessment := snd extracted in
  let! cv_profile := CVProfileManager.get_cv_profile cv_id in
  match cv_profile with
  | None => raise (AttributeError "'NoneType' object has no attribute 'updated_at'")
  | Some cv_profile =>
      let cv_profile := cvr_with_updated_at (now env) cv_profile in
      let! _ := lift (bind_arguments "update_cv_profile"
                        CVProfileManager.update_cv_profile_params
                        CVProfileManager.update_cv_profile_required
                        [] ["cv_id"; "cv_profile"; "status"]) in
      let! _ := CVProfileManager.update_cv_profile (now env) cv_id
                  (Some (cvr_profile cv_profile)) None None None None
                  (cvr_status cv_profile) None None in
      let! _ := ProfilerWorker.init in
      let! _ := ProfilerWorker.add_to_queue cv_id paragraphs creativity_assessment in
      logger INFO ("Worker " ++ thread_name ++ " successfully processed CV " ++ cv_id)
  end.

(** [except CVError as e] *)
Definition on_CVError (thread_name : string) (env : Env) (e : exn) (e_cv_id : string)
  : M unit :=
  let! cv_profile := CVProfileManager.get_cv_profile e_cv_id in
  match cv_profile with
  | None => raise (AttributeError "'NoneType' object has no attribute 'status'")
  | Some cv_profile =>
      let cv_profile := cvr_with_status CVProfileRunStatus.FAILED cv_profile in
      let! _ := lift (bind_arguments "update_cv_profile"
                        CVProfileManager.update_cv_profile_params
                        CVProfileManager.update_cv_profile_required
                        [] ["cv_id"; "cv_profile"; "status"; "status_comment"]) in
      let! _ := CVProfileManager.update_cv_profile (now env) e_cv_id
                  (Some (cvr_profile cv_profile)) None None None None
                  (cvr_status cv_profile) (Some (exn_str e)) None in
      logger ERROR ("Worker " ++ thread_name ++ " encountered an error processing CV "
                    ++ e_cv_id ++ ": " ++ exn_str e)
  end.

(** [except Exception as e] *)
Definition on_exception (thread_name cv_id : string) (e : exn) : M unit :=
  logger ERROR ("Worker " ++ thread_name ++ " encountered an error processing CV "
                ++ cv_id ++ ": " ++ exn_str e).

Definition add_cv_to_queue (cv_id file_path : string) : M unit :=
  let! instance := gets cv_worker in
  match instance with
  | None => raise (AttributeError "'CVProcessorWorker' object has no attribute 'cv_queue'")
  | Some q =>
      let! _ := modify (set_cv_worker (Some ((q ++ [(cv_id, file_path)])%list))) in
      logger INFO ("Added CV " ++ cv_id ++ " to processing queue")
  end.

(** [self.cv_queue.get(timeout=1)] *)
Definition queue_get : M (string * string) :=
  let! instance := gets cv_worker in
  match instance with
  | Some (item :: q) => let! _ := modify (set_cv_worker (Some q)) in ret item
  | _ => raise Empty
  end.

(** One turn of the [while self.is_running] loop of [_process_queue]. *)
Definition _process_queue (thread_name : string) (env : Env) : M unit :=
  try_except
    (let! item := queue_get in
     let cv_id := fst item in
     let file_path := snd item in
     try_finally
       (try_except (process_item thread_name env cv_id file_path)
          (fun e =>
             match as_CVError e with
             | Some e_cv_id => Some (on_CVError thread_name env e e_cv_id)
             | None => Some (on_exception thread_name cv_id e)
             end))
       task_done)
    (fun e => match e with
              | Empty => Some (ret tt)
              | _ => Some (log_exception e)
              end).

(** [CVProcessorWorker()]: the first construction creates the queue, loads
    the pending runs of the store into it and starts the threads; a later
    one returns the same instance untouched. *)
Definition init : M unit :=
  let! instance := gets cv_worker in
  match instance with
  | Some _ => ret tt
  | None =>
      let! _ := modify (set_cv_worker (Some [])) in
      let! _ :=
        try_except
          (let! pending_cvs := CVProfileManager.get_pending_cv_profiles in
           for_each pending_cvs
             (fun cv =>
                let! _ := logger INFO ("Loading pending CV profile run " ++ cvr_id cv
                                       ++ " into queue") in
                add_cv_to_queue (cvr_id cv) (cvr_file_path cv)))
          (fun e => Some (logger ERROR ("Error loading pending CV profile runs: "
                                        ++ exn_str e))) in
      let! _ := logger INFO "Started worker thread CVProcessor-0" in
      logger INFO "Started worker thread CVProcessor-1"
  end.

End CVProcessorWorker.

(** ** JDProcessorWorker (workers/jd_processor.py) *)

Module JDProcessorWorker.

Import RoleListingRunStatus.

Record Env := {
  now : Z;
  (** [open], [PdfReader] and [len(reader.pages)] *)
  page_count_of : string -> res nat;
  (** [DocumentProcessor.analyze_paragraphs] *)
  analyze_paragraphs : string -> res (list string);
  (** the body of the [try] of [LLMProcessor.analyze_jd] *)
  llm_parse : list string -> res (option RoleProfile);
  (** the [uuid4] drawn for the id of the new [RoleListing] *)
  new_listing_id : string;
  (** [EmbeddingsClient.generate_embeddings] *)
  generate_embeddings : string -> res (list Q) }.

Definition length_error_message (page_count : nat) : string :=
  "The file has " ++ PyStr.str_of_nat page_count
  ++ " pages, which is more than the maximum allowed ("
  ++ PyStr.str_of_nat Configuration.JD_MAX_PAGES ++ ")".

(** [LLMProcessor.analyze_jd] *)
Definition analyze_jd (env : Env) (paragraphs : list string) : M (option RoleProfile) :=
  match llm_parse env paragraphs with
  | Ok r => ret r
  | Raise e => raise (LLMInferenceError ("Failed to analyze CV: " ++ exn_str e))
  end.

(** The statement [if file_path.lower().endswith(".pdf"): ... else: raise]. *)
Definition extract_paragraphs (env : Env) (jd_id file_path : string) : M (list string) :=
  if PyStr.endswith (PyStr.lower file_path) ".pdf" then
    let! page_count := lift (page_count_of env file_path) in
    if (Configuration.JD_MAX_PAGES <? page_count)%nat
    then raise (JDLengthError (length_error_message page_count) jd_id)
    else lift (analyze_paragraphs env file_path)
  else raise (JDFormatError ("Unsupported file type: " ++ file_path) jd_id).

(** The [try] body of [_process_queue]. *)
Definition process_item (thread_name : string) (env : Env) (jd_id file_path : string)
  : M unit :=
  let! _ := logger INFO ("Worker " ++ thread_name ++ " processing JD " ++ jd_id) in
  let! role_profile_run := RoleProfileManager.get_role_profile jd_id in
  match role_profile_run with
  | None => raise (RoleListingError ("Role profile run " ++ jd_id ++ " not found") jd_id)
  | Some role_profile_run =>
      let role_profile_run := rpr_with_updated_at (now env) role_profile_run in
      let! _ := lift (bind_arguments "update_role_profile"
                        RoleProfileManager.update_role_profile_params
                        RoleProfileManager.update_role_profile_required
                        [] ["role_id"; "role_profile"; "creator_id"; "status"]) in
      let! role_profile_run :=
        RoleProfileManager.update_role_profile (now env) jd_id
          (Some (like_of_RoleProfileRun role_profile_run))
          (rpr_creator_id role_profile_run) (rpr_status role_profile_run) None in
      let! paragraphs := extract_paragraphs env jd_id file_path in
      let! jd_analysis := analyze_jd env paragraphs in
      let role_profile_run :=
        rpr_with_status COMPLETED (rpr_with_updated_at (now env) role_profile_run) in
      let! _ := lift (bind_arguments "update_role_profile"
                        RoleProfileManager.update_role_profile_params
                        RoleProfileManager.update_role_profile_required
                        [] ["role_id"; "role_profile"; "creator_id"; "status"]) in
      let! role_profile_run :=
        RoleProfileManager.update_role_profile (now env) jd_id
          (like_of_RoleProfile <$> jd_analysis)
          (rpr_creator_id role_profile_run) (rpr_status role_profile_run) None in
      let! _ := RoleListingManager.add_role_from_profile (now env) (new_listing_id env)
                  (generate_embeddings env) role_profile_run in
      let! _ := RoleProfileManager.delete_role_profile (rpr_id role_profile_run) in
      logger INFO ("Worker " ++ thread_name ++ " successfully processed JD " ++ jd_id)
  end.

(** [except RoleListingError as e] *)
Definition on_RoleListingError (thread_name : string) (env : Env) (e : exn)
    (e_jd_id : string) : M unit :=
  let! role_profile_run := RoleProfileManager.get_role_profile e_jd_id in
  let! _ :=
    match role_profile_run with
    | Some role_profile_run =>
        let role_profile_run := rpr_with_status FAILED role_profile_run in
        let! _ := lift (bind_arguments "update_role_profile"
                          RoleProfileManager.update_role_profile_params
                          RoleProfileManager.update_role_profile_required
                          [] ["role_id"; "role_profile"; "creator_id"; "status";
                              "status_comment"]) in
        let! _ := RoleProfileManager.update_role_profile (now env) e_jd_id
                    (Some (like_of_RoleProfileRun role_profile_run))
                    (rpr_creator_id role_profile_run) (rpr_status role_profile_run)
                    (Some (exn_str e)) in
        ret tt
    | None => ret tt
    end in
  logger ERROR ("Worker " ++ thread_name ++ " encountered an error processing JD "
                ++ e_jd_id ++ ": " ++ exn_str e).

(** [except Exception as e] *)
Definition on_exception (thread_name jd_id : string) (e : exn) : M unit :=
  logger ERROR ("Worker " ++ thread_name ++ " encountered an error processing JD "
                ++ jd_id ++ ": " ++ exn_str e).

Definition add_jd_to_queue (jd_id file_path : string) : M unit :=
  let! instance := gets jd_worker in
  match instance with
  | None => raise (AttributeError "'JDProcessorWorker' object has no attribute 'jd_queue'")
  | Some q =>
      let! _ := modify (set_jd_worker (Some ((q ++ [(jd_id, file_path)])%list))) in
      logger INFO ("Added JD " ++ jd_id ++ " to processing queue")
  end.

Definition queue_get : M (string * string) :=
  let! instance := gets jd_worker in
  match instance with
  | Some (item :: q) => let! _ := modify (set_jd_worker (Some q)) in ret item
  | _ => raise Empty
  end.

(** One turn of the [while self.is_running] loop of [_process_queue]. *)
Definition _process_queue (thread_name : string) (env : Env) : M unit :=
  try_except
    (let! item := queue_get in
     let jd_id := fst item in
     let file_path := snd item in
     try_finally
       (try_except (process_item thread_name env jd_id file_path)
          (fun e =>
             match as_RoleListingError e with
             | Some e_jd_id => Some (on_RoleListingError thread_name env e e_jd_id)
             | None => Some (on_exception thread_name jd_id e)
             end))
       task_done)
    (fun e => match e with
              | Empty => Some (ret tt)
              | _ => Some (log_exception e)
              end).

(** [JDProcessorWorker()] *)
Definition init : M unit :=
  let! instance := gets jd_worker in
  match instance with
  | Some _ => ret tt
  | None =>
      let! _ := modify (set_jd_worker (Some [])) in
      let! _ :=
        try_except
          (let! pending_jds := RoleProfileManager.get_pending_role_profiles in
           for_each pending_jds
             (fun jd =>
                let! _ := logger INFO ("Loading pending JD profile run " ++ rpr_id jd
                                       ++ " into queue") in
                add_jd_to_queue (rpr_id jd) (rpr_file_path jd)))
          (fun e => Some (logger ERROR ("Error loading pending JD profile runs: "
                                        ++ exn_str e))) in
      let! _ := logger INFO "Started worker thread JDProcessor-0" in
      logger INFO "Started worker thread JDProcessor-1"
  end.

End JDProcessorWorker.

(** ** The effect of the JD stage function on the containers

    The stage function of the JD worker, read as a function of the two role
    containers: what it returns or raises, the runs and the listings it
    leaves. *)

Module JDEffect.

Import JDProcessorWorker.

(** Extraction: the outcome of [extract_paragraphs]. *)
Definition extract_result (env : Env) (jd_id file_path : string) : res (list string) :=
  if PyStr.endswith (PyStr.lower file_path) ".pdf" then
    match page_count_of env file_path with
    | Raise e => Raise e
    | Ok page_count =>
        if (Configuration.JD_MAX_PAGES <? page_count)%nat
        then Raise (JDLengthError (length_error_message page_count) jd_id)
        else analyze_paragraphs env file_path
    end
  else Raise (JDFormatError ("Unsupported file type: " ++ file_path) jd_id).

(** The outcome of [analyze_jd]. *)
Definition analyze_result (env : Env) (paragraphs : list string) : res (option RoleProfile) :=
  match llm_parse env paragraphs with
  | Ok r => Ok r
  | Raise e => Raise (LLMInferenceError ("Failed to analyze CV: " ++ exn_str e))
  end.

(** The run [update_role_profile] builds over the stored document [d0]. *)
Definition merged (now : Z) (role_id : string) (d0 : RoleProfileRunDoc)
    (p : RoleProfileLike) (loc : Location) (creator_id : string)
    (status : RoleListingRunStatus.t) (status_comment : option string) : RoleProfileRun :=
  {| rpr_id := role_id; rpr_created_at := rpr_created_at d0; rpr_updated_at := now;
     rpr_creator_id := creator_id; rpr_file_path := rpr_file_path d0;
     rpr_status := status; rpr_status_comment := status_comment;
     rpr_fields :=
       {| rf_benefits := like_benefits p; rf_description := like_description p;
          rf_employment_type := like_employment_type p;
          rf_industry := like_industry p;
          rf_job_id := rf_job_id (rpr_fields d0); rf_level := like_level p;
          rf_location := loc;
          rf_organization_name := like_organization_name p;
          rf_preferred_qualifications := like_preferred_qualifications p;
          rf_requirements := like_requirements p;
          rf_role_mode := like_role_mode p; rf_salary := like_salary p;
          rf_title := like_title p; rf_url := like_url p |} |}.

(** The run after the first write-back: the timestamp is new, the status is
    the one that was read. *)
Definition touched (env : Env) (jd_id : string) (d0 : RoleProfileRunDoc)
    (s : RoleListingRunStatus.t) : RoleProfileRun :=
  merged (now env) jd_id d0 (like_of_RoleProfileRun d0) (rf_location (rpr_fields d0))
    (rpr_creator_id d0) s None.

(** The run after the completion write. *)
Definition completed (env : Env) (jd_id : string) (d0 : RoleProfileRunDoc)
    (s : RoleListingRunStatus.t) (a : RoleProfile) (loc : Location) : RoleProfileRun :=
  merged (now env) jd_id (role_model_dump (touched env jd_id d0 s))
    (like_of_RoleProfile a) loc (rpr_creator_id d0) RoleListingRunStatus.COMPLETED None.

(** The run after the failure write of the handler. *)
Definition failed (env : Env) (jd_id : string) (d0 : RoleProfileRunDoc) (e : exn)
  : RoleProfileRun :=
  merged (now env) jd_id d0 (like_of_RoleProfileRun d0) (rf_location (rpr_fields d0))
    (rpr_creator_id d0) RoleListingRunStatus.FAILED (Some (exn_str e)).

(** The embedding [add_role_from_profile] ends up with. *)
Definition embeddings_of (env : Env) (run : RoleProfileRun) : list Q :=
  match rf_description (rpr_fields run) with
  | None => []
  | Some description =>
      if nonempty description then
        match generate_embeddings env (RoleListingManager.embedding_text run description) with
        | Ok embeddings => embeddings
        | Raise _ => []
        end
      else []
  end.

(** The listing [add_role_from_profile] stores for a run. *)
Definition listing_of (env : Env) (run : RoleProfileRun) : RoleListing :=
  {| rl_id := new_listing_id env; rl_created_at := now env; rl_updated_at := now env;
     rl_creator_id := rpr_creator_id run; rl_embeddings := embeddings_of env run;
     rl_is_active := true; rl_fields := rpr_fields run |}.

Definition stage_effect (env : Env) (jd_id file_path : string)
    (runs : gmap string RoleProfileRunDoc) (listings : gmap string RoleListing)
  : res unit * gmap string RoleProfileRunDoc * gmap string RoleListing :=
  match runs !! jd_id with
  | None =>
      (Raise (RoleListingError ("Role profile run " ++ jd_id ++ " not found") jd_id),
       runs, listings)
  | Some d0 =>
      match RoleListingRunStatus.of_value (rpr_status d0) with
      | None =>
          (Raise (ValidationError "1 validation error for RoleProfileRun: status"),
           runs, listings)
      | Some s =>
          let runs1 := <[jd_id := role_model_dump (touched env jd_id d0 s)]> runs in
          match extract_result env jd_id file_path with
          | Raise e => (Raise e, runs1, listings)
          | Ok paragraphs =>
              match analyze_result env paragraphs with
              | Raise e => (Raise e, runs1, listings)
              | Ok None =>
                  (Raise (AttributeError "'NoneType' object has no attribute 'benefits'"),
                   runs1, listings)
              | Ok (Some a) =>
                  match rp_location a with
                  | None =>
                      (Raise (ValidationError
                                "1 validation error for RoleProfileRun: location"),
                       runs1, listings)
                  | Some loc =>
                      let run := completed env jd_id d0 s a loc in
                      (Ok tt,
                       delete jd_id (<[jd_id := role_model_dump run]> runs1),
                       <[new_listing_id env := listing_of env run]> listings)
                  end
              end
          end
      end
  end.

(** The runs the handler of a [RoleListingError] bound to [e_jd_id] leaves. *)
Definition handler_effect (env : Env) (e : exn) (e_jd_id : string)
    (runs : gmap string RoleProfileRunDoc) : gmap string RoleProfileRunDoc :=
  match runs !! e_jd_id with
  | None => runs
  | Some d0 =>
      match RoleListingRunStatus.of_value (rpr_status d0) with
      | None => runs
      | Some _ => <[e_jd_id := role_model_dump (failed env e_jd_id d0 e)]> runs
      end
  end.

(** The second half of C2 as the specification words it: whenever a domain
    error bound to the item is raised in the stage function, the run is
    afterwards in the store with status FAILED and the message of the error
    as its comment. *)
Definition failed_run_always_recorded : Prop :=
  forall (thread_name : string) (env : Env) (w : World) (jd_id file_path : string)
         (q : list (string * string)) (e : exn),
    jd_worker w = Some ((jd_id, file_path) :: q) ->
    fst (process_item thread_name env jd_id file_path (set_jd_worker (Some q) w))
    = Raise e ->
    as_RoleListingError e = Some jd_id ->
    exists d,
      role_profiles (snd (_process_queue thread_name env w)) !! jd_id = Some d
      /\ rpr_status d = "failed"
      /\ rpr_status_comment d = Some (exn_str e).

End JDEffect.

(** ** The rate limiter of the service clients
    (services/llm/processor.py, services/vision/client.py,
    services/storage/embeddings.py)

    Time is counted in clock ticks. [time.time()] reads the clock;
    [time.sleep(d)] returns once at least [d] ticks have passed; the clock
    may advance between two statements. The amounts by which the clock runs
    ahead are natural numbers supplied by the caller. *)

Module RateLimiter.

Local Open Scope Z_scope.

(** The fields of one limiter: the rate limit ([_api_rate_limit],
    [vision_rate_limit]) and the time of the last call ([_last_api_call],
    [_last_vision_call]). The mutex lets one caller at a time run [wait]. *)
Record t := { min_interval : Z; last_call : Z }.

(** How much longer than asked [time.sleep] sleeps, and how long it takes to
    reach the final [time.time()]. *)
Record Jitter := { overshoot : N; lag : N }.

(** The argument of [time.sleep] in a call that finds the clock at [now];
    [None] when the call does not sleep. *)
Definition sleep_request (l : t) (now : Z) : option Z :=
  if now - last_call l <? min_interval l
  then Some (min_interval l - (now - last_call l))
  else None.

(** [_wait_for_rate_limit] entered (mutex held) with the clock at [clock]:
    the limiter afterwards and the clock when the call returns. *)
Definition wait (j : Jitter) (l : t) (clock : Z) : t * Z :=
  let now := clock in
  let clock :=
    match sleep_request l now with
    | Some d => now + d + Z.of_N (overshoot j)
    | None => now
    end in
  let clock := clock + Z.of_N (lag j) in
  ({| min_interval := min_interval l; last_call := clock |}, clock).

(** The limiters of the text LLM client and of the vision client, with the
    clock they share: 0.5 s and 1.0 s in milliseconds, no call made yet. *)
Record Clients := { llm : t; vision : t; clock : Z }.

Definition clients_at (start : Z) : Clients :=
  {| llm := {| min_interval := 500; last_call := 0 |};
     vision := {| min_interval := 1000; last_call := 0 |};
     clock := start |}.

(** [LLMProcessor._wait_for_rate_limit] *)
Definition _wait_for_rate_limit (j : Jitter) (c : Clients) : Clients :=
  let '(l, k) := wait j (llm c) (clock c) in
  {| llm := l; vision := vision c; clock := k |}.

(** [VisionAnalysisClient._wait_for_vision_rate_limit] *)
Definition _wait_for_vision_rate_limit (j : Jitter) (c : Clients) : Clients :=
  let '(l, k) := wait j (vision c) (clock c) in
  {| llm := llm c; vision := l; clock := k |}.

End RateLimiter.

(** ** The pipeline as a transition system

    One transition is one request of the upload handlers (routers/cvs.py,
    routers/roles.py, routers/users.py), the construction of a worker pool,
    or one turn of a worker loop, which takes an item off its queue and
    processes it to the end. *)

Module Pipeline.

Inductive label :=
  | CreateUser (user : User)
  | UploadCV (now : Z) (user_id file_path : string)
  | UploadJD (now : Z) (role_id file_path user_id : string)
  | StartCVWorkers
  | StartJDWorkers
  | CVTurn (thread_name : string) (env : CVProcessorWorker.Env)
  | JDTurn (thread_name : string) (env : JDProcessorWorker.Env)
  | ProfilerTurn (thread_name : string) (env : ProfilerWorker.Env).

(** [upload_cv] of routers/cvs.py, after the file is saved. *)
Definition upload_cv (now : Z) (user_id file_path : string) : M unit :=
  let! user := UserManager.get_user_by_id user_id in
  match user with
  | None => ret tt
  | Some _ =>
      let! _ := CVProfileManager.add_cv_profile now user_id file_path in
      CVProcessorWorker.add_cv_to_queue user_id file_path
  end.

Definition is_recruiter (u : User) : bool :=
  match u_role u with Some RECRUITER => true | _ => false end.

(** [upload_jd] of routers/roles.py; [role_id] is the [uuid4] it draws. *)
Definition upload_jd (now : Z) (role_id file_path user_id : string) : M unit :=
  let! user := UserManager.get_user_by_id user_id in
  match user with
  | None => ret tt
  | Some user =>
      if is_recruiter user then
        let! _ := RoleProfileManager.add_role_profile now role_id file_path user_id in
        JDProcessorWorker.add_jd_to_queue role_id file_path
      else ret tt
  end.

Definition action (l : label) : M unit :=
  match l with
  | CreateUser user => UserManager.add_user user
  | UploadCV now user_id file_path => upload_cv now user_id file_path
  | UploadJD now role_id file_path user_id => upload_jd now role_id file_path user_id
  | StartCVWorkers => CVProcessorWorker.init
  | StartJDWorkers => JDProcessorWorker.init
  | CVTurn thread_name env => CVProcessorWorker._process_queue thread_name env
  | JDTurn thread_name env => JDProcessorWorker._process_queue thread_name env
  | ProfilerTurn thread_name env => ProfilerWorker._process_queue thread_name env
  end.

(** The world after a transition; an exception that leaves a request
    handler is answered by the web framework and changes nothing more. *)
Definition step (l : label) (w : World) : World := snd (action l w).

(** Explicit resubmission: the two uploads, which create a PENDING run. *)
Definition is_submission (l : label) : bool :=
  match l with
  | UploadCV _ _ _ | UploadJD _ _ _ _ => true
  | _ => false
  end.

Inductive reachable : World -> Prop :=
  | reachable_start : reachable empty_world
  | reachable_step l w : reachable w -> reachable (step l w).

Definition run (ls : list label) (w : World) : World :=
  fold_left (fun w l => step l w) ls w.

(** The statuses a stored run may show. *)
Definition status_values : list string := ["pending"; "completed"; "failed"].

Definition is_terminal (v : string) : Prop := v = "completed" \/ v = "failed".

(** The stored status of the run of an item, in either run container. *)
Definition cv_run_status (w : World) (i : string) : option string :=
  cvr_status <$> cv_profiles w !! i.

Definition role_run_status (w : World) (i : string) : option string :=
  rpr_status <$> role_profiles w !! i.



(** Every run of [m'] is COMPLETED or FAILED, or shows the status it has
    in [m]. *)
Definition advances {D} (status : D -> string) (m m' : gmap string D) : Prop :=
  forall i d', m' !! i = Some d' ->
    is_terminal (status d') \/ exists d, m !! i = Some d /\ status d = status d'.


End Pipeline.

(** ** The three worker pools, side by side *)

(** The queue item the recovery scan makes of a run. *)
Definition cv_item_of (r : CVProfileRun) : string * string := (cvr_id r, cvr_file_path r).

Definition jd_item_of (r : RoleProfileRun) : string * string := (rpr_id r, rpr_file_path r).

Module Pools.

Inductive pool := ResumePool | ListingPool | ProfilerPool.

(** Construction of the pool. *)
Definition construct (p : pool) : M unit :=
  match p with
  | ResumePool => CVProcessorWorker.init
  | ListingPool => JDProcessorWorker.init
  | ProfilerPool => ProfilerWorker.init
  end.

(** The ids of the items in the queue of the pool, in queue order; [None]
    while the pool is not constructed. *)
Definition queued_ids (p : pool) (w : World) : option (list string) :=
  match p with
  | ResumePool =>
      match cv_worker w with
      | Some q => Some (fst <$> q)
      | None => None
      end
  | ListingPool =>
      match jd_worker w with
      | Some q => Some (fst <$> q)
      | None => None
      end
  | ProfilerPool =>
      match profiler_worker w with
      | Some q => Some ((fun item : ProfilerItem => fst (fst item)) <$> q)
      | None => None
      end
  end.

(** The run of item [i] of the kind the pool works on is stored as PENDING.
    The profiler works on the runs of the CV container. *)
Definition pending (p : pool) (w : World) (i : string) : Prop :=
  match p with
  | ResumePool | ProfilerPool => Pipeline.cv_run_status w i = Some "pending"
  | ListingPool => Pipeline.role_run_status w i = Some "pending"
  end.

(** The file path stored with the run of item [i]. *)
Definition stored_path (p : pool) (w : World) (i : string) : option string :=
  match p with
  | ResumePool | ProfilerPool => cvr_file_path <$> cv_profiles w !! i
  | ListingPool => rpr_file_path <$> role_profiles w !! i
  end.

(** C5 as the specification words it: constructing any of the three pools
    enqueues exactly the PENDING runs of its kind, each once. *)
Definition every_pool_reloads_pending : Prop :=
  forall (p : pool) (w : World),
    queued_ids p w = None ->
    exists ids,
      queued_ids p (snd (construct p w)) = Some ids
      /\ NoDup ids
      /\ forall i, i ∈ ids <-> pending p w i.

End Pools.

(** ** Assertions about computations *)

(** Started in a world where [P] holds, [c] ends with an outcome and in a
    world that satisfy [Q]. *)
Definition hoare {A} (P : World -> Prop) (c : M A) (Q : res A -> World -> Prop) : Prop :=
  forall w, P w -> Q (fst (c w)) (snd (c w)).

(** [c] keeps the property [I] of the world, whatever its outcome. *)
Definition keeps {A} (I : World -> Prop) (c : M A) : Prop :=
  forall w, I w -> I (snd (c w)).

(** A property of the world that does not look at the log. *)
Definition log_blind (I : World -> Prop) : Prop :=
  forall w l, I w -> I (set_log l w).

(** Properties that do not look at the queue of one of the worker pools. *)
Definition cv_queue_blind (I : World -> Prop) : Prop :=
  forall w q, I w -> I (set_cv_worker q w).

Definition jd_queue_blind (I : World -> Prop) : Prop :=
  forall w q, I w -> I (set_jd_worker q w).

Definition profiler_queue_blind (I : World -> Prop) : Prop :=
  forall w q, I w -> I (set_profiler_worker q w).

(** [c] never raises. *)
Definition never_raises {A} (c : M A) : Prop :=
  forall w, is_ok (fst (c w)) = true.

(** ** Concrete runs of the pipeline, used as examples *)

Module Scenario.

Import Pipeline.

Definition new_user (user_id : string) (role : UserRole) : User :=
  {| u_id := user_id; u_created_at := 0; u_updated_at := 0;
     u_average_tenure := None; u_creativity_score := None; u_embeddings := [];
     u_formatting_score := None; u_grammar_score := None; u_is_onboarded := false;
     u_location_preferences := []; u_profile_picture_url := None;
     u_role := Some role; u_years_experience := None;
     u_profile := CVProfile_defaults |}.

Definition blank_page : CVProcessorWorker.Page :=
  {| CVProcessorWorker.page_Annots := None |}.

(** The collaborators of the CV worker for a document of [pages] pages on
    which the vision call answers [vision]; every other call succeeds. *)
Definition cv_env (pages : nat) (vision : res (option CVDescription))
  : CVProcessorWorker.Env :=
  {| CVProcessorWorker.now := 20;
     CVProcessorWorker.pdf_reader := fun _ => Ok (replicate pages blank_page);
     CVProcessorWorker.analyze_paragraphs := fun _ => Ok ["Engineer at Acme"];
     CVProcessorWorker.fitz_open := fun _ => Ok pages;
     CVProcessorWorker.cv_page_directory := fun _ => "uploads/pages";
     CVProcessorWorker.listdir := Ok [];
     CVProcessorWorker.render_page := fun _ => Ok tt;
     CVProcessorWorker.openai_client := true;
     CVProcessorWorker.vision_parse := fun _ => vision;
     CVProcessorWorker.pages_exist := true;
     CVProcessorWorker.rmtree := Ok tt |}.

Definition assessment : CVDescription :=
  {| creativity_score := 7; formatting_score := 8; grammar_score := 9 |}.

(** The collaborators of the profiler when the LLM call answers [llm]. *)
Definition profiler_env (llm : res (option CVProfile)) : ProfilerWorker.Env :=
  {| ProfilerWorker.now := 30;
     ProfilerWorker.today := {| month := 7; year := 2024 |};
     ProfilerWorker.llm_parse := fun _ _ => llm |}.

Definition engineer : RoleProfile :=
  {| rp_benefits := []; rp_description := "Builds compilers";
     rp_employment_type := Some FULL_TIME; rp_industry := None; rp_job_id := None;
     rp_level := Some SENIOR;
     rp_location := Some {| city := Some "Paris"; country := Some "France" |};
     rp_organization_name := Some "Acme"; rp_preferred_qualifications := [];
     rp_requirements := ["OCaml"]; rp_role_mode := Some REMOTE; rp_salary := None;
     rp_title := "Compiler engineer"; rp_url := None |}.

(** The collaborators of the JD worker for a document of [pages] pages on
    which the LLM call answers [llm]; every other call succeeds. *)
Definition jd_env (pages : nat) (llm : res (option RoleProfile)) : JDProcessorWorker.Env :=
  {| JDProcessorWorker.now := 40;
     JDProcessorWorker.page_count_of := fun _ => Ok pages;
     JDProcessorWorker.analyze_paragraphs := fun _ => Ok ["Compiler engineer"];
     JDProcessorWorker.llm_parse := fun _ => llm;
     JDProcessorWorker.new_listing_id := "l1";
     JDProcessorWorker.generate_embeddings := fun _ => Ok [] |}.

(** A job seeker has uploaded a résumé. *)
Definition cv_submitted : World :=
  run [CreateUser (new_user "u1" JOB_SEEKER); StartCVWorkers; UploadCV 1 "u1" "cv.pdf"]
    empty_world.

(** A recruiter has uploaded a job description. *)
Definition jd_submitted : World :=
  run [CreateUser (new_user "r1" RECRUITER); StartJDWorkers;
       UploadJD 2 "j1" "jd.pdf" "r1"]
    empty_world.

(** The job description turned out to have four pages. *)
Definition jd_failed : World :=
  step (JDTurn "JDProcessor-0" (jd_env 4 (Ok (Some engineer)))) jd_submitted.


(** The JD queue holds an item whose run is not in the store. *)
Definition jd_orphaned : World :=
  set_jd_worker (Some [("j1", "jd.pdf")]) empty_world.

Definition stored_cv (user_id status : string) : CVProfileRunDoc :=
  {| cvr_id := user_id; cvr_created_at := 0; cvr_updated_at := 0;
     cvr_average_tenure := None; cvr_creativity_score := None;
     cvr_file_path := "uploads/" ++ user_id ++ ".pdf"; cvr_formatting_score := None;
     cvr_grammar_score := None; cvr_status := status; cvr_status_comment := None;
     cvr_years_experience := None; cvr_profile := CVProfile_defaults |}.

Definition stored_jd (role_id status : string) : RoleProfileRunDoc :=
  {| rpr_id := role_id; rpr_created_at := 0; rpr_updated_at := 0;
     rpr_creator_id := "r1"; rpr_file_path := "uploads/" ++ role_id ++ ".pdf";
     rpr_status := status; rpr_status_comment := None;
     rpr_fields := RoleFields_defaults |}.

(** The store a restarted process finds: three PENDING runs of each kind
    next to a COMPLETED and a FAILED one; no pool is constructed yet. *)
Definition after_restart : World :=
  set_role_profiles
    (list_to_map [("j1", stored_jd "j1" "pending"); ("j2", stored_jd "j2" "failed");
                  ("j3", stored_jd "j3" "pending"); ("j4", stored_jd "j4" "pending")])
    (set_cv_profiles
       (list_to_map [("u1", stored_cv "u1" "pending"); ("u2", stored_cv "u2" "pending");
                     ("u3", stored_cv "u3" "completed"); ("u4", stored_cv "u4" "failed");
                     ("u5", stored_cv "u5" "pending")])
       empty_world).

End Scenario.

(** ** More of the managers

    The functions of the managers that the routers call and the workers do
    not. A query is a filter over the documents of the container. *)

(** More of services/roles/role_listing_manager.py. *)
Module RoleListings.

Definition rl_with_id (i : string) (r : RoleListing) : RoleListing :=
  {| rl_id := i; rl_created_at := rl_created_at r; rl_updated_at := rl_updated_at r;
     rl_creator_id := rl_creator_id r; rl_embeddings := rl_embeddings r;
     rl_is_active := rl_is_active r; rl_fields := rl_fields r |}.

Definition items (m : gmap string RoleListing) : list RoleListing :=
  (fun kd => rl_with_id (fst kd) (snd kd)) <$> map_to_list m.

Definition get_role_by_id (role_id : string) : M (option RoleListing) :=
  log_and_reraise
    (fun e => "Error fetching role " ++ role_id ++ ": " ++ exn_str e)
    (gets (fun w => rl_with_id role_id <$> role_listings w !! role_id)).

(** The query [c.creator_id = @creator_id]. *)
Definition get_roles_by_creator_id (creator_id : string) : M (list RoleListing) :=
  gets (fun w => List.filter (fun r => String.eqb (rl_creator_id r) creator_id)
                   (items (role_listings w))).

(** [container.delete_item] raises when there is no such item. *)
Definition delete_role (role_id : string) : M unit :=
  log_and_reraise
    (fun e => "Error deleting role listing " ++ role_id ++ ": " ++ exn_str e)
    (let! present := gets (fun w => role_listings w !! role_id) in
     match present with
     | None => raise (OtherException "CosmosResourceNotFoundError")
     | Some _ =>
         let! _ := modify (fun w => set_role_listings (delete role_id (role_listings w)) w) in
         logger INFO ("Deleted role listing " ++ role_id)
     end).

End RoleListings.

(** More of services/roles/role_profile_manager.py. *)
Module RoleProfiles.

Definition get_role_profiles_by_creator_id (creator_id : string) : M (list RoleProfileRun) :=
  log_and_reraise
    (fun e => "Error fetching role profiles for creator " ++ creator_id ++ ": "
              ++ exn_str e)
    (let! results :=
       gets (fun w => List.filter (fun d => String.eqb (rpr_creator_id d) creator_id)
                        (RoleProfileManager.items (role_profiles w))) in
     lift (RoleProfileManager.validate_all results)).

End RoleProfiles.

(** ** The routers (routers/cvs.py, routers/roles.py, routers/users.py)

    What a handler answers: the value it returns, which the framework sends
    with status 200, or a [JSONResponse] with a status code and an
    [{"error": ...}] body. *)

Inductive Response (A : Type) : Type :=
  | Returned (content : A)
  | JSONResponse (status_code : Z) (error : string).
Arguments Returned {A} _.
Arguments JSONResponse {A} _ _.

Module Routers.

(** [get_cv_profile_run_status] of routers/cvs.py *)
Definition get_cv_profile_run_status (user_id : string)
  : M (Response (CVProfileRunStatus.t * Z)) :=
  try_except
    (let! cv_profile := CVProfileManager.get_cv_profile user_id in
     match cv_profile with
     | None => ret (JSONResponse 404 "CV profile not found")
     | Some cv_profile =>
         ret (Returned (cvr_status cv_profile, cvr_updated_at cv_profile))
     end)
    (fun e =>
       Some (let! _ := logger ERROR ("Error fetching CV status for user " ++ user_id
                                     ++ ": " ++ exn_str e) in
             ret (JSONResponse 500 "Failed to fetch CV status"))).

(** [get_role_profile_run_status] of routers/roles.py *)
Definition get_role_profile_run_status (role_id : string)
  : M (Response (RoleListingRunStatus.t * Z)) :=
  try_except
    (let! role_profile := RoleProfileManager.get_role_profile role_id in
     match role_profile with
     | None => ret (JSONResponse 404 "Role profile not found")
     | Some role_profile =>
         ret (Returned (rpr_status role_profile, rpr_updated_at role_profile))
     end)
    (fun e =>
       Some (let! _ := logger ERROR ("Error fetching role status for role " ++ role_id
                                     ++ ": " ++ exn_str e) in
             ret (JSONResponse 500 "Failed to fetch role status"))).

(** [get_role] of routers/roles.py: a listing, or else a run. *)
Definition get_role (role_id : string) : M (Response (RoleListing + RoleProfileRun)) :=
  try_except
    (let! role := RoleListings.get_role_by_id role_id in
     match role with
     | Some role => ret (Returned (inl role))
     | None =>
         let! role_profile := RoleProfileManager.get_role_profile role_id in
         match role_profile with
         | Some role_profile => ret (Returned (inr role_profile))
         | None => ret (JSONResponse 404 "Role not found")
         end
     end)
    (fun e =>
       Some (let! _ := logger ERROR ("Error fetching role " ++ role_id ++ ": "
                                     ++ exn_str e) in
             ret (JSONResponse 500 "Failed to fetch role"))).

(** [delete_role] of routers/roles.py *)
Definition delete_role (role_id user_id : string) : M (Response string) :=
  try_except
    (let! role := RoleListings.get_role_by_id role_id in
     match role with
     | Some role =>
         if negb (String.eqb (rl_creator_id role) user_id)
         then ret (JSONResponse 403 "You are not authorized to delete this role")
         else
           let! _ := RoleListings.delete_role role_id in
           ret (Returned ("Role " ++ role_id ++ " deleted successfully"))
     | None =>
         let! role_profile := RoleProfileManager.get_role_profile role_id in
         match role_profile with
         | Some role_profile =>
             if negb (String.eqb (rpr_creator_id role_profile) user_id)
             then ret (JSONResponse 403 "You are not authorized to delete this role")
             else
               let! _ := RoleProfileManager.delete_role_profile role_id in
               ret (Returned ("Role profile " ++ role_id ++ " deleted successfully"))
         | None => ret (JSONResponse 404 "Role not found")
         end
     end)
    (fun e =>
       Some (let! _ := logger ERROR ("Error deleting role " ++ role_id ++ ": "
                                     ++ exn_str e) in
             ret (JSONResponse 500 "Failed to delete role"))).

(** An entry of the combined list of [get_user_listings]: a listing or a
    run, with its id. *)
Definition listing_id (x : RoleListing + RoleProfileRun) : string :=
  match x with
  | inl role => rl_id role
  | inr profile => rpr_id profile
  end.

Definition listing_creator_id (x : RoleListing + RoleProfileRun) : string :=
  match x with
  | inl role => rl_creator_id role
  | inr profile => rpr_creator_id profile
  end.

(** [get_user_listings] of routers/roles.py: the content is the user id, the
    combined list and [total_count]. *)
Definition get_user_listings (user_id : string)
  : M (Response (string * list (RoleListing + RoleProfileRun) * nat)) :=
  try_except
    (let! user := UserManager.get_user_by_id user_id in
     match user with
     | None => ret (JSONResponse 404 "User not found")
     | Some _ =>
         let! user_roles := RoleListings.get_roles_by_creator_id user_id in
         let! user_role_profiles :=
           RoleProfiles.get_role_profiles_by_creator_id user_id in
         let role_ids : gset string := list_to_set (rl_id <$> user_roles) in
         let filtered_profiles :=
           List.filter (fun profile => bool_decide (rpr_id profile ∉ role_ids))
             user_role_profiles in
         let combined_listings :=
           ((inl <$> user_roles) ++ (inr <$> filtered_profiles))%list in
         ret (Returned (user_id, combined_listings, length combined_listings))
     end)
    (fun e =>
       Some (let! _ := logger ERROR ("Error fetching combined listings for user "
                                     ++ user_id ++ ": " ++ exn_str e) in
             ret (JSONResponse 500 "Failed to fetch user listings"))).

(** [UserRole(value)] *)
Definition UserRole_of_value (value : string) : res UserRole :=
  if String.eqb value "recruiter" then Ok RECRUITER
  else if String.eqb value "job_seeker" then Ok JOB_SEEKER
  else Raise (ValueError ("'" ++ value ++ "' is not a valid UserRole")).

Definition with_role (role : option UserRole) (u : User) : User :=
  {| u_id := u_id u; u_created_at := u_created_at u; u_updated_at := u_updated_at u;
     u_average_tenure := u_average_tenure u;
     u_creativity_score := u_creativity_score u; u_embeddings := u_embeddings u;
     u_formatting_score := u_formatting_score u;
     u_grammar_score := u_grammar_score u; u_is_onboarded := u_is_onboarded u;
     u_location_preferences := u_location_preferences u;
     u_profile_picture_url := u_profile_picture_url u; u_role := role;
     u_years_experience := u_years_experience u; u_profile := u_profile u |}.

(** [update_user_role] of routers/users.py. The body [role_data] is a JSON
    object, here with string values. [except ValueError] also catches the
    validation error of pydantic, which is a [ValueError]. *)
Definition update_user_role (user_id : string) (role_data : gmap string string)
  : M (Response string) :=
  try_except
    (let! role :=
       lift (match role_data !! "role" with
             | None => Raise (KeyError "'role'")
             | Some value => UserRole_of_value value
             end) in
     let! user := UserManager.get_user_by_id user_id in
     match user with
     | None => ret (JSONResponse 404 "User not found")
     | Some user =>
         let! _ := UserManager.update_user user_id (with_role (Some role) user) in
         ret (Returned "User role updated successfully")
     end)
    (fun e =>
       match e with
       | ValueError _ | ValidationError _ => Some (ret (JSONResponse 400 (exn_str e)))
       | _ =>
           Some (let! _ := logger ERROR ("Error updating user role: " ++ exn_str e) in
                 ret (JSONResponse 500 "Internal server error"))
       end).

End Routers.

(** ** A caller of the rate limiter *)

Module Burst.

Import RateLimiter.
Local Open Scope Z_scope.

(** The times at which the calls of [_wait_for_rate_limit] return, for a
    caller that enters each call [gap] ticks after the previous one
    returned (the first one [gap] ticks after [clock]). *)
Fixpoint returns (l : t) (clock : Z) (calls : list (N * Jitter)) : list Z :=
  match calls with
  | [] => []
  | (gap, j) :: calls' =>
      let out := wait j l (clock + Z.of_N gap) in
      snd out :: returns (fst out) (snd out) calls'
  end.

(** A clock that neither oversleeps nor lags. *)
Definition exact : Jitter := {| overshoot := 0; lag := 0 |}.

End Burst.

(** ** More concrete runs *)

Module MoreScenarios.

Import Pipeline.



Definition stored_j1 : RoleProfileRunDoc :=
  {| rpr_id := "j1"; rpr_created_at := 2; rpr_updated_at := 2;
     rpr_creator_id := "r1"; rpr_file_path := "jd.pdf";
     rpr_status := "pending"; rpr_status_comment := None;
     rpr_fields := RoleFields_defaults |}.

(** The listing of "j1" has been promoted; a second recruiter exists. *)
Definition jd_promoted : World :=
  run [JDTurn "JDProcessor-0" (Scenario.jd_env 1 (Ok (Some Scenario.engineer)));
       CreateUser (Scenario.new_user "r2" RECRUITER);
       UploadJD 3 "j2" "other.pdf" "r1"]
    Scenario.jd_submitted.

End MoreScenarios.

(** * Facts about the derived aggregates *)

Module MetricsFacts.

Import Metrics.
Local Open Scope Q_scope.



Lemma floor_bounds (x : Q) :
  inject_Z (Qfloor x) <= x /\ x < inject_Z (Qfloor x) + 1.
Proof.
  split; [apply Qfloor_le|].
  pose proof (Qlt_floor x) as H. rewrite inject_Z_plus in H. exact H.
Qed.

(** [py_round] returns a nearest integer. *)
Lemma py_round_nearest (x : Q) : Qabs (inject_Z (py_round x) - x) <= 1 # 2.
Proof.
  destruct (floor_bounds x) as [Hlo Hhi]. unfold py_round.
  destruct (Qcompare (x - inject_Z (Qfloor x)) (1 # 2)) eqn:C.
  - apply Qeq_alt in C.
    destruct (Z.even (Qfloor x)); apply Qabs_Qle_condition;
      rewrite ?inject_Z_plus; change (inject_Z 1) with 1; split; lra.
  - apply Qlt_alt in C. apply Qabs_Qle_condition. split; lra.
  - apply Qgt_alt in C. apply Qabs_Qle_condition.
    rewrite inject_Z_plus; change (inject_Z 1) with 1. split; lra.
Qed.

(** At a tie the even neighbour is returned. *)
Lemma py_round_tie_even (x : Q) :
  Qabs (inject_Z (py_round x) - x) == 1 # 2 -> Z.even (py_round x) = true.
Proof.
  destruct (floor_bounds x) as [Hlo Hhi]. unfold py_round.
  destruct (Qcompare (x - inject_Z (Qfloor x)) (1 # 2)) eqn:C.
  - intros _. destruct (Z.even (Qfloor x)) eqn:Ev; [exact Ev|].
    rewrite Z.even_add, Ev. reflexivity.
  - apply Qlt_alt in C. intros H.
    rewrite Qabs_neg in H by lra. lra.
  - apply Qgt_alt in C. intros H.
    rewrite inject_Z_plus in H. change (inject_Z 1) with 1 in H.
    rewrite Qabs_pos in H by lra. lra.
Qed.



Lemma tenure_step_spec (now : Date) (acc : Z) (e : Employment) :
  tenure_step now acc e = (acc + spec_months now e)%Z.
Proof.
  unfold tenure_step, effective_end, spec_months.
  destruct (year (end_date e) =? 0)%Z; reflexivity.
Qed.

Lemma total_months_spec (now : Date) (h : list Employment) (acc : Z) :
  fold_left (tenure_step now) h acc
  = (acc + fold_right Z.add 0%Z (map (spec_months now) h))%Z.
Proof.
  revert acc. induction h as [|e h IH]; intros acc; simpl.
  - lia.
  - rewrite IH, tenure_step_spec. lia.
Qed.



(** C7. For a non-empty employment history the average tenure is the mean of
    the per-entry months (end minus start in months, the current year and
    month standing in for an end year of 0) rounded to a nearest whole
    month, a tie at .5 always going to the even month; one entry from
    2020-01 to 2022-01 gives exactly 24, and the totals 5 and 7 over two
    entries (means 2.5 and 3.5) give 2 and 4. *)
Theorem average_tenure_rounds_mean (now : Date) (e : Employment) (h : list Employment) :
  let history := e :: h in
  let mean := spec_average_months now history in
  let r := _calculate_average_tenure now history in
  Qabs (inject_Z r - mean) <= 1 # 2
  /\ (Qabs (inject_Z r - mean) == 1 # 2 -> Z.even r = true)
  /\ _calculate_average_tenure now [job 2020 1 2022 1] = 24%Z
  /\ _calculate_average_tenure now [job 2020 1 2020 3; job 2021 1 2021 4] = 2%Z
  /\ _calculate_average_tenure now [job 2020 1 2020 4; job 2021 1 2021 5] = 4%Z.
Proof.
  cbv zeta.
  assert (E : _calculate_average_tenure now (e :: h)
              = py_round (spec_average_months now (e :: h))).
  { unfold _calculate_average_tenure, spec_average_months.
    rewrite total_months_spec. reflexivity. }
  rewrite E. repeat split.
  - apply py_round_nearest.
  - apply py_round_tie_even.
Qed.


End MetricsFacts.

(** * Facts about the rate limiter *)

Module RateLimiterFacts.

Import RateLimiter.
Local Open Scope Z_scope.



Lemma wait_clock_monotone (j : Jitter) (l : t) (clock : Z) :
  clock <= snd (wait j l clock).
Proof.
  unfold wait, sleep_request. simpl.
  destruct (clock - last_call l <? min_interval l) eqn:E; simpl; [apply Z.ltb_lt in E|]; lia.
Qed.



Example llm_then_vision_not_delayed :
  let c := clients_at 1000000 in
  let c1 := _wait_for_rate_limit {| overshoot := 0; lag := 0 |} c in
  let c2 := _wait_for_vision_rate_limit {| overshoot := 0; lag := 0 |} c1 in
  let c3 := _wait_for_rate_limit {| overshoot := 0; lag := 0 |} c2 in
  clock c2 = 1000000 /\ clock c3 = 1000500.
Proof. split; reflexivity. Qed.

End RateLimiterFacts.

(** * Facts about the scan of embedded links *)

Module LinkFacts.

Import CVProcessorWorker.

Lemma append_cons (c : ascii) (x y : string) : String c x ++ y = String c (x ++ y).
Proof. reflexivity. Qed.

Lemma append_assoc (x y z : string) : (x ++ y) ++ z = x ++ (y ++ z).
Proof.
  induction x as [|c x IH]; [reflexivity|].
  rewrite !append_cons, IH. reflexivity.
Qed.

Lemma prefix_append (n b : string) : String.prefix n (n ++ b) = true.
Proof.
  induction n as [|c n IH]; [destruct b; reflexivity|].
  rewrite append_cons. simpl.
  destruct (Ascii.ascii_dec c c); [exact IH|congruence].
Qed.

Lemma prefix_split (n h : string) :
  String.prefix n h = true -> exists b, h = n ++ b.
Proof.
  revert h. induction n as [|c n IH]; intros h H.
  - exists h. reflexivity.
  - destruct h as [|d h]; simpl in H; [discriminate|].
    destruct (Ascii.ascii_dec c d) as [->|]; [|discriminate].
    destruct (IH h H) as [b ->]. exists b. reflexivity.
Qed.

Lemma contains_unfold (n h : string) :
  PyStr.contains n h
  = if String.prefix n h then true
    else match h with
         | EmptyString => false
         | String _ h' => PyStr.contains n h'
         end.
Proof. destruct h; reflexivity. Qed.

Lemma contains_occurs (n h : string) :
  PyStr.contains n h = true <-> occurs_in n h.
Proof.
  split.
  - induction h as [|c h IH]; rewrite contains_unfold;
      destruct (String.prefix n _) eqn:P; intros H.
    + apply prefix_split in P. destruct P as [b ->]. exists "", b. reflexivity.
    + discriminate.
    + apply prefix_split in P. destruct P as [b ->]. exists "", b. reflexivity.
    + destruct (IH H) as (a & b & ->). exists (String c a), b. reflexivity.
  - intros (a & b & ->). induction a as [|c a IH].
    + change ("" ++ n ++ b) with (n ++ b).
      rewrite contains_unfold, prefix_append. reflexivity.
    + rewrite contains_unfold.
      destruct (String.prefix n _); [reflexivity|]. exact IH.
Qed.

Lemma any_contains_occurs (link : string) (ps : list string) :
  PyStr.any_contains link ps = true <-> exists p, In p ps /\ occurs_in link p.
Proof.
  unfold PyStr.any_contains. rewrite existsb_exists.
  split; intros (p & Hin & H); exists p; split; auto; apply contains_occurs; exact H.
Qed.

Lemma found_link_has_uri (text link : string) : occurs_in link (found_link text link).
Proof.
  unfold found_link. destruct (nonempty text).
  - exists (nl ++ "[Found link: '" ++ text ++ "' -> "), "]".
    rewrite !append_assoc. reflexivity.
  - exists (nl ++ "[Found link: "), "]". reflexivity.
Qed.

Lemma nonempty_true (s : string) : s <> "" -> nonempty s = true.
Proof.
  intros H. unfold nonempty. destruct (String.eqb s "") eqn:E; [|reflexivity].
  apply String.eqb_eq in E. contradiction.
Qed.


Lemma scan_annotation_extends (ps ps' : list string) (u : Annotation) :
  scan_annotation ps u = Ok ps' -> exists added, ps' = (ps ++ added)%list.
Proof.
  unfold scan_annotation, note_link.
  destruct (annot_A u) as [[link|]|]; intros H; inversion H; subst.
  - destruct (PyStr.any_contains link ps).
    + exists []. rewrite app_nil_r. reflexivity.
    + eexists. reflexivity.
  - exists []. rewrite app_nil_r. reflexivity.
Qed.

Lemma scan_annotations_extends (ann : list Annotation) (ps ps' : list string) :
  scan_annotations ps ann = Ok ps' -> exists added, ps' = (ps ++ added)%list.
Proof.
  revert ps. induction ann as [|u ann IH]; intros ps H; simpl in H.
  - inversion H. exists []. rewrite app_nil_r. reflexivity.
  - destruct (scan_annotation ps u) as [ps1|] eqn:E; [|discriminate].
    apply scan_annotation_extends in E. destruct E as [a1 ->].
    destruct (IH _ H) as [a2 ->]. exists (a1 ++ a2)%list.
    rewrite <- app_assoc. reflexivity.
Qed.

Lemma scan_links_extends (pages : list Page) (ps ps' : list string) :
  scan_links ps pages = Ok ps' -> exists added, ps' = (ps ++ added)%list.
Proof.
  revert ps. induction pages as [|pg pages IH]; intros ps H; simpl in H.
  - inversion H. exists []. rewrite app_nil_r. reflexivity.
  - destruct (page_Annots pg) as [ann|]; [|exact (IH _ H)].
    destruct (scan_annotations ps ann) as [ps1|] eqn:E; [|discriminate].
    apply scan_annotations_extends in E. destruct E as [a1 ->].
    destruct (IH _ H) as [a2 ->]. exists (a1 ++ a2)%list.
    rewrite <- app_assoc. reflexivity.
Qed.


Example link_scan_example :
  scan_links ["See https://a.example/x for details"]
    [ {| page_Annots := None |};
      {| page_Annots := Some
           [ {| annot_A := Some (Some "https://a.example/x");
                annot_Contents := None; annot_T := None |};
             {| annot_A := Some (Some "https://b.example");
                annot_Contents := Some "my site"; annot_T := None |};
             {| annot_A := Some None; annot_Contents := None; annot_T := None |};
             {| annot_A := Some (Some "https://c.example");
                annot_Contents := None; annot_T := None |} ] |} ]
  = Ok [ "See https://a.example/x for details";
         nl ++ "[Found link: 'my site' -> https://b.example]";
         nl ++ "[Found link: https://c.example]" ].
Proof. vm_compute. reflexivity. Qed.

End LinkFacts.

(** * Reasoning about computations *)

Module Logic.

Lemma bind_ok {A B} (c : M A) (k : A -> M B) (w w' : World) (a : A) :
  c w = (Ok a, w') -> bind c k w = k a w'.
Proof. intros H. unfold bind. rewrite H. reflexivity. Qed.

Lemma bind_raise {A B} (c : M A) (k : A -> M B) (w w' : World) (e : exn) :
  c w = (Raise e, w') -> bind c k w = (Raise e, w').
Proof. intros H. unfold bind. rewrite H. reflexivity. Qed.

Lemma bind_logger {B} (lvl : log_level) (msg : string) (k : unit -> M B) (w : World) :
  bind (logger lvl msg) k w = k tt (set_log (log w ++ [(lvl, msg)]) w).
Proof. reflexivity. Qed.

Lemma bind_lift_ok {A B} (r : res A) (a : A) (k : A -> M B) (w : World) :
  r = Ok a -> bind (lift r) k w = k a w.
Proof. intros ->. reflexivity. Qed.

Lemma log_and_reraise_ok {A} (msg : exn -> string) (body : M A) (w w' : World) (a : A) :
  body w = (Ok a, w') -> log_and_reraise msg body w = (Ok a, w').
Proof. intros H. unfold log_and_reraise, try_except. rewrite H. reflexivity. Qed.

Lemma log_and_reraise_raise {A} (msg : exn -> string) (body : M A) (w w' : World) (e : exn) :
  body w = (Raise e, w') ->
  log_and_reraise msg body w = (Raise e, set_log (log w' ++ [(ERROR, msg e)]) w').
Proof. intros H. unfold log_and_reraise, try_except. rewrite H. reflexivity. Qed.

Section Keeps.

Context (I : World -> Prop) (blind : log_blind I).

Lemma keeps_ret {A} (a : A) : keeps I (ret a).
Proof. intros w H. exact H. Qed.

Lemma keeps_raise {A} (e : exn) : keeps I (@raise A e).
Proof. intros w H. exact H. Qed.

Lemma keeps_lift {A} (r : res A) : keeps I (lift r).
Proof. intros w H. exact H. Qed.

Lemma keeps_gets {A} (f : World -> A) : keeps I (gets f).
Proof. intros w H. exact H. Qed.

Lemma keeps_modify (f : World -> World) :
  (forall w, I w -> I (f w)) -> keeps I (modify f).
Proof. intros Hf w H. apply Hf, H. Qed.

Lemma keeps_logger (lvl : log_level) (msg : string) : keeps I (logger lvl msg).
Proof. intros w H. apply blind, H. Qed.

Lemma keeps_bind {A B} (c : M A) (k : A -> M B) :
  keeps I c -> (forall a, keeps I (k a)) -> keeps I (bind c k).
Proof.
  intros Hc Hk w H. unfold bind. specialize (Hc w H).
  destruct (c w) as [[a|e] w1]; simpl in *; [apply Hk, Hc|exact Hc].
Qed.

(** What follows a collaborator's answer runs only when the answer is a
    value. *)
Lemma keeps_bind_lift {A B} (r : res A) (k : A -> M B) :
  (forall a, r = Ok a -> keeps I (k a)) -> keeps I (bind (lift r) k).
Proof.
  intros Hk w H. unfold bind, lift.
  destruct r as [a|e]; simpl; [apply (Hk a eq_refl), H|exact H].
Qed.

Lemma keeps_try_except {A} (body : M A) (handler : exn -> option (M A)) :
  keeps I body ->
  (forall e h, handler e = Some h -> keeps I h) ->
  keeps I (try_except body handler).
Proof.
  intros Hb Hh w H. unfold try_except. specialize (Hb w H).
  destruct (body w) as [[a|e] w1]; simpl in *; [exact Hb|].
  destruct (handler e) as [h|] eqn:E; [apply (Hh e h E), Hb|exact Hb].
Qed.

Lemma keeps_try_finally {A} (body : M A) (fin : M unit) :
  keeps I body -> keeps I fin -> keeps I (try_finally body fin).
Proof.
  intros Hb Hf w H. unfold try_finally. specialize (Hb w H).
  destruct (body w) as [r w1]; simpl in *. specialize (Hf w1 Hb).
  destruct (fin w1) as [[u|e] w2]; simpl in *; exact Hf.
Qed.

Lemma keeps_log_and_reraise {A} (msg : exn -> string) (body : M A) :
  keeps I body -> keeps I (log_and_reraise msg body).
Proof.
  intros Hb. apply keeps_try_except; [exact Hb|].
  intros e h E. inversion E; subst.
  apply keeps_bind; [apply keeps_logger|intros; apply keeps_raise].
Qed.

Lemma keeps_for_each {A} (xs : list A) (body : A -> M unit) :
  (forall x, keeps I (body x)) -> keeps I (for_each xs body).
Proof.
  intros Hb. induction xs as [|x xs IH]; simpl.
  - apply keeps_ret.
  - apply keeps_bind; [apply Hb|intros; exact IH].
Qed.

Lemma keeps_task_done : keeps I task_done.
Proof. apply keeps_ret. Qed.

Lemma keeps_log_exception (e : exn) : keeps I (log_exception e).
Proof. apply keeps_logger. Qed.

End Keeps.

(** One step of a proof that a computation keeps a property: the structure
    of the computation is followed; what is left are the updates of the
    world. *)
Ltac keeps_step blind :=
  lazymatch goal with
  | |- keeps _ (bind (lift _) _) => apply keeps_bind_lift; intros ? ?
  | |- keeps _ (bind _ _) => apply keeps_bind; [|intros ?]
  | |- keeps _ (ret _) => apply keeps_ret
  | |- keeps _ (raise _) => apply keeps_raise
  | |- keeps _ (lift _) => apply keeps_lift
  | |- keeps _ (gets _) => apply keeps_gets
  | |- keeps _ (logger _ _) => apply (keeps_logger _ blind)
  | |- keeps _ (log_exception _) => apply (keeps_log_exception _ blind)
  | |- keeps _ task_done => apply keeps_task_done
  | |- keeps _ (log_and_reraise _ _) => apply (keeps_log_and_reraise _ blind)
  | |- keeps _ (try_finally _ _) => apply keeps_try_finally
  | |- keeps _ (for_each _ _) => apply keeps_for_each; intros ?
  | |- keeps _ (match ?x with _ => _ end) => destruct x
  | |- keeps _ (let '(_, _) := ?x in _) => destruct x
  end.

Ltac keeps_auto blind := repeat keeps_step blind.

(** ** Outcomes *)

Lemma never_raises_ret {A} (a : A) : never_raises (ret a).
Proof. intros w. reflexivity. Qed.

Lemma never_raises_logger (lvl : log_level) (msg : string) : never_raises (logger lvl msg).
Proof. intros w. reflexivity. Qed.

(** A [try] whose [except] clauses catch everything and do not raise
    themselves does not raise. *)
Lemma never_raises_try_except {A} (body : M A) (handler : exn -> option (M A)) :
  (forall e, exists h, handler e = Some h /\ never_raises h) ->
  never_raises (try_except body handler).
Proof.
  intros Hh w. unfold try_except.
  destruct (body w) as [[a|e] w1]; [reflexivity|].
  destruct (Hh e) as (h & -> & Hn). apply Hn.
Qed.

Lemma loop_handler_never_raises (e : exn) :
  exists h,
    match e with
    | Empty => Some (ret tt)
    | _ => Some (log_exception e)
    end = Some h /\ never_raises h.
Proof.
  destruct e; eexists; (split; [reflexivity|]);
    first [apply never_raises_ret | apply never_raises_logger].
Qed.

End Logic.

(** * Facts about the CV worker *)

Module CVFacts.

Import Logic CVProcessorWorker.

Section Frame.

Context (I : World -> Prop) (blind : log_blind I).

Lemma get_cv_profile_keeps (user_id : string) :
  keeps I (CVProfileManager.get_cv_profile user_id).
Proof. unfold CVProfileManager.get_cv_profile. keeps_auto blind. Qed.

Lemma process_pdf_keeps (thread_name : string) (env : Env) (cv_id file_path : string) :
  keeps I (process_pdf thread_name env cv_id file_path).
Proof.
  unfold process_pdf, clear_pages, describe_doc_pages.
  keeps_auto blind.
Qed.

(** The keyword [cv_id] is not a parameter of [update_cv_profile]. *)
Lemma write_back_arguments_rejected :
  bind_arguments "update_cv_profile" CVProfileManager.update_cv_profile_params
    CVProfileManager.update_cv_profile_required [] ["cv_id"; "cv_profile"; "status"]
  = Raise (TypeError "update_cv_profile() got an unexpected keyword argument 'cv_id'").
Proof. reflexivity. Qed.

Lemma failure_arguments_rejected :
  bind_arguments "update_cv_profile" CVProfileManager.update_cv_profile_params
    CVProfileManager.update_cv_profile_required []
    ["cv_id"; "cv_profile"; "status"; "status_comment"]
  = Raise (TypeError "update_cv_profile() got an unexpected keyword argument 'cv_id'").
Proof. reflexivity. Qed.

Lemma cv_process_item_keeps (thread_name : string) (env : Env) (cv_id file_path : string) :
  keeps I (process_item thread_name env cv_id file_path).
Proof.
  unfold process_item.
  apply keeps_bind; [keeps_auto blind|intros _].
  apply keeps_bind.
  { destruct (PyStr.endswith _ _); [apply process_pdf_keeps|apply keeps_raise]. }
  intros extracted.
  apply keeps_bind; [apply get_cv_profile_keeps|intros [cv_profile|]].
  - apply keeps_bind_lift. intros a E.
    rewrite write_back_arguments_rejected in E. discriminate.
  - apply keeps_raise.
Qed.

Lemma on_CVError_keeps (thread_name : string) (env : Env) (e : exn) (e_cv_id : string) :
  keeps I (on_CVError thread_name env e e_cv_id).
Proof.
  unfold on_CVError.
  apply keeps_bind; [apply get_cv_profile_keeps|intros [cv_profile|]].
  - apply keeps_bind_lift. intros a E.
    rewrite failure_arguments_rejected in E. discriminate.
  - apply keeps_raise.
Qed.

(** A turn of the CV worker changes nothing but its own queue and the log. *)
Lemma cv_turn_keeps (thread_name : string) (env : Env) :
  cv_queue_blind I -> keeps I (_process_queue thread_name env).
Proof.
  intros qblind. unfold _process_queue.
  apply keeps_try_except.
  - apply keeps_bind.
    + unfold queue_get. keeps_auto blind.
      apply keeps_modify. intros w H. apply qblind, H.
    + intros item. apply keeps_try_finally; [|apply keeps_task_done].
      apply keeps_try_except; [apply cv_process_item_keeps|].
      intros e h E. destruct (as_CVError e); inversion E; subst.
      * apply on_CVError_keeps.
      * unfold on_exception. keeps_auto blind.
  - intros e h E. destruct e; inversion E; subst; keeps_auto blind.
Qed.

End Frame.

Lemma cv_turn_never_raises (thread_name : string) (env : Env) :
  never_raises (_process_queue thread_name env).
Proof.
  unfold _process_queue. apply never_raises_try_except.
  intros e. apply loop_handler_never_raises.
Qed.

Lemma cv_queue_get_item (w : World) (item : string * string) (q : list (string * string)) :
  cv_worker w = Some (item :: q) ->
  queue_get w = (Ok item, set_cv_worker (Some q) w).
Proof. intros H. unfold queue_get, bind, gets, modify, ret. rewrite H. reflexivity. Qed.

(** The handlers of a turn, by the outcome of the stage function. *)
Lemma cv_turn_outcome (thread_name : string) (env : Env) (w : World)
    (item : string * string) (q : list (string * string)) :
  cv_worker w = Some (item :: q) ->
  let started := set_cv_worker (Some q) w in
  let body := process_item thread_name env (fst item) (snd item) started in
  _process_queue thread_name env w
  = match fst body with
    | Ok _ => (Ok tt, snd body)
    | Raise e =>
        match as_CVError e with
        | None => on_exception thread_name (fst item) e (snd body)
        | Some e_cv_id =>
            match on_CVError thread_name env e e_cv_id (snd body) with
            | (Ok _, w') => (Ok tt, w')
            | (Raise Empty, w') => (Ok tt, w')
            | (Raise e', w') => log_exception e' w'
            end
        end
    end.
Proof.
  intros Hq. cbv zeta. unfold _process_queue.
  unfold try_except at 1. rewrite (bind_ok _ _ _ _ _ (cv_queue_get_item w item q Hq)).
  unfold try_finally, try_except, task_done, ret.
  destruct (process_item thread_name env (fst item) (snd item) (set_cv_worker (Some q) w))
    as [[[]|e] w1]; simpl; [reflexivity|].
  destruct (as_CVError e) as [i|] eqn:E.
  - destruct (on_CVError thread_name env e i w1) as [[[]|e'] w2]; [reflexivity|].
    destruct e'; reflexivity.
  - unfold on_exception, logger, modify. reflexivity.
Qed.

End CVFacts.

(** * Facts about the run-record managers and the profiler *)

Module ManagerFacts.

Import Logic.

Lemma cv_validate_dump (r : CVProfileRun) : cv_model_validate (cv_model_dump r) = Ok r.
Proof. destruct r as [? ? ? ? ? ? ? ? [] ? ? ?]; reflexivity. Qed.

Lemma role_validate_dump (r : RoleProfileRun) : role_model_validate (role_model_dump r) = Ok r.
Proof. destruct r as [? ? ? ? ? [] ? ?]; reflexivity. Qed.

Lemma cv_of_value_value (v : string) (s : CVProfileRunStatus.t) :
  CVProfileRunStatus.of_value v = Some s -> CVProfileRunStatus.value s = v.
Proof.
  unfold CVProfileRunStatus.of_value.
  destruct (String.eqb v "completed") eqn:E1;
    [apply String.eqb_eq in E1; intros H; inversion H; subst; reflexivity|].
  destruct (String.eqb v "failed") eqn:E2;
    [apply String.eqb_eq in E2; intros H; inversion H; subst; reflexivity|].
  destruct (String.eqb v "pending") eqn:E3;
    [apply String.eqb_eq in E3; intros H; inversion H; subst; reflexivity|].
  discriminate.
Qed.

Lemma role_of_value_value (v : string) (s : RoleListingRunStatus.t) :
  RoleListingRunStatus.of_value v = Some s -> RoleListingRunStatus.value s = v.
Proof.
  unfold RoleListingRunStatus.of_value.
  destruct (String.eqb v "completed") eqn:E1;
    [apply String.eqb_eq in E1; intros H; inversion H; subst; reflexivity|].
  destruct (String.eqb v "failed") eqn:E2;
    [apply String.eqb_eq in E2; intros H; inversion H; subst; reflexivity|].
  destruct (String.eqb v "pending") eqn:E3;
    [apply String.eqb_eq in E3; intros H; inversion H; subst; reflexivity|].
  discriminate.
Qed.

Lemma cv_value_valid (s : CVProfileRunStatus.t) :
  In (CVProfileRunStatus.value s) Pipeline.status_values.
Proof. destruct s; simpl; auto. Qed.


(** What [get_cv_profile] returns, by the content of the container. *)
Lemma get_cv_profile_result (user_id : string) (w : World) :
  match cv_profiles w !! user_id with
  | None => CVProfileManager.get_cv_profile user_id w = (Ok None, w)
  | Some d =>
      match CVProfileRunStatus.of_value (cvr_status d) with
      | Some s =>
          CVProfileManager.get_cv_profile user_id w
          = (Ok (Some (cvr_with_status s (cvr_with_id user_id d))), w)
      | None =>
          exists l, CVProfileManager.get_cv_profile user_id w
                    = (Raise (ValidationError "1 validation error for CVProfileRun: status"),
                       set_log l w)
      end
  end.
Proof.
  unfold CVProfileManager.get_cv_profile, log_and_reraise, try_except, bind, gets,
    lift, ret, CVProfileManager.item, cv_model_validate.
  destruct (cv_profiles w !! user_id) as [d|]; simpl; [|reflexivity].
  destruct (CVProfileRunStatus.of_value (cvr_status d)); simpl; [reflexivity|].
  eexists. reflexivity.
Qed.

Lemma get_role_profile_result (role_id : string) (w : World) :
  match role_profiles w !! role_id with
  | None => RoleProfileManager.get_role_profile role_id w = (Ok None, w)
  | Some d =>
      match RoleListingRunStatus.of_value (rpr_status d) with
      | Some s =>
          RoleProfileManager.get_role_profile role_id w
          = (Ok (Some (rpr_with_status s (rpr_with_id role_id d))), w)
      | None =>
          exists l, RoleProfileManager.get_role_profile role_id w
                    = (Raise (ValidationError "1 validation error for RoleProfileRun: status"),
                       set_log l w)
      end
  end.
Proof.
  unfold RoleProfileManager.get_role_profile, log_and_reraise, try_except, bind, gets,
    lift, ret, RoleProfileManager.item, role_model_validate.
  destruct (role_profiles w !! role_id) as [d|]; simpl; [|reflexivity].
  destruct (RoleListingRunStatus.of_value (rpr_status d)); simpl; [reflexivity|].
  eexists. reflexivity.
Qed.

Section Frame.

Context (I : World -> Prop) (blind : log_blind I).

Lemma get_role_profile_keeps (role_id : string) :
  keeps I (RoleProfileManager.get_role_profile role_id).
Proof. unfold RoleProfileManager.get_role_profile. keeps_auto blind. Qed.

(** [update_cv_profile] writes, if at all, one document: at [user_id], over
    an existing one, with the status and the comment it was given. *)
Lemma update_cv_profile_keeps
    (now : Z) (user_id : string) (cv_profile : option CVProfile)
    (average_tenure : option Q) (cs fs gs : option Z)
    (status : CVProfileRunStatus.t) (status_comment : option string)
    (years_experience : option Q) :
  (forall w d0 d,
     I w -> cv_profiles w !! user_id = Some d0 ->
     cvr_status d = CVProfileRunStatus.value status ->
     cvr_status_comment d = status_comment ->
     I (set_cv_profiles (<[user_id := d]> (cv_profiles w)) w)) ->
  keeps I (CVProfileManager.update_cv_profile now user_id cv_profile average_tenure
             cs fs gs status status_comment years_experience).
Proof.
  intros Hup. unfold CVProfileManager.update_cv_profile.
  apply (keeps_log_and_reraise _ blind). intros w HI.
  pose proof (get_cv_profile_result user_id w) as G.
  destruct (cv_profiles w !! user_id) as [d0|] eqn:L.
  - destruct (CVProfileRunStatus.of_value (cvr_status d0)) as [s|].
    + rewrite (bind_ok _ _ _ _ _ G).
      unfold CVProfileManager._create_cv_profile_run_from_cv_profile.
      destruct cv_profile as [p|]; [|exact HI].
      unfold bind, lift, CVProfileManager.upsert_item, modify, logger. simpl.
      apply blind. apply (Hup w d0); auto.
    + destruct G as (l & G). rewrite (bind_raise _ _ _ _ _ G). simpl.
      apply blind, HI.
  - rewrite (bind_ok _ _ _ _ _ G). exact HI.
Qed.

(** [update_role_profile] writes, if at all, one document: at [role_id],
    over an existing one, with the status and the comment it was given. *)
Lemma update_role_profile_keeps
    (now : Z) (role_id : string) (role_profile : option RoleProfileLike)
    (creator_id : string) (status : RoleListingRunStatus.t)
    (status_comment : option string) :
  (forall w d0 d,
     I w -> role_profiles w !! role_id = Some d0 ->
     rpr_status d = RoleListingRunStatus.value status ->
     rpr_status_comment d = status_comment ->
     I (set_role_profiles (<[role_id := d]> (role_profiles w)) w)) ->
  keeps I (RoleProfileManager.update_role_profile now role_id role_profile creator_id
             status status_comment).
Proof.
  intros Hup. unfold RoleProfileManager.update_role_profile.
  apply (keeps_log_and_reraise _ blind). intros w HI.
  pose proof (get_role_profile_result role_id w) as G.
  destruct (role_profiles w !! role_id) as [d0|] eqn:L.
  - destruct (RoleListingRunStatus.of_value (rpr_status d0)) as [s|].
    + rewrite (bind_ok _ _ _ _ _ G).
      unfold RoleProfileManager._create_role_profile_run_from_profile.
      destruct role_profile as [p|]; [|exact HI].
      destruct (like_location p) as [loc|]; [|exact HI].
      unfold bind, lift, RoleProfileManager.upsert_item, modify, logger, ret. simpl.
      apply blind. apply (Hup w d0); auto.
    + destruct G as (l & G). rewrite (bind_raise _ _ _ _ _ G). simpl.
      apply blind, HI.
  - rewrite (bind_ok _ _ _ _ _ G). exact HI.
Qed.

(** [delete_role_profile] removes, if anything, an existing document. *)
Lemma delete_role_profile_keeps (role_id : string) :
  (forall w d0,
     I w -> role_profiles w !! role_id = Some d0 ->
     I (set_role_profiles (delete role_id (role_profiles w)) w)) ->
  keeps I (RoleProfileManager.delete_role_profile role_id).
Proof.
  intros Hdel. unfold RoleProfileManager.delete_role_profile.
  apply (keeps_log_and_reraise _ blind). intros w HI.
  unfold bind, gets, modify, logger, raise.
  destruct (role_profiles w !! role_id) as [d0|] eqn:L; simpl; [|exact HI].
  apply blind. apply (Hdel w d0); auto.
Qed.

Lemma add_role_from_profile_keeps
    (now : Z) (new_id : string) (generate_embeddings : string -> res (list Q))
    (role_profile_run : RoleProfileRun) :
  (forall w m, I w -> I (set_role_listings m w)) ->
  keeps I (RoleListingManager.add_role_from_profile now new_id generate_embeddings
             role_profile_run).
Proof.
  intros Hl. unfold RoleListingManager.add_role_from_profile, RoleListingManager.add_role.
  keeps_auto blind; apply keeps_modify; intros; apply Hl; assumption.
Qed.

Lemma update_user_keeps (user_id : string) (user : User) :
  (forall w m, I w -> I (set_users m w)) ->
  keeps I (UserManager.update_user user_id user).
Proof.
  intros Hu. unfold UserManager.update_user, UserManager.get_user_by_id.
  keeps_auto blind. apply keeps_modify; intros; apply Hu; assumption.
Qed.

Lemma update_user_from_cv_profile_keeps (user_id : string) (run : CVProfileRun) :
  (forall w m, I w -> I (set_users m w)) ->
  keeps I (UserManager.update_user_from_cv_profile user_id run).
Proof.
  intros Hu. unfold UserManager.update_user_from_cv_profile, UserManager.get_user_by_id.
  keeps_auto blind. apply update_user_keeps, Hu.
Qed.

End Frame.

End ManagerFacts.

Module ProfilerFacts.

Import Logic ManagerFacts ProfilerWorker.

Section Frame.

Context (I : World -> Prop) (blind : log_blind I).
Context (users_blind : forall w m, I w -> I (set_users m w)).

(** The stage function of the profiler writes the run of its item, if at
    all, as COMPLETED without comment, and the user of the same id. *)
Lemma profiler_process_item_keeps (thread_name : string) (env : Env) (item : ProfilerItem) :
  (forall w d0 d,
     I w -> cv_profiles w !! fst (fst item) = Some d0 ->
     cvr_status d = "completed" -> cvr_status_comment d = None ->
     I (set_cv_profiles (<[fst (fst item) := d]> (cv_profiles w)) w)) ->
  keeps I (process_item thread_name env item).
Proof.
  intros Hup. destruct item as [[cv_id paragraphs] creativity_assessment].
  simpl in Hup. unfold process_item, analyze_cv.
  apply keeps_bind; [keeps_auto blind|intros _].
  apply keeps_bind; [keeps_auto blind|intros profile].
  cbv zeta.
  apply keeps_bind; [keeps_auto blind|intros _].
  apply keeps_bind; [keeps_auto blind|intros _].
  apply keeps_bind; [keeps_auto blind|intros _].
  apply keeps_bind; [keeps_auto blind|intros scores].
  apply keeps_bind_lift; intros _ _.
  apply keeps_bind; [apply (update_cv_profile_keeps _ blind); exact Hup|intros _].
  apply keeps_bind; [apply keeps_gets|intros user].
  apply keeps_bind; [|intros _; keeps_auto blind].
  destruct user as [u|]; [|apply keeps_ret].
  apply keeps_bind; [apply (CVFacts.get_cv_profile_keeps _ blind)|intros [run|]];
    [|apply keeps_raise].
  apply keeps_bind;
    [apply (update_user_from_cv_profile_keeps _ blind); exact users_blind|intros user].
  destruct (u_is_onboarded user); [apply keeps_ret|].
  apply (update_user_keeps _ blind); exact users_blind.
Qed.

Lemma profiler_turn_keeps (thread_name : string) (env : Env) :
  profiler_queue_blind I ->
  (forall i w d0 d,
     I w -> cv_profiles w !! i = Some d0 ->
     cvr_status d = "completed" -> cvr_status_comment d = None ->
     I (set_cv_profiles (<[i := d]> (cv_profiles w)) w)) ->
  keeps I (_process_queue thread_name env).
Proof.
  intros qblind Hup. unfold _process_queue.
  apply keeps_try_except.
  - apply keeps_bind.
    + unfold queue_get. keeps_auto blind.
      apply keeps_modify. intros w H. apply qblind, H.
    + intros item. apply keeps_try_finally; [|apply keeps_task_done].
      apply keeps_try_except; [apply profiler_process_item_keeps; apply Hup|].
      intros e h E. inversion E; subst. unfold on_exception. keeps_auto blind.
  - intros e h E. destruct e; inversion E; subst; keeps_auto blind.
Qed.

End Frame.

Lemma profiler_turn_never_raises (thread_name : string) (env : Env) :
  never_raises (_process_queue thread_name env).
Proof.
  unfold _process_queue. apply never_raises_try_except.
  intros e. apply loop_handler_never_raises.
Qed.

Lemma profiler_queue_get_item (w : World) (item : ProfilerItem) (q : list ProfilerItem) :
  profiler_worker w = Some (item :: q) ->
  queue_get w = (Ok item, set_profiler_worker (Some q) w).
Proof. intros H. unfold queue_get, bind, gets, modify, ret. rewrite H. reflexivity. Qed.

Lemma profiler_turn_outcome (thread_name : string) (env : Env) (w : World)
    (item : ProfilerItem) (q : list ProfilerItem) :
  profiler_worker w = Some (item :: q) ->
  let started := set_profiler_worker (Some q) w in
  let body := process_item thread_name env item started in
  _process_queue thread_name env w
  = match fst body with
    | Ok _ => (Ok tt, snd body)
    | Raise e => on_exception thread_name (fst (fst item)) e (snd body)
    end.
Proof.
  intros Hq. cbv zeta. unfold _process_queue.
  unfold try_except at 1. rewrite (bind_ok _ _ _ _ _ (profiler_queue_get_item w item q Hq)).
  unfold try_finally, try_except, task_done, ret.
  destruct (process_item thread_name env item (set_profiler_worker (Some q) w))
    as [[[]|e] w1]; simpl; reflexivity.
Qed.

(** With no creativity assessment the stage function raises before its
    completion write: it changes nothing but the log. *)
Lemma process_item_without_assessment
    (I : World -> Prop) (blind : log_blind I)
    (thread_name : string) (env : Env) (cv_id : string) (paragraphs : list string) :
  keeps I (process_item thread_name env (cv_id, paragraphs, None)).
Proof.
  unfold process_item, analyze_cv.
  apply keeps_bind; [keeps_auto blind|intros _].
  apply keeps_bind; [keeps_auto blind|intros profile].
  cbv zeta.
  apply keeps_bind; [keeps_auto blind|intros _].
  apply keeps_bind; [keeps_auto blind|intros _].
  apply keeps_bind; [keeps_auto blind|intros _].
  intros w H. exact H.
Qed.

Lemma cv_of_value_roundtrip (s : CVProfileRunStatus.t) :
  CVProfileRunStatus.of_value (CVProfileRunStatus.value s) = Some s.
Proof. destruct s; reflexivity. Qed.


Lemma update_user_ok (user_id : string) (user u0 : User) (w : World) :
  user_id <> "" -> users w !! user_id = Some u0 ->
  exists l,
    UserManager.update_user user_id user w
    = (Ok tt, set_log l (set_users (<[user_id := UserManager.with_id user_id user]>
                                      (users w)) w)).
Proof.
  intros Hne Hu. unfold UserManager.update_user.
  rewrite (LinkFacts.nonempty_true _ Hne). simpl.
  unfold bind, logger, modify, UserManager.get_user_by_id, gets. simpl.
  rewrite Hu. eexists. reflexivity.
Qed.



End ProfilerFacts.

(** * Facts about the JD worker *)

Module JDFacts.

Import Logic ManagerFacts JDProcessorWorker JDEffect.

Lemma touch_arguments_accepted :
  bind_arguments "update_role_profile" RoleProfileManager.update_role_profile_params
    RoleProfileManager.update_role_profile_required []
    ["role_id"; "role_profile"; "creator_id"; "status"] = Ok tt.
Proof. reflexivity. Qed.

Lemma failure_arguments_accepted :
  bind_arguments "update_role_profile" RoleProfileManager.update_role_profile_params
    RoleProfileManager.update_role_profile_required []
    ["role_id"; "role_profile"; "creator_id"; "status"; "status_comment"] = Ok tt.
Proof. reflexivity. Qed.

Lemma jd_queue_get_item (w : World) (item : string * string) (q : list (string * string)) :
  jd_worker w = Some (item :: q) ->
  queue_get w = (Ok item, set_jd_worker (Some q) w).
Proof. intros H. unfold queue_get, bind, gets, modify, ret. rewrite H. reflexivity. Qed.

Lemma jd_turn_never_raises (thread_name : string) (env : Env) :
  never_raises (_process_queue thread_name env).
Proof.
  unfold _process_queue. apply never_raises_try_except.
  intros e. apply loop_handler_never_raises.
Qed.

(** The handlers of a turn, by the outcome of the stage function. *)
Lemma jd_turn_outcome (thread_name : string) (env : Env) (w : World)
    (item : string * string) (q : list (string * string)) :
  jd_worker w = Some (item :: q) ->
  let started := set_jd_worker (Some q) w in
  let body := process_item thread_name env (fst item) (snd item) started in
  _process_queue thread_name env w
  = match fst body with
    | Ok _ => (Ok tt, snd body)
    | Raise e =>
        match as_RoleListingError e with
        | None => on_exception thread_name (fst item) e (snd body)
        | Some e_jd_id =>
            match on_RoleListingError thread_name env e e_jd_id (snd body) with
            | (Ok _, w') => (Ok tt, w')
            | (Raise Empty, w') => (Ok tt, w')
            | (Raise e', w') => log_exception e' w'
            end
        end
    end.
Proof.
  intros Hq. cbv zeta. unfold _process_queue.
  unfold try_except at 1. rewrite (bind_ok _ _ _ _ _ (jd_queue_get_item w item q Hq)).
  unfold try_finally, try_except, task_done, ret.
  destruct (process_item thread_name env (fst item) (snd item) (set_jd_worker (Some q) w))
    as [[[]|e] w1]; simpl; [reflexivity|].
  destruct (as_RoleListingError e) as [i|] eqn:E.
  - destruct (on_RoleListingError thread_name env e i w1) as [[[]|e'] w2]; [reflexivity|].
    destruct e'; reflexivity.
  - unfold on_exception, logger, modify. reflexivity.
Qed.

Lemma extract_paragraphs_pure (env : Env) (jd_id file_path : string) (w : World) :
  extract_paragraphs env jd_id file_path w = (extract_result env jd_id file_path, w).
Proof.
  unfold extract_paragraphs, extract_result, bind, lift, raise.
  destruct (PyStr.endswith _ _); [|reflexivity].
  destruct (page_count_of env file_path); [|reflexivity].
  destruct (_ <? _)%nat; reflexivity.
Qed.

Lemma analyze_jd_pure (env : Env) (paragraphs : list string) (w : World) :
  analyze_jd env paragraphs w = (analyze_result env paragraphs, w).
Proof. unfold analyze_jd, analyze_result. destruct (llm_parse env paragraphs); reflexivity. Qed.

Lemma role_of_value_roundtrip (s : RoleListingRunStatus.t) :
  RoleListingRunStatus.of_value (RoleListingRunStatus.value s) = Some s.
Proof. destruct s; reflexivity. Qed.

Section UpdateRoleProfile.

Context (now : Z) (role_id creator_id : string) (status : RoleListingRunStatus.t)
        (status_comment : option string) (w : World) (d0 : RoleProfileRunDoc)
        (s : RoleListingRunStatus.t).
Context (present : role_profiles w !! role_id = Some d0).
Context (valid : RoleListingRunStatus.of_value (rpr_status d0) = Some s).

Lemma get_role_profile_found :
  RoleProfileManager.get_role_profile role_id w
  = (Ok (Some (rpr_with_status s (rpr_with_id role_id d0))), w).
Proof.
  pose proof (get_role_profile_result role_id w) as G.
  rewrite present, valid in G. exact G.
Qed.

Lemma update_role_profile_ok (p : RoleProfileLike) (loc : Location) :
  like_location p = Some loc ->
  let r := merged now role_id d0 p loc creator_id status status_comment in
  exists l,
    RoleProfileManager.update_role_profile now role_id (Some p) creator_id status
      status_comment w
    = (Ok r, set_log l (set_role_profiles
                          (<[role_id := role_model_dump r]> (role_profiles w)) w)).
Proof.
  intros Loc. cbv zeta. unfold RoleProfileManager.update_role_profile.
  eexists. apply log_and_reraise_ok.
  rewrite (bind_ok _ _ _ _ _ get_role_profile_found).
  unfold RoleProfileManager._create_role_profile_run_from_profile. rewrite Loc.
  unfold bind, lift, RoleProfileManager.upsert_item, modify, logger, ret. simpl.
  reflexivity.
Qed.

Lemma update_role_profile_no_location (p : RoleProfileLike) :
  like_location p = None ->
  exists l,
    RoleProfileManager.update_role_profile now role_id (Some p) creator_id status
      status_comment w
    = (Raise (ValidationError "1 validation error for RoleProfileRun: location"),
       set_log l w).
Proof.
  intros Loc. unfold RoleProfileManager.update_role_profile.
  eexists.
  match goal with
  | |- log_and_reraise ?m ?b w = _ =>
      rewrite (log_and_reraise_raise m b w w
                 (ValidationError "1 validation error for RoleProfileRun: location"))
  end; [reflexivity|].
  rewrite (bind_ok _ _ _ _ _ get_role_profile_found).
  unfold RoleProfileManager._create_role_profile_run_from_profile. rewrite Loc.
  reflexivity.
Qed.

Lemma update_role_profile_no_profile :
  exists l,
    RoleProfileManager.update_role_profile now role_id None creator_id status
      status_comment w
    = (Raise (AttributeError "'NoneType' object has no attribute 'benefits'"),
       set_log l w).
Proof.
  unfold RoleProfileManager.update_role_profile.
  eexists.
  match goal with
  | |- log_and_reraise ?m ?b w = _ =>
      rewrite (log_and_reraise_raise m b w w
                 (AttributeError "'NoneType' object has no attribute 'benefits'"))
  end; [reflexivity|].
  rewrite (bind_ok _ _ _ _ _ get_role_profile_found). reflexivity.
Qed.

Lemma delete_role_profile_ok :
  exists l,
    RoleProfileManager.delete_role_profile role_id w
    = (Ok tt, set_log l (set_role_profiles (delete role_id (role_profiles w)) w)).
Proof.
  unfold RoleProfileManager.delete_role_profile.
  eexists. apply log_and_reraise_ok.
  unfold bind, gets, modify, logger. rewrite present. simpl. reflexivity.
Qed.

End UpdateRoleProfile.

Lemma add_role_from_profile_ok (env : Env) (run : RoleProfileRun) (w : World) :
  rpr_status run = RoleListingRunStatus.COMPLETED ->
  exists l,
    RoleListingManager.add_role_from_profile (now env) (new_listing_id env)
      (generate_embeddings env) run w
    = (Ok (listing_of env run),
       set_log l (set_role_listings
                    (<[new_listing_id env := listing_of env run]> (role_listings w)) w)).
Proof.
  intros C. unfold RoleListingManager.add_role_from_profile. rewrite C. simpl.
  unfold listing_of, embeddings_of.
  rewrite bind_logger.
  destruct (rf_description (rpr_fields run)) as [description|].
  - destruct (nonempty description).
    + destruct (generate_embeddings env _) as [emb|e];
        unfold RoleListingManager.add_role, bind, ret, logger, modify; simpl;
        eexists; reflexivity.
    + unfold RoleListingManager.add_role, bind, ret, logger, modify; simpl.
      eexists; reflexivity.
  - unfold RoleListingManager.add_role, bind, ret, logger, modify; simpl.
    eexists; reflexivity.
Qed.

(** The stage function has the effect [stage_effect] on the two role
    containers. *)
Lemma process_item_effect (thread_name : string) (env : Env) (jd_id file_path : string)
    (w : World) :
  let body := process_item thread_name env jd_id file_path w in
  (fst body, role_profiles (snd body), role_listings (snd body))
  = stage_effect env jd_id file_path (role_profiles w) (role_listings w).
Proof.
  cbv zeta.
  destruct (process_item thread_name env jd_id file_path w) as [r w'] eqn:B.
  simpl. unfold process_item in B. unfold stage_effect.
  rewrite bind_logger in B.
  match type of B with context [set_log ?l w] => set (w1 := set_log l w) in B end.
  pose proof (get_role_profile_result jd_id w1) as G.
  change (role_profiles w1) with (role_profiles w) in G.
  destruct (role_profiles w !! jd_id) as [d0|] eqn:L.
  2: { rewrite (bind_ok _ _ _ _ _ G) in B. injection B as <- <-. reflexivity. }
  destruct (RoleListingRunStatus.of_value (rpr_status d0)) as [s|] eqn:V.
  2: { destruct G as (l & G). rewrite (bind_raise _ _ _ _ _ G) in B.
       injection B as <- <-. reflexivity. }
  rewrite (bind_ok _ _ _ _ _ G) in B.
  rewrite (bind_lift_ok _ _ _ _ touch_arguments_accepted) in B.
  match type of B with
  | context [RoleProfileManager.update_role_profile ?a ?b (Some ?p) ?d ?e ?f] =>
      destruct (update_role_profile_ok a b d e f w1 d0 s L V p _ eq_refl) as (l2 & U)
  end.
  rewrite (bind_ok _ _ _ _ _ U) in B. clear U.
  match type of B with context [set_log l2 ?w0] => set (w2 := set_log l2 w0) in B end.
  unfold bind at 1 in B. rewrite extract_paragraphs_pure in B.
  destruct (extract_result env jd_id file_path) as [paragraphs|e];
    [|injection B as <- <-; reflexivity].
  unfold bind at 1 in B. rewrite analyze_jd_pure in B.
  destruct (analyze_result env paragraphs) as [jd_analysis|e];
    [|injection B as <- <-; reflexivity].
  rewrite (bind_lift_ok _ _ _ _ touch_arguments_accepted) in B.
  assert (L2 : role_profiles w2 !! jd_id = Some (role_model_dump (touched env jd_id d0 s))).
  { exact (lookup_insert_eq _ _ _). }
  assert (V2 : RoleListingRunStatus.of_value
                 (rpr_status (role_model_dump (touched env jd_id d0 s))) = Some s).
  { exact (role_of_value_roundtrip s). }
  destruct jd_analysis as [a|].
  2: { change (like_of_RoleProfile <$> None) with (@None RoleProfileLike) in B.
       match type of B with
       | context [RoleProfileManager.update_role_profile ?a ?b _ ?d ?e ?f] =>
           destruct (update_role_profile_no_profile a b d e f w2 _ s L2 V2) as (l3 & U)
       end.
       rewrite (bind_raise _ _ _ _ _ U) in B. injection B as <- <-. reflexivity. }
  change (like_of_RoleProfile <$> Some a) with (Some (like_of_RoleProfile a)) in B.
  destruct (rp_location a) as [loc|] eqn:Loc.
  2: { match type of B with
       | context [RoleProfileManager.update_role_profile ?a ?b (Some ?p) ?d ?e ?f] =>
           destruct (update_role_profile_no_location a b d e f w2 _ s L2 V2 p Loc)
             as (l3 & U)
       end.
       rewrite (bind_raise _ _ _ _ _ U) in B. injection B as <- <-. reflexivity. }
  match type of B with
  | context [RoleProfileManager.update_role_profile ?a ?b (Some ?p) ?d ?e ?f] =>
      destruct (update_role_profile_ok a b d e f w2 _ s L2 V2 p loc Loc) as (l3 & U)
  end.
  rewrite (bind_ok _ _ _ _ _ U) in B. clear U.
  match type of B with context [set_log l3 ?w0] => set (w3 := set_log l3 w0) in B end.
  match type of B with
  | context [RoleListingManager.add_role_from_profile _ _ _ ?r0] =>
      destruct (add_role_from_profile_ok env r0 w3 eq_refl) as (l4 & A)
  end.
  rewrite (bind_ok _ _ _ _ _ A) in B. clear A.
  match type of B with context [set_log l4 ?w0] => set (w4 := set_log l4 w0) in B end.
  match type of B with
  | context [RoleProfileManager.delete_role_profile ?i] =>
      destruct (delete_role_profile_ok i w4 _ (lookup_insert_eq _ _ _)) as (l5 & D)
  end.
  rewrite (bind_ok _ _ _ _ _ D) in B. clear D.
  injection B as <- <-. reflexivity.
Qed.

(** The handler of a [RoleListingError] has the effect [handler_effect] on
    the runs and leaves the listings alone. *)
Lemma on_RoleListingError_effect (thread_name : string) (env : Env) (e : exn)
    (e_jd_id : string) (w : World) :
  let handled := on_RoleListingError thread_name env e e_jd_id w in
  role_profiles (snd handled) = handler_effect env e e_jd_id (role_profiles w)
  /\ role_listings (snd handled) = role_listings w.
Proof.
  cbv zeta.
  destruct (on_RoleListingError thread_name env e e_jd_id w) as [r w'] eqn:B.
  simpl. unfold on_RoleListingError in B. unfold handler_effect.
  pose proof (get_role_profile_result e_jd_id w) as G.
  destruct (role_profiles w !! e_jd_id) as [d0|] eqn:L.
  2: { rewrite (bind_ok _ _ _ _ _ G) in B. injection B as <- <-. split; reflexivity. }
  destruct (RoleListingRunStatus.of_value (rpr_status d0)) as [s|] eqn:V.
  2: { destruct G as (l & G). rewrite (bind_raise _ _ _ _ _ G) in B.
       injection B as <- <-. split; reflexivity. }
  rewrite (bind_ok _ _ _ _ _ G) in B.
  unfold bind at 1 in B.
  rewrite (bind_lift_ok _ _ _ _ failure_arguments_accepted) in B.
  match type of B with
  | context [RoleProfileManager.update_role_profile ?a ?b (Some ?p) ?d ?e0 ?f] =>
      destruct (update_role_profile_ok a b d e0 f w d0 s L V p _ eq_refl) as (l2 & U)
  end.
  rewrite (bind_ok _ _ _ _ _ U) in B. clear U.
  injection B as <- <-. split; reflexivity.
Qed.

(** The effect of a whole turn on the two role containers. *)
Lemma jd_turn_effect (thread_name : string) (env : Env) (w : World)
    (jd_id file_path : string) (q : list (string * string)) :
  jd_worker w = Some ((jd_id, file_path) :: q) ->
  let w' := snd (_process_queue thread_name env w) in
  let effect := stage_effect env jd_id file_path (role_profiles w) (role_listings w) in
  fst (process_item thread_name env jd_id file_path (set_jd_worker (Some q) w))
  = fst (fst effect)
  /\ role_listings w' = snd effect
  /\ role_profiles w'
     = match fst (fst effect) with
       | Ok _ => snd (fst effect)
       | Raise e =>
           match as_RoleListingError e with
           | Some e_jd_id => handler_effect env e e_jd_id (snd (fst effect))
           | None => snd (fst effect)
           end
       end.
Proof.
  intros Hq. cbv zeta.
  rewrite (jd_turn_outcome thread_name env w (jd_id, file_path) q Hq). simpl fst. simpl snd.
  pose proof (process_item_effect thread_name env jd_id file_path
                (set_jd_worker (Some q) w)) as E.
  cbv zeta in E.
  change (role_profiles (set_jd_worker (Some q) w)) with (role_profiles w) in E.
  change (role_listings (set_jd_worker (Some q) w)) with (role_listings w) in E.
  destruct (stage_effect env jd_id file_path (role_profiles w) (role_listings w))
    as [[r runs1] listings1].
  destruct (process_item thread_name env jd_id file_path (set_jd_worker (Some q) w))
    as [r' w1].
  simpl in *. injection E as -> <- <-.
  split; [reflexivity|].
  destruct r as [[]|e]; [split; reflexivity|].
  destruct (as_RoleListingError e) as [i|].
  - pose proof (on_RoleListingError_effect thread_name env e i w1) as [H1 H2].
    destruct (on_RoleListingError thread_name env e i w1) as [[[]|e'] w2];
      simpl in *; [split; assumption|].
    destruct e'; simpl; split; assumption.
  - split; reflexivity.
Qed.

Section Frame.

Context (I : World -> Prop) (blind : log_blind I).
Context (listings_blind : forall w m, I w -> I (set_role_listings m w)).
Context (upsert_ok :
           forall i w d0 d s,
             I w -> role_profiles w !! i = Some d0 ->
             rpr_status d = RoleListingRunStatus.value s ->
             I (set_role_profiles (<[i := d]> (role_profiles w)) w)).
Context (delete_ok :
           forall i w d0,
             I w -> role_profiles w !! i = Some d0 ->
             I (set_role_profiles (delete i (role_profiles w)) w)).

Lemma update_keeps (now : Z) (role_id : string) (p : option RoleProfileLike)
    (creator_id : string) (status : RoleListingRunStatus.t) (sc : option string) :
  keeps I (RoleProfileManager.update_role_profile now role_id p creator_id status sc).
Proof.
  apply (update_role_profile_keeps _ blind). intros w d0 d HI L S _.
  apply (upsert_ok role_id w d0 d status HI L S).
Qed.

Lemma jd_process_item_keeps (thread_name : string) (env : Env) (jd_id file_path : string) :
  keeps I (process_item thread_name env jd_id file_path).
Proof.
  unfold process_item.
  apply keeps_bind; [keeps_auto blind|intros _].
  apply keeps_bind; [apply (get_role_profile_keeps _ blind)|intros [run|]];
    [|apply keeps_raise].
  apply keeps_bind_lift; intros _ _.
  apply keeps_bind; [apply update_keeps|intros run1].
  apply keeps_bind.
  { intros w H. rewrite extract_paragraphs_pure. exact H. }
  intros paragraphs.
  apply keeps_bind.
  { intros w H. rewrite analyze_jd_pure. exact H. }
  intros jd_analysis.
  apply keeps_bind_lift; intros _ _.
  apply keeps_bind; [apply update_keeps|intros run2].
  apply keeps_bind;
    [apply (add_role_from_profile_keeps _ blind); exact listings_blind|intros _].
  apply keeps_bind; [|intros _; keeps_auto blind].
  apply (delete_role_profile_keeps _ blind). intros w d0. apply delete_ok.
Qed.

Lemma on_RoleListingError_keeps (thread_name : string) (env : Env) (e : exn)
    (e_jd_id : string) :
  keeps I (on_RoleListingError thread_name env e e_jd_id).
Proof.
  unfold on_RoleListingError.
  apply keeps_bind; [apply (get_role_profile_keeps _ blind)|intros run].
  apply keeps_bind; [|intros _; keeps_auto blind].
  destruct run as [run|]; [|apply keeps_ret].
  apply keeps_bind_lift; intros _ _.
  apply keeps_bind; [apply update_keeps|intros _; apply keeps_ret].
Qed.

Lemma jd_turn_keeps (thread_name : string) (env : Env) :
  jd_queue_blind I -> keeps I (_process_queue thread_name env).
Proof.
  intros qblind. unfold _process_queue.
  apply keeps_try_except.
  - apply keeps_bind.
    + unfold queue_get. keeps_auto blind.
      apply keeps_modify. intros w H. apply qblind, H.
    + intros item. apply keeps_try_finally; [|apply keeps_task_done].
      apply keeps_try_except; [apply jd_process_item_keeps|].
      intros e h E. destruct (as_RoleListingError e); inversion E; subst.
      * apply on_RoleListingError_keeps.
      * unfold on_exception. keeps_auto blind.
  - intros e h E. destruct e; inversion E; subst; keeps_auto blind.
Qed.

End Frame.

End JDFacts.

(** * Facts about the construction of the pools *)

Module InitFacts.

Import Logic ManagerFacts.

Lemma NoDup_fst_filter {A B} (P : A * B -> bool) (l : list (A * B)) :
  NoDup (fst <$> l) -> NoDup (fst <$> List.filter P l).
Proof.
  induction l as [|x l IH]; simpl; intros H; [constructor|].
  apply NoDup_cons in H as [Hx Hl].
  destruct (P x); simpl; [|auto].
  apply NoDup_cons. split; [|auto].
  intros Hin. apply Hx.
  apply list_elem_of_fmap in Hin as (y & -> & Hy).
  apply list_elem_of_fmap. exists y. split; [reflexivity|].
  apply list_elem_of_In. apply list_elem_of_In in Hy.
  apply filter_In in Hy. tauto.
Qed.

(** ** The CV pool *)

Section CV.

Import CVProcessorWorker.

Lemma cv_validate_all_pending (ds : list CVProfileRunDoc) :
  (forall d, In d ds -> cvr_status d = "pending") ->
  CVProfileManager.validate_all ds
  = Ok (cvr_with_status CVProfileRunStatus.PENDING <$> ds).
Proof.
  induction ds as [|d ds IH]; intros H; simpl; [reflexivity|].
  unfold cv_model_validate. rewrite (H d (or_introl eq_refl)). simpl.
  rewrite IH; [reflexivity|]. intros d' Hd. apply H. right. exact Hd.
Qed.

Lemma cv_query_pending_status (m : gmap string CVProfileRunDoc) (d : CVProfileRunDoc) :
  In d (CVProfileManager.query_pending m) -> cvr_status d = "pending".
Proof.
  unfold CVProfileManager.query_pending. intros H.
  apply filter_In in H as [_ H]. apply String.eqb_eq in H. exact H.
Qed.

Lemma cv_enqueue_one (msg i fp : string) (w : World) (q : list (string * string)) :
  cv_worker w = Some q ->
  exists w',
    (let! _ := logger INFO msg in add_cv_to_queue i fp) w = (Ok tt, w')
    /\ cv_worker w' = Some (q ++ [(i, fp)])%list.
Proof.
  intros Hq. unfold add_cv_to_queue, bind, logger, modify, gets. simpl. rewrite Hq. simpl.
  eexists. split; reflexivity.
Qed.

Lemma cv_enqueue_all (runs : list CVProfileRun) (w : World) (q : list (string * string)) :
  cv_worker w = Some q ->
  let loaded :=
    for_each runs
      (fun r =>
         let! _ := logger INFO ("Loading pending CV profile run " ++ cvr_id r
                                ++ " into queue") in
         add_cv_to_queue (cvr_id r) (cvr_file_path r)) w in
  fst loaded = Ok tt
  /\ cv_worker (snd loaded) = Some (q ++ (cv_item_of <$> runs))%list.
Proof.
  revert w q. induction runs as [|r runs IH]; intros w q Hq; cbv zeta; simpl.
  - split; [reflexivity|]. rewrite app_nil_r. exact Hq.
  - destruct (cv_enqueue_one ("Loading pending CV profile run " ++ cvr_id r ++ " into queue")
                (cvr_id r) (cvr_file_path r) w q Hq) as (w1 & E & Hq1).
    rewrite (bind_ok _ _ _ _ _ E).
    destruct (IH w1 _ Hq1) as [H1 H2]. cbv zeta in H1, H2.
    split; [exact H1|]. rewrite H2, <- app_assoc. reflexivity.
Qed.

Lemma cv_init_queue (w : World) :
  cv_worker w = None ->
  cv_worker (snd (init w))
  = Some (cv_item_of <$> (cvr_with_status CVProfileRunStatus.PENDING
                            <$> CVProfileManager.query_pending (cv_profiles w))).
Proof.
  intros Hw. unfold init. unfold bind at 1, gets. rewrite Hw.
  unfold bind at 1, modify at 1.
  set (w1 := set_cv_worker (Some []) w).
  assert (G : CVProfileManager.get_pending_cv_profiles w1
              = (Ok (cvr_with_status CVProfileRunStatus.PENDING
                       <$> CVProfileManager.query_pending (cv_profiles w)), w1)).
  { unfold CVProfileManager.get_pending_cv_profiles. apply log_and_reraise_ok.
    unfold bind, gets, lift. simpl.
    rewrite cv_validate_all_pending; [reflexivity|].
    intros d. apply cv_query_pending_status. }
  unfold bind at 1. unfold try_except. rewrite (bind_ok _ _ _ _ _ G).
  match goal with
  | |- context [for_each ?rs ?b w1] =>
      destruct (cv_enqueue_all rs w1 [] eq_refl) as [H1 H2];
      cbv zeta in H1, H2; destruct (for_each rs b w1) as [out w2]
  end.
  simpl in H1, H2. subst out. simpl. exact H2.
Qed.

Lemma cv_pending_ids (m : gmap string CVProfileRunDoc) :
  fst <$> (cv_item_of <$> (cvr_with_status CVProfileRunStatus.PENDING
                             <$> CVProfileManager.query_pending m))
  = fst <$> List.filter (fun kd => String.eqb (cvr_status (snd kd)) "pending")
              (map_to_list m).
Proof.
  unfold CVProfileManager.query_pending, CVProfileManager.items.
  induction (map_to_list m) as [|[k d] l IH]; simpl; [reflexivity|].
  destruct (String.eqb (cvr_status d) "pending"); simpl; [f_equal|]; exact IH.
Qed.

Lemma cv_pending_ids_spec (m : gmap string CVProfileRunDoc) (i : string) :
  i ∈ fst <$> List.filter (fun kd => String.eqb (cvr_status (snd kd)) "pending")
                (map_to_list m)
  <-> cvr_status <$> m !! i = Some "pending".
Proof.
  rewrite list_elem_of_fmap. split.
  - intros ([k d] & -> & H). apply list_elem_of_In, filter_In in H as [H1 H2].
    apply list_elem_of_In, elem_of_map_to_list in H1. simpl in *.
    apply String.eqb_eq in H2. rewrite H1. simpl. rewrite H2. reflexivity.
  - intros H. destruct (m !! i) as [d|] eqn:L; [|discriminate].
    simpl in H. injection H as H. exists (i, d). split; [reflexivity|].
    apply list_elem_of_In, filter_In. split.
    + apply list_elem_of_In, elem_of_map_to_list. exact L.
    + simpl. apply String.eqb_eq. exact H.
Qed.

End CV.

(** ** The JD pool *)

Section JD.

Import JDProcessorWorker.

Lemma jd_validate_all_pending (ds : list RoleProfileRunDoc) :
  (forall d, In d ds -> rpr_status d = "pending") ->
  RoleProfileManager.validate_all ds
  = Ok (rpr_with_status RoleListingRunStatus.PENDING <$> ds).
Proof.
  induction ds as [|d ds IH]; intros H; simpl; [reflexivity|].
  unfold role_model_validate. rewrite (H d (or_introl eq_refl)). simpl.
  rewrite IH; [reflexivity|]. intros d' Hd. apply H. right. exact Hd.
Qed.

Lemma jd_query_pending_status (m : gmap string RoleProfileRunDoc) (d : RoleProfileRunDoc) :
  In d (RoleProfileManager.query_pending m) -> rpr_status d = "pending".
Proof.
  unfold RoleProfileManager.query_pending. intros H.
  apply filter_In in H as [_ H]. apply String.eqb_eq in H. exact H.
Qed.

Lemma jd_enqueue_one (msg i fp : string) (w : World) (q : list (string * string)) :
  jd_worker w = Some q ->
  exists w',
    (let! _ := logger INFO msg in add_jd_to_queue i fp) w = (Ok tt, w')
    /\ jd_worker w' = Some (q ++ [(i, fp)])%list.
Proof.
  intros Hq. unfold add_jd_to_queue, bind, logger, modify, gets. simpl. rewrite Hq. simpl.
  eexists. split; reflexivity.
Qed.

Lemma jd_enqueue_all (runs : list RoleProfileRun) (w : World) (q : list (string * string)) :
  jd_worker w = Some q ->
  let loaded :=
    for_each runs
      (fun r =>
         let! _ := logger INFO ("Loading pending JD profile run " ++ rpr_id r
                                ++ " into queue") in
         add_jd_to_queue (rpr_id r) (rpr_file_path r)) w in
  fst loaded = Ok tt
  /\ jd_worker (snd loaded) = Some (q ++ (jd_item_of <$> runs))%list.
Proof.
  revert w q. induction runs as [|r runs IH]; intros w q Hq; cbv zeta; simpl.
  - split; [reflexivity|]. rewrite app_nil_r. exact Hq.
  - destruct (jd_enqueue_one ("Loading pending JD profile run " ++ rpr_id r ++ " into queue")
                (rpr_id r) (rpr_file_path r) w q Hq) as (w1 & E & Hq1).
    rewrite (bind_ok _ _ _ _ _ E).
    destruct (IH w1 _ Hq1) as [H1 H2]. cbv zeta in H1, H2.
    split; [exact H1|]. rewrite H2, <- app_assoc. reflexivity.
Qed.

Lemma jd_init_queue (w : World) :
  jd_worker w = None ->
  jd_worker (snd (init w))
  = Some (jd_item_of <$> (rpr_with_status RoleListingRunStatus.PENDING
                            <$> RoleProfileManager.query_pending (role_profiles w))).
Proof.
  intros Hw. unfold init. unfold bind at 1, gets. rewrite Hw.
  unfold bind at 1, modify at 1.
  set (w1 := set_jd_worker (Some []) w).
  assert (G : RoleProfileManager.get_pending_role_profiles w1
              = (Ok (rpr_with_status RoleListingRunStatus.PENDING
                       <$> RoleProfileManager.query_pending (role_profiles w)), w1)).
  { unfold RoleProfileManager.get_pending_role_profiles. apply log_and_reraise_ok.
    unfold bind, gets, lift. simpl.
    rewrite jd_validate_all_pending; [reflexivity|].
    intros d. apply jd_query_pending_status. }
  unfold bind at 1. unfold try_except. rewrite (bind_ok _ _ _ _ _ G).
  match goal with
  | |- context [for_each ?rs ?b w1] =>
      destruct (jd_enqueue_all rs w1 [] eq_refl) as [H1 H2];
      cbv zeta in H1, H2; destruct (for_each rs b w1) as [out w2]
  end.
  simpl in H1, H2. subst out. simpl. exact H2.
Qed.

Lemma jd_pending_ids (m : gmap string RoleProfileRunDoc) :
  fst <$> (jd_item_of <$> (rpr_with_status RoleListingRunStatus.PENDING
                             <$> RoleProfileManager.query_pending m))
  = fst <$> List.filter (fun kd => String.eqb (rpr_status (snd kd)) "pending")
              (map_to_list m).
Proof.
  unfold RoleProfileManager.query_pending, RoleProfileManager.items.
  induction (map_to_list m) as [|[k d] l IH]; simpl; [reflexivity|].
  destruct (String.eqb (rpr_status d) "pending"); simpl; [f_equal|]; exact IH.
Qed.

Lemma jd_pending_ids_spec (m : gmap string RoleProfileRunDoc) (i : string) :
  i ∈ fst <$> List.filter (fun kd => String.eqb (rpr_status (snd kd)) "pending")
                (map_to_list m)
  <-> rpr_status <$> m !! i = Some "pending".
Proof.
  rewrite list_elem_of_fmap. split.
  - intros ([k d] & -> & H). apply list_elem_of_In, filter_In in H as [H1 H2].
    apply list_elem_of_In, elem_of_map_to_list in H1. simpl in *.
    apply String.eqb_eq in H2. rewrite H1. simpl. rewrite H2. reflexivity.
  - intros H. destruct (m !! i) as [d|] eqn:L; [|discriminate].
    simpl in H. injection H as H. exists (i, d). split; [reflexivity|].
    apply list_elem_of_In, filter_In. split.
    + apply list_elem_of_In, elem_of_map_to_list. exact L.
    + simpl. apply String.eqb_eq. exact H.
Qed.

End JD.

(** ** Construction changes only the queue of the pool and the log. *)

Section Frame.

Context (I : World -> Prop) (blind : log_blind I).

Lemma cv_init_keeps : cv_queue_blind I -> keeps I CVProcessorWorker.init.
Proof.
  intros qblind. unfold CVProcessorWorker.init, CVProfileManager.get_pending_cv_profiles,
    CVProcessorWorker.add_cv_to_queue.
  keeps_auto blind; try (apply keeps_modify; intros; apply qblind; assumption).
  apply keeps_try_except.
  - keeps_auto blind; apply keeps_modify; intros; apply qblind; assumption.
  - intros e h E. inversion E; subst. keeps_auto blind.
Qed.

Lemma jd_init_keeps : jd_queue_blind I -> keeps I JDProcessorWorker.init.
Proof.
  intros qblind. unfold JDProcessorWorker.init, RoleProfileManager.get_pending_role_profiles,
    JDProcessorWorker.add_jd_to_queue.
  keeps_auto blind; try (apply keeps_modify; intros; apply qblind; assumption).
  apply keeps_try_except.
  - keeps_auto blind; apply keeps_modify; intros; apply qblind; assumption.
  - intros e h E. inversion E; subst. keeps_auto blind.
Qed.

Lemma profiler_init_keeps : profiler_queue_blind I -> keeps I ProfilerWorker.init.
Proof.
  intros qblind. unfold ProfilerWorker.init.
  keeps_auto blind; apply keeps_modify; intros; apply qblind; assumption.
Qed.

End Frame.

End InitFacts.
(** * The pipeline as a whole *)

Module PipelineFacts.

Import Logic ManagerFacts Pipeline.

(** ** Runs that only advance *)


Lemma advances_trans {D} (status : D -> string) (m1 m2 m3 : gmap string D) :
  advances status m1 m2 -> advances status m2 m3 -> advances status m1 m3.
Proof.
  intros A B i d3 L3. destruct (B i d3 L3) as [T|(d2 & L2 & E)]; [left; exact T|].
  destruct (A i d2 L2) as [T|(d1 & L1 & E1)].
  - left. rewrite <- E. exact T.
  - right. exists d1. split; [exact L1|congruence].
Qed.






(** ** Transitions, read through a property of the two run containers *)

Section Stores.

Context (P : gmap string CVProfileRunDoc -> gmap string RoleProfileRunDoc -> Prop).

Local Abbreviation I := (fun w : World => P (cv_profiles w) (role_profiles w)).

Lemma stores_log_blind : log_blind I.
Proof. intros w l H. exact H. Qed.

Lemma stores_cv_queue_blind : cv_queue_blind I.
Proof. intros w q H. exact H. Qed.

Lemma stores_jd_queue_blind : jd_queue_blind I.
Proof. intros w q H. exact H. Qed.


Lemma create_user_keeps (user : User) : keeps I (UserManager.add_user user).
Proof.
  unfold UserManager.add_user. keeps_auto stores_log_blind.
  apply keeps_modify. intros w H. exact H.
Qed.

Lemma start_cv_keeps : keeps I CVProcessorWorker.init.
Proof. exact (InitFacts.cv_init_keeps _ stores_log_blind stores_cv_queue_blind). Qed.

Lemma start_jd_keeps : keeps I JDProcessorWorker.init.
Proof. exact (InitFacts.jd_init_keeps _ stores_log_blind stores_jd_queue_blind). Qed.

Lemma cv_turn_keeps_stores (thread_name : string) (env : CVProcessorWorker.Env) :
  keeps I (CVProcessorWorker._process_queue thread_name env).
Proof.
  exact (CVFacts.cv_turn_keeps _ stores_log_blind thread_name env stores_cv_queue_blind).
Qed.

Context (cv_submit :
           forall m r i d, P m r -> cvr_status d = "pending" -> P (<[i := d]> m) r).
Context (role_submit :
           forall m r i d, P m r -> rpr_status d = "pending" -> P m (<[i := d]> r)).
Context (cv_complete :
           forall m r i d0 d,
             P m r -> m !! i = Some d0 -> cvr_status d = "completed" ->
             P (<[i := d]> m) r).
Context (role_update :
           forall m r i d0 d s,
             P m r -> r !! i = Some d0 -> rpr_status d = RoleListingRunStatus.value s ->
             P m (<[i := d]> r)).
Context (role_delete :
           forall m r i d0, P m r -> r !! i = Some d0 -> P m (delete i r)).

Lemma upload_cv_keeps (now : Z) (user_id file_path : string) :
  keeps I (upload_cv now user_id file_path).
Proof.
  unfold upload_cv, UserManager.get_user_by_id, CVProfileManager.add_cv_profile,
    CVProfileManager.upsert_item, CVProcessorWorker.add_cv_to_queue.
  keeps_auto stores_log_blind; apply keeps_modify; intros w H; simpl.
  - apply cv_submit; [exact H|reflexivity].
  - exact H.
Qed.

Lemma upload_jd_keeps (now : Z) (role_id file_path user_id : string) :
  keeps I (upload_jd now role_id file_path user_id).
Proof.
  unfold upload_jd, UserManager.get_user_by_id, RoleProfileManager.add_role_profile,
    RoleProfileManager.upsert_item, JDProcessorWorker.add_jd_to_queue.
  keeps_auto stores_log_blind; apply keeps_modify; intros w H; simpl.
  - apply role_submit; [exact H|reflexivity].
  - exact H.
Qed.


Lemma jd_turn_keeps_stores (thread_name : string) (env : JDProcessorWorker.Env) :
  keeps I (JDProcessorWorker._process_queue thread_name env).
Proof.
  apply (JDFacts.jd_turn_keeps _ stores_log_blind).
  - intros w m H. exact H.
  - intros i w d0 d s H L S. simpl. exact (role_update _ _ i d0 d s H L S).
  - intros i w d0 H L. simpl. exact (role_delete _ _ i d0 H L).
  - exact stores_jd_queue_blind.
Qed.

End Stores.

(** ** Every stored status is one of the three values *)



(** ** No transition but a submission takes a run out of a terminal status *)



Lemma jd_turn_idle (thread_name : string) (env : JDProcessorWorker.Env) (w : World) :
  jd_worker w = None \/ jd_worker w = Some [] ->
  JDProcessorWorker._process_queue thread_name env w = (Ok tt, w).
Proof.
  intros H. unfold JDProcessorWorker._process_queue, JDProcessorWorker.queue_get,
    try_except, bind, gets. cbv beta.
  destruct H as [-> | ->]; reflexivity.
Qed.



(** ** A submission makes the run PENDING *)





(** The run of the four-page job description is FAILED in that state. *)
Example jd_failed_status : role_run_status Scenario.jd_failed "j1" = Some "failed".
Proof. vm_compute. reflexivity. Qed.

End PipelineFacts.

(** * The listing pipeline *)

Module ListingFacts.

Import Logic ManagerFacts Pipeline JDProcessorWorker JDEffect.

(** The failure write of the handler, on a run the stage function has
    written back. *)
Lemma handler_marks_failed (env : Env) (e : exn) (jd_id : string)
    (runs : gmap string RoleProfileRunDoc) (d0 : RoleProfileRunDoc)
    (s : RoleListingRunStatus.t) :
  exists d,
    handler_effect env e jd_id
      (<[jd_id := role_model_dump (touched env jd_id d0 s)]> runs) !! jd_id = Some d
    /\ rpr_status d = "failed"
    /\ rpr_status_comment d = Some (exn_str e).
Proof.
  unfold handler_effect. rewrite lookup_insert_eq.
  change (rpr_status (role_model_dump (touched env jd_id d0 s)))
    with (RoleListingRunStatus.value s).
  rewrite JDFacts.role_of_value_roundtrip, lookup_insert_eq.
  eexists. split; [reflexivity|]. split; reflexivity.
Qed.

(** C2, amended. One turn of the JD worker on a queued item. When the stage
    function ends without an exception, the run record of the item is no
    longer in the store and a [RoleListing] is stored under a new id with the
    domain fields of the completed run, which are those the LLM returned.
    When it raises, no [RoleListing] has been written; if the exception is a
    [RoleListingError] (a [JDFormatError] or a [JDLengthError] included) bound
    to the item and the run was in the store, the run is still there with
    status FAILED and the message of the error as its comment; if the run
    was not in the store, the run container is unchanged. *)
Theorem listing_run_promoted_or_marked_failed
    (thread_name : string) (env : Env) (w : World) (jd_id file_path : string)
    (q : list (string * string)) :
  jd_worker w = Some ((jd_id, file_path) :: q) ->
  let w' := snd (_process_queue thread_name env w) in
  match fst (process_item thread_name env jd_id file_path (set_jd_worker (Some q) w)) with
  | Ok _ =>
      role_profiles w' !! jd_id = None
      /\ exists d0 s paragraphs a loc,
           role_profiles w !! jd_id = Some d0
           /\ extract_result env jd_id file_path = Ok paragraphs
           /\ llm_parse env paragraphs = Ok (Some a)
           /\ rp_location a = Some loc
           /\ let run := completed env jd_id d0 s a loc in
              role_listings w' !! new_listing_id env = Some (listing_of env run)
              /\ rl_fields (listing_of env run) = rpr_fields run
              /\ rf_title (rpr_fields run) = Some (rp_title a)
              /\ rf_description (rpr_fields run) = Some (rp_description a)
  | Raise e =>
      role_listings w' = role_listings w
      /\ (as_RoleListingError e = Some jd_id ->
          match role_profiles w !! jd_id with
          | Some _ =>
              exists d,
                role_profiles w' !! jd_id = Some d
                /\ rpr_status d = "failed"
                /\ rpr_status_comment d = Some (exn_str e)
          | None => role_profiles w' = role_profiles w
          end)
  end.
Proof.
  intros Hq.
  destruct (JDFacts.jd_turn_effect thread_name env w jd_id file_path q Hq)
    as (E1 & E2 & E3).
  cbv zeta in *. rewrite E1, E2, E3. clear E1 E2 E3. unfold stage_effect.
  destruct (role_profiles w !! jd_id) as [d0|] eqn:L; simpl.
  2: { split; [reflexivity|]. intros _. unfold handler_effect. rewrite L. reflexivity. }
  destruct (RoleListingRunStatus.of_value (rpr_status d0)) as [s|] eqn:V; simpl.
  2: { split; [reflexivity|]. discriminate. }
  destruct (extract_result env jd_id file_path) as [paragraphs|e] eqn:X; simpl.
  2: { split; [reflexivity|]. intros B. rewrite B. apply handler_marks_failed. }
  unfold analyze_result.
  destruct (llm_parse env paragraphs) as [[a|]|e] eqn:A; simpl.
  3: { split; [reflexivity|]. discriminate. }
  2: { split; [reflexivity|]. discriminate. }
  destruct (rp_location a) as [loc|] eqn:Loc; simpl.
  2: { split; [reflexivity|]. discriminate. }
  split; [apply lookup_delete_eq|].
  exists d0, s, paragraphs, a, loc. repeat (split; [reflexivity || assumption|]).
  rewrite lookup_insert_eq. repeat split; reflexivity.
Qed.

Example four_page_jd_raises :
  fst (process_item "JDProcessor-0" (Scenario.jd_env 4 (Ok (Some Scenario.engineer)))
         "j1" "jd.pdf" (set_jd_worker (Some []) Scenario.jd_submitted))
  = Raise (JDLengthError
             "The file has 4 pages, which is more than the maximum allowed (3)" "j1").
Proof. vm_compute. reflexivity. Qed.

(** A four-page job description: the run of "j1" ends FAILED, with both
    page counts in its comment, and no listing is stored. *)
Lemma listing_run_marked_failed_witness :
  role_listings Scenario.jd_failed = role_listings Scenario.jd_submitted
  /\ exists d,
       role_profiles Scenario.jd_failed !! "j1" = Some d
       /\ rpr_status d = "failed"
       /\ rpr_status_comment d
          = Some "The file has 4 pages, which is more than the maximum allowed (3)".
Proof.
  pose proof (listing_run_promoted_or_marked_failed "JDProcessor-0"
                (Scenario.jd_env 4 (Ok (Some Scenario.engineer)))
                Scenario.jd_submitted "j1" "jd.pdf" [] eq_refl) as H.
  cbv zeta in H. rewrite four_page_jd_raises in H.
  destruct H as [H1 H2]. split; [exact H1|].
  specialize (H2 eq_refl).
  destruct (role_profiles Scenario.jd_submitted !! "j1") eqn:L.
  - exact H2.
  - vm_compute in L. discriminate L.
Defined.

(** C2 as worded does not hold: a [RoleListingError] raised for an item whose
    run is not in the store leaves no FAILED run behind. *)
Lemma orphaned_item_leaves_no_failed_run : ~ failed_run_always_recorded.
Proof.
  intros H.
  destruct (H "JDProcessor-0" (Scenario.jd_env 1 (Ok (Some Scenario.engineer)))
              Scenario.jd_orphaned "j1" "jd.pdf" []
              (RoleListingError "Role profile run j1 not found" "j1"))
    as (d & L & _).
  - reflexivity.
  - vm_compute. reflexivity.
  - reflexivity.
  - vm_compute in L. discriminate L.
Qed.

End ListingFacts.

(** * Failures that are not domain errors *)

Module FailureFacts.

Import Logic ManagerFacts Pipeline.










End FailureFacts.

(** * The résumé pipeline *)

Module ResumeFacts.

Import Logic ManagerFacts Pipeline CVProcessorWorker.

Lemma length_error_message_counts (page_count : nat) :
  occurs_in (PyStr.str_of_nat page_count) (length_error_message page_count)
  /\ occurs_in (PyStr.str_of_nat Configuration.CV_MAX_PAGES)
       (length_error_message page_count).
Proof.
  unfold length_error_message. split.
  - exists "The file has ".
    exists (" pages, which is more than the maximum allowed ("
            ++ PyStr.str_of_nat Configuration.CV_MAX_PAGES ++ ")").
    reflexivity.
  - exists ("The file has " ++ PyStr.str_of_nat page_count
            ++ " pages, which is more than the maximum allowed (").
    exists ")".
    rewrite <- !LinkFacts.append_assoc. reflexivity.
Qed.

(** The stage function on a document with too many pages. *)
Lemma process_item_overlong (thread_name : string) (env : Env) (cv_id file_path : string)
    (pages : list Page) (w : World) :
  PyStr.endswith (PyStr.lower file_path) ".pdf" = true ->
  pdf_reader env file_path = Ok pages ->
  (Configuration.CV_MAX_PAGES < length pages)%nat ->
  process_item thread_name env cv_id file_path w
  = (Raise (CVLengthError (length_error_message (length pages)) cv_id),
     set_log (log w ++ [(INFO, "Worker " ++ thread_name ++ " processing CV " ++ cv_id)]) w).
Proof.
  intros Pdf R Long. unfold process_item. rewrite bind_logger, Pdf.
  unfold process_pdf.
  assert (T : (Configuration.CV_MAX_PAGES <? length pages)%nat = true)
    by (apply Nat.ltb_lt; exact Long).
  unfold bind at 1. unfold bind at 1. unfold lift. rewrite R, T. reflexivity.
Qed.

(** The handler of [CVError] on a run that is in the store: the call of
    [update_cv_profile] is rejected. *)
Lemma on_CVError_rejected (thread_name : string) (env : Env) (e : exn) (e_cv_id : string)
    (w : World) (d : CVProfileRunDoc) (s : CVProfileRunStatus.t) :
  cv_profiles w !! e_cv_id = Some d ->
  CVProfileRunStatus.of_value (cvr_status d) = Some s ->
  on_CVError thread_name env e e_cv_id w
  = (Raise (TypeError "update_cv_profile() got an unexpected keyword argument 'cv_id'"),
     w).
Proof.
  intros L V. unfold on_CVError.
  pose proof (get_cv_profile_result e_cv_id w) as G. rewrite L, V in G.
  rewrite (bind_ok _ _ _ _ _ G). unfold bind, lift.
  rewrite CVFacts.failure_arguments_rejected. reflexivity.
Qed.

Lemma cv_turn_ok (thread_name : string) (env : Env) (w : World) :
  fst (_process_queue thread_name env w) = Ok tt.
Proof.
  pose proof (CVFacts.cv_turn_never_raises thread_name env w) as H.
  destruct (fst (_process_queue thread_name env w)) as [[]|]; [reflexivity|discriminate H].
Qed.

(** A turn of the CV worker leaves the run container and the profiler as
    they are. *)
Lemma cv_turn_writes_nothing (thread_name : string) (env : Env) (w : World) :
  cv_profiles (snd (_process_queue thread_name env w)) = cv_profiles w
  /\ profiler_worker (snd (_process_queue thread_name env w)) = profiler_worker w.
Proof.
  split.
  - exact (CVFacts.cv_turn_keeps (fun w' => cv_profiles w' = cv_profiles w)
             (fun _ _ H => H) thread_name env (fun _ _ H => H) w eq_refl).
  - exact (CVFacts.cv_turn_keeps (fun w' => profiler_worker w' = profiler_worker w)
             (fun _ _ H => H) thread_name env (fun _ _ H => H) w eq_refl).
Qed.

(** C4. For a queued résumé with more pages than [CV_MAX_PAGES] the stage
    function raises a [CVLengthError] bound to the item, whose message holds
    the observed page count and the maximum, and the item is not handed to
    the profiler. The run does not end FAILED: the failure write of the
    handler passes the id as [cv_id], a keyword [update_cv_profile] does not
    have, so the run container is after the turn what it was before it, and
    for a run that was readable the last record of the log is the
    [TypeError]. *)
Theorem overlong_cv_left_pending
    (thread_name : string) (env : Env) (w : World) (cv_id file_path : string)
    (q : list (string * string)) (pages : list Page) :
  cv_worker w = Some ((cv_id, file_path) :: q) ->
  PyStr.endswith (PyStr.lower file_path) ".pdf" = true ->
  pdf_reader env file_path = Ok pages ->
  (Configuration.CV_MAX_PAGES < length pages)%nat ->
  let message := length_error_message (length pages) in
  let out := _process_queue thread_name env w in
  fst (process_item thread_name env cv_id file_path (set_cv_worker (Some q) w))
  = Raise (CVLengthError message cv_id)
  /\ occurs_in (PyStr.str_of_nat (length pages)) message
  /\ occurs_in (PyStr.str_of_nat Configuration.CV_MAX_PAGES) message
  /\ fst out = Ok tt
  /\ cv_profiles (snd out) = cv_profiles w
  /\ profiler_worker (snd out) = profiler_worker w
  /\ (forall v, cv_run_status w cv_id = Some v -> In v status_values ->
        last (log (snd out))
        = Some (ERROR, "Exception: update_cv_profile() got an unexpected keyword "
                       ++ "argument 'cv_id'")).
Proof.
  intros Hq Pdf R Long. cbv zeta.
  pose proof (process_item_overlong thread_name env cv_id file_path pages
                (set_cv_worker (Some q) w) Pdf R Long) as B.
  split; [rewrite B; reflexivity|].
  split; [apply length_error_message_counts|].
  split; [apply length_error_message_counts|].
  split; [apply cv_turn_ok|].
  split; [apply cv_turn_writes_nothing|].
  split; [apply cv_turn_writes_nothing|].
  intros v S V.
  rewrite (CVFacts.cv_turn_outcome thread_name env w (cv_id, file_path) q Hq).
  cbv zeta. cbn [fst snd]. rewrite B. cbn [fst snd as_CVError].
  unfold cv_run_status in S.
  destruct (cv_profiles w !! cv_id) as [d|] eqn:L; [|discriminate S].
  injection S as S.
  assert (exists s, CVProfileRunStatus.of_value (cvr_status d) = Some s) as [s Vs].
  { rewrite S. destruct V as [<-|[<-|[<-|[]]]]; eexists; reflexivity. }
  rewrite (on_CVError_rejected thread_name env _ cv_id
             (set_log _ (set_cv_worker (Some q) w)) d s L Vs).
  unfold log_exception, logger, modify. cbn [fst snd log set_log].
  apply last_snoc.
Qed.

Example three_pages_are_too_many :
  (Configuration.CV_MAX_PAGES
   < length (replicate 3 Scenario.blank_page))%nat.
Proof. vm_compute. lia. Qed.

(** A résumé of three pages: the run of "u1" is PENDING after the turn, it
    has no comment, and the profiler has not been constructed. *)
Lemma overlong_cv_witness :
  let w' := step (CVTurn "CVProcessor-0" (Scenario.cv_env 3 (Ok (Some Scenario.assessment))))
              Scenario.cv_submitted in
  cv_run_status w' "u1" = Some "pending"
  /\ cvr_status_comment <$> cv_profiles w' !! "u1" = Some None
  /\ profiler_worker w' = None
  /\ last (log w')
     = Some (ERROR, "Exception: update_cv_profile() got an unexpected keyword "
                    ++ "argument 'cv_id'").
Proof.
  pose proof (overlong_cv_left_pending "CVProcessor-0"
                (Scenario.cv_env 3 (Ok (Some Scenario.assessment)))
                Scenario.cv_submitted "u1" "cv.pdf" [] (replicate 3 Scenario.blank_page)
                eq_refl eq_refl eq_refl three_pages_are_too_many) as H.
  cbv zeta in H. destruct H as (_ & _ & _ & _ & H1 & H2 & H3).
  cbv zeta. unfold cv_run_status, step. cbn [action]. rewrite H1, H2.
  split; [vm_compute; reflexivity|]. split; [vm_compute; reflexivity|].
  split; [vm_compute; reflexivity|].
  apply (H3 "pending"); [vm_compute; reflexivity|simpl; auto].
Defined.

(** The stage function of the profiler on an item without assessment. *)
Lemma profiler_item_without_assessment (thread_name : string) (env : ProfilerWorker.Env)
    (cv_id : string) (paragraphs : list string) (profile : option CVProfile) (w : World) :
  ProfilerWorker.llm_parse env paragraphs None = Ok profile ->
  fst (ProfilerWorker.process_item thread_name env (cv_id, paragraphs, None) w)
  = Raise (AttributeError "'NoneType' object has no attribute 'creativity_score'").
Proof.
  intros A. unfold ProfilerWorker.process_item. rewrite bind_logger.
  unfold ProfilerWorker.analyze_cv. rewrite A.
  unfold bind at 1. unfold ret at 1. rewrite !bind_logger. reflexivity.
Qed.

Lemma profiler_turn_ok (thread_name : string) (env : ProfilerWorker.Env) (w : World) :
  fst (ProfilerWorker._process_queue thread_name env w) = Ok tt.
Proof.
  pose proof (ProfilerFacts.profiler_turn_never_raises thread_name env w) as H.
  destruct (fst (ProfilerWorker._process_queue thread_name env w)) as [[]|];
    [reflexivity|discriminate H].
Qed.

(** C10. A turn of the CV worker never adds an item to the queue of the
    profiler and never writes a run, whatever the vision call answered: the
    write-back that precedes the hand-over passes the id as [cv_id] and is
    rejected. Were an item without assessment in the queue of the profiler,
    its turn would end without an exception and leave the run container as
    it is; when the LLM call succeeds, the exception that is logged is the
    [AttributeError] of reading [creativity_score] off [None]. *)
Theorem refused_assessment_not_handed_over :
  (forall thread_name env w,
     let out := _process_queue thread_name env w in
     fst out = Ok tt
     /\ profiler_worker (snd out) = profiler_worker w
     /\ cv_profiles (snd out) = cv_profiles w)
  /\ (forall thread_name env w cv_id paragraphs q,
        profiler_worker w = Some ((cv_id, paragraphs, None) :: q) ->
        let out := ProfilerWorker._process_queue thread_name env w in
        fst out = Ok tt
        /\ cv_profiles (snd out) = cv_profiles w
        /\ (forall profile,
              ProfilerWorker.llm_parse env paragraphs None = Ok profile ->
              last (log (snd out))
              = Some (ERROR, "Profiler " ++ thread_name
                             ++ " encountered an error processing CV " ++ cv_id
                             ++ ": 'NoneType' object has no attribute "
                             ++ "'creativity_score'"))).
Proof.
  split.
  - intros thread_name env w. cbv zeta. split; [apply cv_turn_ok|].
    split; apply cv_turn_writes_nothing.
  - intros thread_name env w cv_id paragraphs q Hq. cbv zeta.
    split; [apply profiler_turn_ok|].
    rewrite (ProfilerFacts.profiler_turn_outcome thread_name env w
               (cv_id, paragraphs, None) q Hq).
    cbv zeta. cbn [fst snd].
    split.
    + set (body := ProfilerWorker.process_item thread_name env _ _).
      assert (K : cv_profiles (snd body) = cv_profiles w).
      { exact (ProfilerFacts.process_item_without_assessment
                 (fun w' => cv_profiles w' = cv_profiles w) (fun _ _ H => H)
                 thread_name env cv_id paragraphs
                 (set_profiler_worker (Some q) w) eq_refl). }
      clearbody body. destruct body as [[[]|e] w1]; cbn [fst snd] in *; [exact K|].
      unfold ProfilerWorker.on_exception, logger, modify. exact K.
    + intros profile A.
      rewrite (profiler_item_without_assessment thread_name env cv_id paragraphs
                 profile _ A).
      unfold ProfilerWorker.on_exception, logger, modify. cbn [fst snd log set_log].
      rewrite last_snoc. reflexivity.
Qed.

(** The vision call returns no assessment for the résumé of "u1": after the
    turn of the CV worker the profiler is not even constructed. *)
Example refused_assessment_example :
  let w' := step (CVTurn "CVProcessor-0" (Scenario.cv_env 1 (Ok None)))
              Scenario.cv_submitted in
  profiler_worker w' = None
  /\ cv_run_status w' "u1" = Some "pending"
  /\ last (log w')
     = Some (ERROR, "Worker CVProcessor-0 encountered an error processing CV u1: "
                    ++ "update_cv_profile() got an unexpected keyword argument 'cv_id'").
Proof. vm_compute. repeat split; reflexivity. Qed.

End ResumeFacts.

(** * The recovery scan of the pools *)

Module PoolFacts.

Import Logic ManagerFacts Pipeline Pools.

(** C5, amended. Constructing the résumé pool or the listing pool puts into
    its queue the ids of exactly the runs of its kind that are stored as
    PENDING, each once, so that no run with a terminal status is enqueued;
    constructing the profiler pool starts it with an empty queue. *)
Theorem scanning_pools_reload_pending (p : pool) (w : World) :
  queued_ids p w = None ->
  match p with
  | ProfilerPool => queued_ids p (snd (construct p w)) = Some []
  | _ =>
      exists ids,
        queued_ids p (snd (construct p w)) = Some ids
        /\ NoDup ids
        /\ forall i, i ∈ ids <-> pending p w i
  end.
Proof.
  intros H. destruct p; simpl in *.
  - destruct (cv_worker w) eqn:Q; [discriminate H|].
    rewrite (InitFacts.cv_init_queue w Q), InitFacts.cv_pending_ids.
    eexists. split; [reflexivity|]. split.
    + apply InitFacts.NoDup_fst_filter, NoDup_fst_map_to_list.
    + intros i. apply InitFacts.cv_pending_ids_spec.
  - destruct (jd_worker w) eqn:Q; [discriminate H|].
    rewrite (InitFacts.jd_init_queue w Q), InitFacts.jd_pending_ids.
    eexists. split; [reflexivity|]. split.
    + apply InitFacts.NoDup_fst_filter, NoDup_fst_map_to_list.
    + intros i. apply InitFacts.jd_pending_ids_spec.
  - destruct (profiler_worker w) eqn:Q; [discriminate H|].
    unfold ProfilerWorker.init, bind, gets, modify, logger. rewrite Q. reflexivity.
Qed.

(** After a restart with three PENDING résumé runs in the store. *)
Lemma scanning_pools_witness :
  exists ids,
    queued_ids ResumePool (snd (construct ResumePool Scenario.after_restart)) = Some ids
    /\ NoDup ids
    /\ forall i, i ∈ ids <-> pending ResumePool Scenario.after_restart i.
Proof. exact (scanning_pools_reload_pending ResumePool Scenario.after_restart eq_refl). Defined.

Example three_pending_runs_reloaded :
  cv_worker (snd (construct ResumePool Scenario.after_restart))
  = Some [("u5", "uploads/u5.pdf"); ("u1", "uploads/u1.pdf"); ("u2", "uploads/u2.pdf")]
  /\ jd_worker (snd (construct ListingPool Scenario.after_restart))
     = Some [("j3", "uploads/j3.pdf"); ("j1", "uploads/j1.pdf"); ("j4", "uploads/j4.pdf")].
Proof. vm_compute. split; reflexivity. Qed.

(** C5 as worded does not hold: the profiler pool has no scan, and starts
    empty next to PENDING runs. *)
Lemma profiler_pool_reloads_nothing : ~ every_pool_reloads_pending.
Proof.
  intros H.
  destruct (H ProfilerPool Scenario.after_restart eq_refl) as (ids & Q & _ & M).
  vm_compute in Q. injection Q as <-.
  assert (P : pending ProfilerPool Scenario.after_restart "u1")
    by (vm_compute; reflexivity).
  apply M in P. inversion P.
Qed.

End PoolFacts.

(** * Further properties of the workers *)

Module QueueFacts.

Import Logic ManagerFacts Pipeline.

Lemma drop_tail {A} (n : nat) (l : list A) : drop n (tail l) = drop (S n) l.
Proof. destruct l; simpl; [rewrite drop_nil|]; reflexivity. Qed.

Lemma cv_turn_idle (thread_name : string) (env : CVProcessorWorker.Env) (w : World) :
  cv_worker w = None \/ cv_worker w = Some [] ->
  CVProcessorWorker._process_queue thread_name env w = (Ok tt, w).
Proof.
  intros H. unfold CVProcessorWorker._process_queue, CVProcessorWorker.queue_get,
    try_except, bind, gets. cbv beta.
  destruct H as [-> | ->]; reflexivity.
Qed.

Lemma profiler_turn_idle (thread_name : string) (env : ProfilerWorker.Env) (w : World) :
  profiler_worker w = None \/ profiler_worker w = Some [] ->
  ProfilerWorker._process_queue thread_name env w = (Ok tt, w).
Proof.
  intros H. unfold ProfilerWorker._process_queue, ProfilerWorker.queue_get,
    try_except, bind, gets. cbv beta.
  destruct H as [-> | ->]; reflexivity.
Qed.

Lemma cv_turn_pops (thread_name : string) (env : CVProcessorWorker.Env) (w : World) :
  cv_worker (snd (CVProcessorWorker._process_queue thread_name env w))
  = tail <$> cv_worker w.
Proof.
  destruct (cv_worker w) as [[|item q]|] eqn:Hq.
  - rewrite cv_turn_idle by (right; exact Hq). exact Hq.
  - rewrite (CVFacts.cv_turn_outcome thread_name env w item q Hq). cbv zeta.
    pose proof (CVFacts.cv_process_item_keeps (fun w' => cv_worker w' = Some q)
                  (fun _ _ H => H) thread_name env (fst item) (snd item)
                  (set_cv_worker (Some q) w) eq_refl) as K.
    cbv beta in K.
    destruct (CVProcessorWorker.process_item thread_name env (fst item) (snd item)
                (set_cv_worker (Some q) w)) as [[[]|e] w1]; cbn [fst snd] in *;
      [exact K|].
    destruct (as_CVError e) as [i|]; [|exact K].
    pose proof (CVFacts.on_CVError_keeps (fun w' => cv_worker w' = Some q)
                  (fun _ _ H => H) thread_name env e i w1 K) as K2.
    cbv beta in K2.
    destruct (CVProcessorWorker.on_CVError thread_name env e i w1) as [[[]|e'] w2];
      cbn [fst snd] in *; [exact K2|].
    destruct e'; exact K2.
  - rewrite cv_turn_idle by (left; exact Hq). exact Hq.
Qed.

Lemma jd_turn_pops (thread_name : string) (env : JDProcessorWorker.Env) (w : World) :
  jd_worker (snd (JDProcessorWorker._process_queue thread_name env w))
  = tail <$> jd_worker w.
Proof.
  destruct (jd_worker w) as [[|item q]|] eqn:Hq.
  - rewrite PipelineFacts.jd_turn_idle by (right; exact Hq). exact Hq.
  - rewrite (JDFacts.jd_turn_outcome thread_name env w item q Hq). cbv zeta.
    assert (U : forall (i : string) (w0 : World) (d0 d : RoleProfileRunDoc)
                       (s : RoleListingRunStatus.t),
               jd_worker w0 = Some q -> role_profiles w0 !! i = Some d0 ->
               rpr_status d = RoleListingRunStatus.value s ->
               jd_worker (set_role_profiles (<[i := d]> (role_profiles w0)) w0) = Some q)
      by (intros; assumption).
    assert (D : forall (i : string) (w0 : World) (d0 : RoleProfileRunDoc),
               jd_worker w0 = Some q -> role_profiles w0 !! i = Some d0 ->
               jd_worker (set_role_profiles (delete i (role_profiles w0)) w0) = Some q)
      by (intros; assumption).
    pose proof (JDFacts.jd_process_item_keeps (fun w' => jd_worker w' = Some q)
                  (fun _ _ H => H) (fun _ _ H => H) U D thread_name env
                  (fst item) (snd item) (set_jd_worker (Some q) w) eq_refl) as K.
    cbv beta in K.
    destruct (JDProcessorWorker.process_item thread_name env (fst item) (snd item)
                (set_jd_worker (Some q) w)) as [[[]|e] w1]; cbn [fst snd] in *;
      [exact K|].
    destruct (as_RoleListingError e) as [i|]; [|exact K].
    pose proof (JDFacts.on_RoleListingError_keeps (fun w' => jd_worker w' = Some q)
                  (fun _ _ H => H) U thread_name env e i w1 K) as K2.
    cbv beta in K2.
    destruct (JDProcessorWorker.on_RoleListingError thread_name env e i w1)
      as [[[]|e'] w2]; cbn [fst snd] in *; [exact K2|].
    destruct e'; exact K2.
  - rewrite PipelineFacts.jd_turn_idle by (left; exact Hq). exact Hq.
Qed.

Lemma profiler_turn_pops (thread_name : string) (env : ProfilerWorker.Env) (w : World) :
  profiler_worker (snd (ProfilerWorker._process_queue thread_name env w))
  = tail <$> profiler_worker w.
Proof.
  destruct (profiler_worker w) as [[|item q]|] eqn:Hq.
  - rewrite profiler_turn_idle by (right; exact Hq). exact Hq.
  - rewrite (ProfilerFacts.profiler_turn_outcome thread_name env w item q Hq). cbv zeta.
    assert (K : profiler_worker
                  (snd (ProfilerWorker.process_item thread_name env item
                          (set_profiler_worker (Some q) w))) = Some q).
    { refine (ProfilerFacts.profiler_process_item_keeps
                (fun w' => profiler_worker w' = Some q)
                (fun _ _ H => H) (fun _ _ H => H) thread_name env item _
                (set_profiler_worker (Some q) w) eq_refl).
      intros w0 d0 d H _ _ _. exact H. }
    destruct (ProfilerWorker.process_item thread_name env item
                (set_profiler_worker (Some q) w)) as [[[]|e] w1]; cbn [fst snd] in *;
      exact K.
  - rewrite profiler_turn_idle by (left; exact Hq). exact Hq.
Qed.

(** X1. A turn of a worker loop takes exactly the head item off the queue
    of its worker, whatever happens to the item (success, a domain error, any
    other exception), and leaves an empty or unconstructed queue as it is.
    So [n] turns of a worker leave the queue without its first [n] items: no
    item is put back or retried, and a queue of [n] items is empty after [n]
    turns. This holds for the CV worker, the JD worker and the profiler. *)
Theorem turns_drain_queue :
  (forall thread_name envs w,
     cv_worker (run (CVTurn thread_name <$> envs) w)
     = drop (length envs) <$> cv_worker w)
  /\ (forall thread_name envs w,
        jd_worker (run (JDTurn thread_name <$> envs) w)
        = drop (length envs) <$> jd_worker w)
  /\ (forall thread_name envs w,
        profiler_worker (run (ProfilerTurn thread_name <$> envs) w)
        = drop (length envs) <$> profiler_worker w).
Proof.
  split; [|split]; intros thread_name envs; induction envs as [|env envs IH]; intros w.
  - change (cv_worker w = drop 0 <$> cv_worker w). destruct (cv_worker w); reflexivity.
  - change (cv_worker (run (CVTurn thread_name <$> envs) (step (CVTurn thread_name env) w))
            = drop (S (length envs)) <$> cv_worker w).
    rewrite IH. unfold step. cbn [action]. rewrite cv_turn_pops.
    destruct (cv_worker w); [|reflexivity]. simpl. rewrite drop_tail. reflexivity.
  - change (jd_worker w = drop 0 <$> jd_worker w). destruct (jd_worker w); reflexivity.
  - change (jd_worker (run (JDTurn thread_name <$> envs) (step (JDTurn thread_name env) w))
            = drop (S (length envs)) <$> jd_worker w).
    rewrite IH. unfold step. cbn [action]. rewrite jd_turn_pops.
    destruct (jd_worker w); [|reflexivity]. simpl. rewrite drop_tail. reflexivity.
  - change (profiler_worker w = drop 0 <$> profiler_worker w). destruct (profiler_worker w); reflexivity.
  - change (profiler_worker (run (ProfilerTurn thread_name <$> envs)
                               (step (ProfilerTurn thread_name env) w))
            = drop (S (length envs)) <$> profiler_worker w).
    rewrite IH. unfold step. cbn [action]. rewrite profiler_turn_pops.
    destruct (profiler_worker w); [|reflexivity]. simpl. rewrite drop_tail. reflexivity.
Qed.

End QueueFacts.

(** * What the résumé pipeline reaches *)

Module PendingFacts.

Import Logic ManagerFacts Pipeline.

(** No transition but a turn of the profiler touches the profiler. *)
Lemma profiler_untouched (l : label) (w : World) :
  (forall thread_name env, l <> ProfilerTurn thread_name env) ->
  profiler_worker (step l w) = profiler_worker w.
Proof.
  intros N. unfold step.
  assert (blind : log_blind (fun w' => profiler_worker w' = profiler_worker w))
    by (intros w0 l0 H; exact H).
  assert (K : keeps (fun w' => profiler_worker w' = profiler_worker w) (action l)).
  { destruct l; cbn [action].
    - unfold UserManager.add_user. keeps_auto blind.
      apply keeps_modify. intros w0 H. exact H.
    - unfold upload_cv, UserManager.get_user_by_id, CVProfileManager.add_cv_profile,
        CVProfileManager.upsert_item, CVProcessorWorker.add_cv_to_queue.
      keeps_auto blind; apply keeps_modify; intros w0 H; exact H.
    - unfold upload_jd, UserManager.get_user_by_id, RoleProfileManager.add_role_profile,
        RoleProfileManager.upsert_item, JDProcessorWorker.add_jd_to_queue.
      keeps_auto blind; apply keeps_modify; intros w0 H; exact H.
    - apply (InitFacts.cv_init_keeps _ blind). intros w0 q H. exact H.
    - apply (InitFacts.jd_init_keeps _ blind). intros w0 q H. exact H.
    - apply (CVFacts.cv_turn_keeps _ blind). intros w0 q H. exact H.
    - apply (JDFacts.jd_turn_keeps _ blind).
      + intros w0 m H. exact H.
      + intros i w0 d0 d s H _ _. exact H.
      + intros i w0 d0 H _. exact H.
      + intros w0 q H. exact H.
    - exfalso. exact (N thread_name env eq_refl). }
  exact (K w eq_refl).
Qed.

Lemma step_keeps_all_pending (l : label) (w : World) :
  profiler_worker w = None ->
  (forall i v, cv_run_status w i = Some v -> v = "pending") ->
  forall i v, cv_run_status (step l w) i = Some v -> v = "pending".
Proof.
  intros N.
  set (P := fun (m : gmap string CVProfileRunDoc) (_ : gmap string RoleProfileRunDoc) =>
              forall i v, cvr_status <$> m !! i = Some v -> v = "pending").
  change (P (cv_profiles w) (role_profiles w) ->
          P (cv_profiles (step l w)) (role_profiles (step l w))).
  unfold step. destruct l; cbn [action].
  - apply (PipelineFacts.create_user_keeps P).
  - apply (PipelineFacts.upload_cv_keeps P).
    intros m r i d H S j v L. destruct (decide (i = j)) as [->|D].
    + rewrite lookup_insert_eq in L. injection L as <-. exact S.
    + rewrite lookup_insert_ne in L by exact D. exact (H j v L).
  - apply (PipelineFacts.upload_jd_keeps P). intros m r i d H _. exact H.
  - apply (PipelineFacts.start_cv_keeps P).
  - apply (PipelineFacts.start_jd_keeps P).
  - apply (PipelineFacts.cv_turn_keeps_stores P).
  - apply (PipelineFacts.jd_turn_keeps_stores P).
    + intros m r i d0 d s H _ _. exact H.
    + intros m r i d0 H _. exact H.
  - rewrite QueueFacts.profiler_turn_idle by (left; exact N). intros H. exact H.
Qed.

Lemma step_keeps_pending_invariant (l : label) (w : World) :
  profiler_worker w = None
  /\ (forall i v, cv_run_status w i = Some v -> v = "pending") ->
  profiler_worker (step l w) = None
  /\ forall i v, cv_run_status (step l w) i = Some v -> v = "pending".
Proof.
  intros [N P]. split; [|exact (step_keeps_all_pending l w N P)].
  destruct l;
    try (rewrite profiler_untouched by (intros; discriminate); exact N).
  unfold step. cbn [action].
  rewrite QueueFacts.profiler_turn_idle by (left; exact N). exact N.
Qed.

Lemma start_all_pending (i v : string) :
  cv_run_status empty_world i = Some v -> v = "pending".
Proof.
  intros L. unfold cv_run_status in L. simpl in L.
  rewrite lookup_empty in L. discriminate L.
Qed.

(** X2. In every state the pipeline reaches from the empty one through user
    creation, uploads, pool construction and turns of the three workers, the
    profiler has not been constructed and every stored résumé run is
    PENDING: the only call that constructs the profiler and hands it work
    follows the write-back of the CV worker, which is rejected for its
    keyword [cv_id], so no résumé run becomes COMPLETED or FAILED. *)
Theorem resume_runs_stay_pending (w : World) :
  reachable w ->
  profiler_worker w = None
  /\ forall i v, cv_run_status w i = Some v -> v = "pending".
Proof.
  induction 1 as [|l w _ IH].
  - split; [reflexivity|]. exact start_all_pending.
  - apply step_keeps_pending_invariant. exact IH.
Qed.

(** The state after the CV worker has processed the one-page résumé of
    "u1" with a successful vision call, and the profiler has had a turn. *)
Lemma resume_runs_stay_pending_witness :
  let w := step (ProfilerTurn "Profiler-0"
                   (Scenario.profiler_env (Ok (Some CVProfile_defaults))))
             (step (CVTurn "CVProcessor-0"
                      (Scenario.cv_env 1 (Ok (Some Scenario.assessment))))
                Scenario.cv_submitted) in
  profiler_worker w = None
  /\ forall i v, cv_run_status w i = Some v -> v = "pending".
Proof.
  cbv zeta. apply resume_runs_stay_pending.
  unfold Scenario.cv_submitted, run. cbn [fold_left].
  repeat apply reachable_step. apply reachable_start.
Defined.

End PendingFacts.

(** * The profiler on an item it can complete *)

Module CompletionFacts.

Import Logic ManagerFacts Pipeline ProfilerWorker.

Lemma update_cv_profile_ok
    (now : Z) (user_id : string) (p : CVProfile)
    (average_tenure : option Q) (cs fs gs : option Z)
    (status : CVProfileRunStatus.t) (status_comment : option string)
    (years_experience : option Q) (w : World) (d0 : CVProfileRunDoc)
    (s : CVProfileRunStatus.t) :
  cv_profiles w !! user_id = Some d0 ->
  CVProfileRunStatus.of_value (cvr_status d0) = Some s ->
  let r : CVProfileRun :=
    {| cvr_id := user_id; cvr_created_at := cvr_created_at d0; cvr_updated_at := now;
       cvr_average_tenure := average_tenure; cvr_creativity_score := cs;
       cvr_file_path := cvr_file_path d0; cvr_formatting_score := fs;
       cvr_grammar_score := gs; cvr_status := status;
       cvr_status_comment := status_comment;
       cvr_years_experience := years_experience; cvr_profile := p |} in
  exists l,
    CVProfileManager.update_cv_profile now user_id (Some p) average_tenure cs fs gs
      status status_comment years_experience w
    = (Ok tt, set_log l (set_cv_profiles
                           (<[user_id := cv_model_dump r]> (cv_profiles w)) w)).
Proof.
  intros L V. cbv zeta. unfold CVProfileManager.update_cv_profile.
  pose proof (get_cv_profile_result user_id w) as G. rewrite L, V in G.
  eexists. apply log_and_reraise_ok. rewrite (bind_ok _ _ _ _ _ G).
  unfold CVProfileManager._create_cv_profile_run_from_cv_profile.
  unfold bind, lift, CVProfileManager.upsert_item, modify, logger. simpl.
  reflexivity.
Qed.




End CompletionFacts.

(** * When a job description is promoted, and when it is stuck *)

Module PromotionFacts.

Import Logic ManagerFacts Pipeline JDProcessorWorker JDEffect.

Lemma jd_turn_ok (thread_name : string) (env : Env) (w : World) :
  fst (_process_queue thread_name env w) = Ok tt.
Proof.
  pose proof (JDFacts.jd_turn_never_raises thread_name env w) as H.
  destruct (fst (_process_queue thread_name env w)) as [[]|]; [reflexivity|discriminate H].
Qed.

Lemma extract_result_ok (env : Env) (jd_id file_path : string) (pages : nat)
    (paragraphs : list string) :
  PyStr.endswith (PyStr.lower file_path) ".pdf" = true ->
  page_count_of env file_path = Ok pages ->
  (pages <= Configuration.JD_MAX_PAGES)%nat ->
  analyze_paragraphs env file_path = Ok paragraphs ->
  extract_result env jd_id file_path = Ok paragraphs.
Proof.
  intros Pdf C Short A. unfold extract_result. rewrite Pdf, C.
  assert (T : (Configuration.JD_MAX_PAGES <? pages)%nat = false)
    by (apply Nat.ltb_ge; exact Short).
  rewrite T. exact A.
Qed.

(** The two role containers after a promotion. *)
Lemma promoted_stores
    (thread_name : string) (env : Env) (w : World) (jd_id file_path : string)
    (q : list (string * string)) (d0 : RoleProfileRunDoc) (s : RoleListingRunStatus.t)
    (pages : nat) (paragraphs : list string) (a : RoleProfile) (loc : Location) :
  jd_worker w = Some ((jd_id, file_path) :: q) ->
  role_profiles w !! jd_id = Some d0 ->
  RoleListingRunStatus.of_value (rpr_status d0) = Some s ->
  PyStr.endswith (PyStr.lower file_path) ".pdf" = true ->
  page_count_of env file_path = Ok pages ->
  (pages <= Configuration.JD_MAX_PAGES)%nat ->
  analyze_paragraphs env file_path = Ok paragraphs ->
  llm_parse env paragraphs = Ok (Some a) ->
  rp_location a = Some loc ->
  let out := _process_queue thread_name env w in
  role_profiles (snd out) = delete jd_id (role_profiles w)
  /\ exists listing,
       role_listings (snd out) = <[new_listing_id env := listing]> (role_listings w)
       /\ rl_id listing = new_listing_id env
       /\ rl_creator_id listing = rpr_creator_id d0.
Proof.
  intros Hq L V Pdf C Short A P Loc. cbv zeta.
  destruct (JDFacts.jd_turn_effect thread_name env w jd_id file_path q Hq)
    as (_ & E2 & E3).
  cbv zeta in E2, E3. rewrite E2, E3. clear E2 E3.
  unfold stage_effect. rewrite L, V.
  rewrite (extract_result_ok env jd_id file_path pages paragraphs Pdf C Short A).
  unfold analyze_result. rewrite P, Loc. cbn [fst snd].
  split; [rewrite !delete_insert_eq; reflexivity|].
  eexists. split; [reflexivity|]. split; reflexivity.
Qed.

(** X4. A turn of the JD worker on a queued PDF of at most [JD_MAX_PAGES]
    pages whose run is in the store, when extraction succeeds and the LLM
    returns a listing with a location: the turn ends without an exception,
    whatever the embeddings service does; the run is deleted and no other run
    changes; one listing is added under the new id, active, created by the
    creator of the run, with the fields the LLM returned (and the job id of
    the run). Its embeddings are those of the embeddings service for the text
    made of title, description and requirements, and are empty when the
    description is empty or the service fails. *)
Theorem listing_promoted_when_analysis_succeeds
    (thread_name : string) (env : Env) (w : World) (jd_id file_path : string)
    (q : list (string * string)) (d0 : RoleProfileRunDoc) (s : RoleListingRunStatus.t)
    (pages : nat) (paragraphs : list string) (a : RoleProfile) (loc : Location) :
  jd_worker w = Some ((jd_id, file_path) :: q) ->
  role_profiles w !! jd_id = Some d0 ->
  RoleListingRunStatus.of_value (rpr_status d0) = Some s ->
  PyStr.endswith (PyStr.lower file_path) ".pdf" = true ->
  page_count_of env file_path = Ok pages ->
  (pages <= Configuration.JD_MAX_PAGES)%nat ->
  analyze_paragraphs env file_path = Ok paragraphs ->
  llm_parse env paragraphs = Ok (Some a) ->
  rp_location a = Some loc ->
  let out := _process_queue thread_name env w in
  let run := completed env jd_id d0 s a loc in
  let text := RoleListingManager.embedding_text run (rp_description a) in
  fst out = Ok tt
  /\ role_profiles (snd out) = delete jd_id (role_profiles w)
  /\ (exists embeddings,
        role_listings (snd out)
        = <[new_listing_id env :=
              {| rl_id := new_listing_id env; rl_created_at := now env;
                 rl_updated_at := now env; rl_creator_id := rpr_creator_id d0;
                 rl_embeddings := embeddings; rl_is_active := true;
                 rl_fields :=
                   {| rf_benefits := rp_benefits a;
                      rf_description := Some (rp_description a);
                      rf_employment_type := rp_employment_type a;
                      rf_industry := rp_industry a;
                      rf_job_id := rf_job_id (rpr_fields d0);
                      rf_level := rp_level a;
                      rf_location := loc;
                      rf_organization_name := rp_organization_name a;
                      rf_preferred_qualifications := rp_preferred_qualifications a;
                      rf_requirements := rp_requirements a;
                      rf_role_mode := rp_role_mode a;
                      rf_salary := rp_salary a;
                      rf_title := Some (rp_title a);
                      rf_url := rp_url a |} |}]> (role_listings w)
        /\ (rp_description a = "" -> embeddings = [])
        /\ (forall e, generate_embeddings env text = Raise e -> embeddings = [])
        /\ (forall v, rp_description a <> "" -> generate_embeddings env text = Ok v ->
                      embeddings = v)).
Proof.
  intros Hq L V Pdf C Short A P Loc. cbv zeta.
  split; [apply jd_turn_ok|].
  destruct (JDFacts.jd_turn_effect thread_name env w jd_id file_path q Hq)
    as (_ & E2 & E3).
  cbv zeta in E2, E3. rewrite E2, E3. clear E2 E3.
  unfold stage_effect. rewrite L, V.
  rewrite (extract_result_ok env jd_id file_path pages paragraphs Pdf C Short A).
  unfold analyze_result. rewrite P, Loc. cbn [fst snd].
  split; [rewrite !delete_insert_eq; reflexivity|].
  exists (embeddings_of env (completed env jd_id d0 s a loc)).
  split; [reflexivity|].
  unfold embeddings_of.
  change (rf_description (rpr_fields (completed env jd_id d0 s a loc)))
    with (Some (rp_description a)).
  cbv iota. split; [|split].
  - intros ->. reflexivity.
  - intros e G. rewrite G. destruct (nonempty (rp_description a)); reflexivity.
  - intros v N G. rewrite G, (LinkFacts.nonempty_true _ N). reflexivity.
Qed.

(** X5. Under the same conditions up to the call of the LLM, when the LLM
    refuses (returns no listing) or returns a listing without a location:
    the turn ends without an exception, no listing is stored, and the run is
    not marked FAILED; it stays in the store with the status it had, its
    modification time set by the write-back that opens the stage. *)
Theorem listing_without_location_not_promoted
    (thread_name : string) (env : Env) (w : World) (jd_id file_path : string)
    (q : list (string * string)) (d0 : RoleProfileRunDoc) (s : RoleListingRunStatus.t)
    (pages : nat) (paragraphs : list string) (answer : option RoleProfile) :
  jd_worker w = Some ((jd_id, file_path) :: q) ->
  role_profiles w !! jd_id = Some d0 ->
  RoleListingRunStatus.of_value (rpr_status d0) = Some s ->
  PyStr.endswith (PyStr.lower file_path) ".pdf" = true ->
  page_count_of env file_path = Ok pages ->
  (pages <= Configuration.JD_MAX_PAGES)%nat ->
  analyze_paragraphs env file_path = Ok paragraphs ->
  llm_parse env paragraphs = Ok answer ->
  (answer ≫= rp_location) = None ->
  let out := _process_queue thread_name env w in
  fst out = Ok tt
  /\ role_listings (snd out) = role_listings w
  /\ (exists d,
        role_profiles (snd out) = <[jd_id := d]> (role_profiles w)
        /\ rpr_status d = rpr_status d0
        /\ rpr_updated_at d = now env
        /\ rpr_created_at d = rpr_created_at d0
        /\ rpr_file_path d = rpr_file_path d0
        /\ rpr_fields d = rpr_fields d0).
Proof.
  intros Hq L V Pdf C Short A P Loc. cbv zeta.
  split; [apply jd_turn_ok|].
  destruct (JDFacts.jd_turn_effect thread_name env w jd_id file_path q Hq)
    as (_ & E2 & E3).
  cbv zeta in E2, E3. rewrite E2, E3. clear E2 E3.
  unfold stage_effect. rewrite L, V.
  rewrite (extract_result_ok env jd_id file_path pages paragraphs Pdf C Short A).
  unfold analyze_result. rewrite P.
  assert (R : rpr_status (role_model_dump (touched env jd_id d0 s)) = rpr_status d0)
    by (simpl; exact (role_of_value_value _ _ V)).
  destruct answer as [a|]; simpl in Loc.
  - rewrite Loc. cbn [fst snd as_RoleListingError]. split; [reflexivity|].
    eexists. split; [reflexivity|]. split; [exact R|].
    destruct d0 as [? ? ? ? ? ? ? []]. repeat split; reflexivity.
  - cbn [fst snd as_RoleListingError]. split; [reflexivity|].
    eexists. split; [reflexivity|]. split; [exact R|].
    destruct d0 as [? ? ? ? ? ? ? []]. repeat split; reflexivity.
Qed.

(** The one-page job description of "j1": promoted to the listing "l1". *)
Lemma listing_promoted_witness :
  let w' := step (JDTurn "JDProcessor-0" (Scenario.jd_env 1 (Ok (Some Scenario.engineer))))
              Scenario.jd_submitted in
  role_profiles w' = delete "j1" (role_profiles Scenario.jd_submitted)
  /\ rl_creator_id <$> role_listings w' !! "l1" = Some "r1"
  /\ rf_title <$> (rl_fields <$> role_listings w' !! "l1")
     = Some (Some "Compiler engineer").
Proof.
  pose proof (listing_promoted_when_analysis_succeeds "JDProcessor-0"
                (Scenario.jd_env 1 (Ok (Some Scenario.engineer)))
                Scenario.jd_submitted "j1" "jd.pdf" [] MoreScenarios.stored_j1
                RoleListingRunStatus.PENDING 1 ["Compiler engineer"] Scenario.engineer
                {| city := Some "Paris"; country := Some "France" |}
                eq_refl) as H.
  cbv zeta in H.
  destruct H as (_ & H1 & (v & H2 & _));
    [vm_compute; reflexivity|reflexivity|reflexivity|reflexivity|
     vm_compute; lia|reflexivity|reflexivity|reflexivity|].
  cbv zeta. unfold step. cbn [action]. rewrite H1, H2, !lookup_insert_eq.
  repeat split; reflexivity.
Defined.

(** The LLM refuses the job description of "j1": it stays PENDING. *)
Lemma listing_not_promoted_witness :
  let w' := step (JDTurn "JDProcessor-0" (Scenario.jd_env 1 (Ok None)))
              Scenario.jd_submitted in
  role_run_status w' "j1" = Some "pending"
  /\ role_listings w' = role_listings Scenario.jd_submitted.
Proof.
  pose proof (listing_without_location_not_promoted "JDProcessor-0"
                (Scenario.jd_env 1 (Ok None))
                Scenario.jd_submitted "j1" "jd.pdf" [] MoreScenarios.stored_j1
                RoleListingRunStatus.PENDING 1 ["Compiler engineer"] None
                eq_refl) as H.
  cbv zeta in H.
  destruct H as (_ & H2 & (d & H1 & S & _));
    [vm_compute; reflexivity|reflexivity|reflexivity|reflexivity|
     vm_compute; lia|reflexivity|reflexivity|reflexivity|].
  cbv zeta. unfold role_run_status, step. cbn [action].
  rewrite H1, H2, lookup_insert_eq. simpl. rewrite S. split; reflexivity.
Defined.

End PromotionFacts.

(** * The scan of embedded links over a whole document *)

Module ScanFacts.

Import CVProcessorWorker.

Lemma any_contains_app (link : string) (ps added : list string) :
  PyStr.any_contains link ps = true -> PyStr.any_contains link (ps ++ added) = true.
Proof.
  unfold PyStr.any_contains. rewrite existsb_app. intros ->. reflexivity.
Qed.

Lemma note_link_contains (ps : list string) (link text : string) :
  PyStr.any_contains link (note_link ps link text) = true.
Proof.
  unfold note_link. destruct (PyStr.any_contains link ps) eqn:E; [exact E|].
  apply LinkFacts.any_contains_occurs. exists (found_link text link). split.
  - apply in_or_app. right. left. reflexivity.
  - apply LinkFacts.found_link_has_uri.
Qed.

Lemma scan_annotations_covers (ann : list Annotation) (ps ps' : list string) :
  scan_annotations ps ann = Ok ps' ->
  forall u link, In u ann -> annot_A u = Some (Some link) ->
                 PyStr.any_contains link ps' = true.
Proof.
  revert ps. induction ann as [|u0 ann IH]; intros ps H u link [].
  - subst u0. intros A. simpl in H. unfold scan_annotation in H. rewrite A in H.
    destruct (LinkFacts.scan_annotations_extends _ _ _ H) as [added ->].
    apply any_contains_app, note_link_contains.
  - simpl in H. destruct (scan_annotation ps u0) as [ps1|]; [|discriminate H].
    eapply IH; eassumption.
Qed.

Lemma scan_links_covers (pages : list Page) (ps ps' : list string) :
  scan_links ps pages = Ok ps' ->
  forall page ann u link,
    In page pages -> page_Annots page = Some ann -> In u ann ->
    annot_A u = Some (Some link) -> PyStr.any_contains link ps' = true.
Proof.
  revert ps. induction pages as [|pg pages IH]; intros ps H page ann u link [].
  - subst pg. intros PA Hu A. simpl in H. rewrite PA in H.
    destruct (scan_annotations ps ann) as [ps1|] eqn:E; [|discriminate H].
    destruct (LinkFacts.scan_links_extends _ _ _ H) as [added ->].
    apply any_contains_app. exact (scan_annotations_covers _ _ _ E u link Hu A).
  - simpl in H. destruct (page_Annots pg) as [ann0|].
    + destruct (scan_annotations ps ann0) as [ps1|]; [|discriminate H].
      eapply IH; eassumption.
    + eapply IH; eassumption.
Qed.

Lemma scan_annotations_has_action (ann : list Annotation) (ps ps' : list string) :
  scan_annotations ps ann = Ok ps' -> forall u, In u ann -> annot_A u <> None.
Proof.
  revert ps. induction ann as [|u0 ann IH]; intros ps H u []; simpl in H.
  - subst u0. unfold scan_annotation in H. intros A. rewrite A in H. discriminate H.
  - destruct (scan_annotation ps u0) as [ps1|]; [|discriminate H]. eapply IH; eassumption.
Qed.

Lemma scan_annotations_stable (ann : list Annotation) (ps : list string) :
  (forall u, In u ann -> annot_A u <> None) ->
  (forall u link, In u ann -> annot_A u = Some (Some link) ->
                  PyStr.any_contains link ps = true) ->
  scan_annotations ps ann = Ok ps.
Proof.
  induction ann as [|u0 ann IH]; intros HA HC; [reflexivity|].
  simpl. unfold scan_annotation at 1, note_link.
  destruct (annot_A u0) as [[link|]|] eqn:A.
  - rewrite (HC u0 link (or_introl eq_refl) A).
    apply IH; intros; [apply HA|eapply HC]; try right; eassumption.
  - apply IH; intros; [apply HA|eapply HC]; try right; eassumption.
  - exfalso. exact (HA u0 (or_introl eq_refl) A).
Qed.

Lemma scan_links_stable (pages : list Page) (ps : list string) :
  (forall page ann u, In page pages -> page_Annots page = Some ann -> In u ann ->
                      annot_A u <> None) ->
  (forall page ann u link,
     In page pages -> page_Annots page = Some ann -> In u ann ->
     annot_A u = Some (Some link) -> PyStr.any_contains link ps = true) ->
  scan_links ps pages = Ok ps.
Proof.
  induction pages as [|pg pages IH]; intros HA HC; [reflexivity|].
  simpl. destruct (page_Annots pg) as [ann|] eqn:PA.
  - rewrite scan_annotations_stable.
    + apply IH; intros; [eapply HA|eapply HC]; try right; eassumption.
    + intros u Hu. exact (HA pg ann u (or_introl eq_refl) PA Hu).
    + intros u link Hu A. exact (HC pg ann u link (or_introl eq_refl) PA Hu A).
  - apply IH; intros; [eapply HA|eapply HC]; try right; eassumption.
Qed.

Lemma scan_links_has_action (pages : list Page) (ps ps' : list string) :
  scan_links ps pages = Ok ps' ->
  forall page ann u, In page pages -> page_Annots page = Some ann -> In u ann ->
                     annot_A u <> None.
Proof.
  revert ps. induction pages as [|pg pages IH]; intros ps H page ann u []; simpl in H.
  - subst pg. intros PA Hu. rewrite PA in H.
    destruct (scan_annotations ps ann) as [ps1|] eqn:E; [|discriminate H].
    exact (scan_annotations_has_action _ _ _ E u Hu).
  - destruct (page_Annots pg) as [ann0|].
    + destruct (scan_annotations ps ann0) as [ps1|]; [|discriminate H].
      eapply IH; eassumption.
    + eapply IH; eassumption.
Qed.

(** X6. When the scan of the link annotations of a document ends, every URI
    of a link annotation of the document occurs in some paragraph of the
    result, and scanning the result again changes nothing: a URI is noted at
    most once, however many annotations carry it. *)
Theorem link_scan_covers_every_link
    (paragraphs : list string) (pages : list Page) (result : list string) :
  scan_links paragraphs pages = Ok result ->
  (forall page ann u link,
     In page pages -> page_Annots page = Some ann -> In u ann ->
     annot_A u = Some (Some link) ->
     exists p, In p result /\ occurs_in link p)
  /\ scan_links result pages = Ok result.
Proof.
  intros H. split.
  - intros page ann u link Hp PA Hu A. apply LinkFacts.any_contains_occurs.
    exact (scan_links_covers _ _ _ H page ann u link Hp PA Hu A).
  - apply scan_links_stable.
    + exact (scan_links_has_action _ _ _ H).
    + exact (scan_links_covers _ _ _ H).
Qed.

(** The scan of the two-page document of [link_scan_example]. *)
Lemma link_scan_covers_witness :
  let pages :=
    [ {| page_Annots := None |};
      {| page_Annots := Some
           [ {| annot_A := Some (Some "https://a.example/x");
                annot_Contents := None; annot_T := None |};
             {| annot_A := Some (Some "https://b.example");
                annot_Contents := Some "my site"; annot_T := None |};
             {| annot_A := Some None; annot_Contents := None; annot_T := None |};
             {| annot_A := Some (Some "https://b.example");
                annot_Contents := None; annot_T := None |} ] |} ] in
  let result :=
    [ "See https://a.example/x for details";
      nl ++ "[Found link: 'my site' -> https://b.example]" ] in
  (forall page ann u link,
     In page pages -> page_Annots page = Some ann -> In u ann ->
     annot_A u = Some (Some link) ->
     exists p, In p result /\ occurs_in link p)
  /\ scan_links result pages = Ok result.
Proof.
  cbv zeta. apply (link_scan_covers_every_link ["See https://a.example/x for details"]).
  vm_compute. reflexivity.
Defined.

Lemma scan_annotations_raise (ann : list Annotation) (ps : list string) (e : exn) :
  scan_annotations ps ann = Raise e ->
  e = KeyError "'/A'" /\ exists u, In u ann /\ annot_A u = None.
Proof.
  revert ps. induction ann as [|u0 ann IH]; intros ps H; simpl in H; [discriminate H|].
  unfold scan_annotation in H. destruct (annot_A u0) as [[link|]|] eqn:A.
  - destruct (IH _ H) as [E (u & Hu & Au)]. split; [exact E|].
    exists u. split; [right; exact Hu|exact Au].
  - destruct (IH _ H) as [E (u & Hu & Au)]. split; [exact E|].
    exists u. split; [right; exact Hu|exact Au].
  - injection H as <-. split; [reflexivity|]. exists u0. split; [left; reflexivity|exact A].
Qed.

(** X7. The scan of the link annotations fails exactly when some link
    annotation of the document has no action entry ["/A"]; the exception is
    then the [KeyError] of that entry, whatever the paragraphs are. *)
Theorem link_scan_fails_on_missing_action (paragraphs : list string) (pages : list Page) :
  ((exists e, scan_links paragraphs pages = Raise e)
   <-> exists page ann u,
         In page pages /\ page_Annots page = Some ann /\ In u ann /\ annot_A u = None)
  /\ forall e, scan_links paragraphs pages = Raise e -> e = KeyError "'/A'".
Proof.
  assert (R : forall pages ps e,
             scan_links ps pages = Raise e ->
             e = KeyError "'/A'"
             /\ exists page ann u,
                  In page pages /\ page_Annots page = Some ann /\ In u ann
                  /\ annot_A u = None).
  { induction pages0 as [|pg pages0 IH]; intros ps e H; simpl in H; [discriminate H|].
    destruct (page_Annots pg) as [ann|] eqn:PA.
    - destruct (scan_annotations ps ann) as [ps1|e1] eqn:E.
      + destruct (IH _ _ H) as [Ee (page & ann' & u & Hp & PA' & Hu & A)].
        split; [exact Ee|]. exists page, ann', u. repeat split; auto. right. exact Hp.
      + injection H as <-.
        destruct (scan_annotations_raise _ _ _ E) as [Ee (u & Hu & A)].
        split; [exact Ee|]. exists pg, ann, u. repeat split; auto. left. reflexivity.
    - destruct (IH _ _ H) as [Ee (page & ann' & u & Hp & PA' & Hu & A)].
      split; [exact Ee|]. exists page, ann', u. repeat split; auto. right. exact Hp. }
  split; [split|].
  - intros [e H]. exact (proj2 (R _ _ _ H)).
  - intros (page & ann & u & Hp & PA & Hu & A).
    destruct (scan_links paragraphs pages) as [result|e] eqn:H; [|exists e; reflexivity].
    exfalso. exact (scan_links_has_action _ _ _ H page ann u Hp PA Hu A).
  - intros e H. exact (proj1 (R _ _ _ H)).
Qed.

End ScanFacts.

(** * The two aggregates of the profiler, side by side *)

Module AggregateFacts.

Import Metrics MetricsFacts.
Local Open Scope Q_scope.






End AggregateFacts.

(** * A burst of calls through one rate limiter *)

Module BurstFacts.

Import RateLimiter Burst.
Local Open Scope Z_scope.

Lemma wait_spacing_always (j : Jitter) (l : t) (clock : Z) :
  last_call l + min_interval l <= snd (wait j l clock).
Proof.
  unfold wait, sleep_request. simpl.
  destruct (clock - last_call l <? min_interval l) eqn:E; simpl.
  - lia.
  - apply Z.ltb_ge in E. lia.
Qed.

Lemma wait_exact (l : t) (clock : Z) :
  snd (wait exact l clock) = Z.max clock (last_call l + min_interval l).
Proof.
  unfold wait, sleep_request, exact. simpl.
  destruct (clock - last_call l <? min_interval l) eqn:E; simpl.
  - apply Z.ltb_lt in E. lia.
  - apply Z.ltb_ge in E. lia.
Qed.

Lemma returns_head (l : t) (clock : Z) (calls : list (N * Jitter)) (a : Z) :
  head (returns l clock calls) = Some a -> last_call l + min_interval l <= a.
Proof.
  destruct calls as [|[gap j] calls]; simpl; [discriminate|].
  intros H. injection H as <-. apply wait_spacing_always.
Qed.

Lemma returns_spaced (calls : list (N * Jitter)) (l : t) (clock : Z) (k : nat) (a b : Z) :
  returns l clock calls !! k = Some a ->
  returns l clock calls !! S k = Some b ->
  a + min_interval l <= b.
Proof.
  revert l clock k. induction calls as [|[gap j] calls IH]; intros l clock k; simpl.
  - discriminate.
  - destruct k as [|k]; simpl.
    + intros H1 H2. injection H1 as <-.
      assert (H : head (returns (fst (wait j l (clock + Z.of_N gap)))
                          (snd (wait j l (clock + Z.of_N gap))) calls) = Some b).
      { destruct (returns _ _ calls); [discriminate H2|exact H2]. }
      apply returns_head in H. exact H.
    + intros H1 H2. exact (IH _ _ k H1 H2).
Qed.

Lemma returns_span (calls : list (N * Jitter)) (l : t) (clock : Z) (first final : Z) :
  head (returns l clock calls) = Some first ->
  last (returns l clock calls) = Some final ->
  first + (Z.of_nat (length calls) - 1) * min_interval l <= final.
Proof.
  revert l clock first. induction calls as [|[gap j] calls IH]; intros l clock first.
  - discriminate.
  - cbn [returns head]. intros H1 H2.
    assert (Hf : first = snd (wait j l (clock + Z.of_N gap))) by congruence.
    subst first. clear H1.
    set (l' := fst (wait j l (clock + Z.of_N gap))) in *.
    set (r := snd (wait j l (clock + Z.of_N gap))) in *.
    destruct (returns l' r calls) as [|first' rs] eqn:E.
    + destruct calls as [|[] calls]; [|discriminate E].
      assert (Hf : final = r) by (simpl in H2; congruence).
      rewrite Hf. change (length [(gap, j)]) with 1%nat. lia.
    + assert (H : head (returns l' r calls) = Some first') by (rewrite E; reflexivity).
      pose proof (returns_head _ _ _ _ H) as S1.
      change (last (r :: first' :: rs)) with (last (first' :: rs)) in H2.
      rewrite <- E in H2.
      pose proof (IH l' r first' H H2) as S2.
      change (min_interval l') with (min_interval l) in *.
      change (last_call l') with r in S1.
      rewrite length_cons, Nat2Z.inj_succ. lia.
Qed.

Lemma returns_exact (n : nat) (l : t) (clock : Z) :
  0 <= min_interval l ->
  returns l clock (replicate n (0%N, exact))
  = (fun k => Z.max clock (last_call l + min_interval l) + Z.of_nat k * min_interval l)
      <$> seq 0 n.
Proof.
  intros P. revert l clock P. induction n as [|n IH]; intros l clock P; [reflexivity|].
  change (returns l clock (replicate (S n) (0%N, exact)))
    with (snd (wait exact l (clock + 0))
          :: returns (fst (wait exact l (clock + 0))) (snd (wait exact l (clock + 0)))
               (replicate n (0%N, exact))).
  rewrite Z.add_0_r, IH by exact P.
  change (last_call (fst (wait exact l clock))) with (snd (wait exact l clock)).
  change (min_interval (fst (wait exact l clock))) with (min_interval l).
  rewrite wait_exact. cbn [seq fmap list_fmap]. f_equal; [lia|].
  rewrite <- fmap_S_seq, <- list_fmap_compose.
  apply list_fmap_ext. intros i k _. simpl. lia.
Qed.

(** X9. Through one rate limiter, whatever the pauses of the caller and
    the jitter of the clock: the first call returns no earlier than one
    interval after the last recorded call, two consecutive calls return at
    least one interval apart, and so [n] calls span at least [n - 1]
    intervals. With an exact clock and a caller that does not pause, the
    limiter delays no more than that: the calls return exactly one interval
    apart, the first one at once if an interval has already passed. *)
Theorem burst_is_spaced (l : t) (clock : Z) (calls : list (N * Jitter)) :
  (forall a, head (returns l clock calls) = Some a -> last_call l + min_interval l <= a)
  /\ (forall k a b,
        returns l clock calls !! k = Some a ->
        returns l clock calls !! S k = Some b ->
        a + min_interval l <= b)
  /\ (forall first final,
        head (returns l clock calls) = Some first ->
        last (returns l clock calls) = Some final ->
        first + (Z.of_nat (length calls) - 1) * min_interval l <= final)
  /\ (forall n,
        0 <= min_interval l ->
        returns l clock (replicate n (0%N, exact))
        = (fun k => Z.max clock (last_call l + min_interval l)
                    + Z.of_nat k * min_interval l) <$> seq 0 n).
Proof.
  split; [|split; [|split]].
  - intros a. apply returns_head.
  - intros k a b. apply returns_spaced.
  - intros first final. apply returns_span.
  - intros n P. apply returns_exact, P.
Qed.

(** Four calls in a row through the text-LLM limiter, long after start. *)
Example burst_of_four :
  returns (llm (clients_at 1000000)) 1000000 (replicate 4 (0%N, exact))
  = [1000000; 1000500; 1001000; 1001500].
Proof. reflexivity. Qed.

End BurstFacts.

(** * The run manager of the résumé pipeline *)

Module RunStoreFacts.

Import Logic ManagerFacts Pipeline.

(** X10. [add_cv_profile] rejects an empty user id or file path with a
    [ValueError] and writes nothing. Otherwise it stores, under the user id,
    a PENDING run with the file path and nothing else, whatever run was
    stored there before (the results of an earlier upload are gone);
    [get_cv_profile] then returns that run, and no other run changes. *)
Theorem add_cv_profile_stores_fresh_run (now : Z) (user_id file_path : string) (w : World) :
  let out := CVProfileManager.add_cv_profile now user_id file_path w in
  let fresh : CVProfileRun :=
    {| cvr_id := user_id; cvr_created_at := now; cvr_updated_at := now;
       cvr_average_tenure := None; cvr_creativity_score := None;
       cvr_file_path := file_path; cvr_formatting_score := None;
       cvr_grammar_score := None; cvr_status := CVProfileRunStatus.PENDING;
       cvr_status_comment := None; cvr_years_experience := None;
       cvr_profile := CVProfile_defaults |} in
  (user_id = "" -> out = (Raise (ValueError "Missing user ID"), w))
  /\ (user_id <> "" -> file_path = "" ->
      out = (Raise (ValueError "Missing file path"), w))
  /\ (user_id <> "" -> file_path <> "" ->
      fst out = Ok tt
      /\ cv_profiles (snd out) = <[user_id := cv_model_dump fresh]> (cv_profiles w)
      /\ CVProfileManager.get_cv_profile user_id (snd out) = (Ok (Some fresh), snd out)
      /\ users (snd out) = users w
      /\ cv_worker (snd out) = cv_worker w).
Proof.
  cbv zeta. unfold CVProfileManager.add_cv_profile, nonempty. split; [|split].
  - intros ->. reflexivity.
  - intros N ->. destruct (String.eqb_spec user_id ""); [contradiction|]. reflexivity.
  - intros N1 N2.
    destruct (String.eqb_spec user_id ""); [contradiction|].
    destruct (String.eqb_spec file_path ""); [contradiction|]. cbn [negb].
    rewrite bind_logger. unfold CVProfileManager.upsert_item, modify. cbn [fst snd].
    split; [reflexivity|]. split; [reflexivity|]. split; [|split; reflexivity].
    match goal with
    | |- CVProfileManager.get_cv_profile _ ?w1 = _ =>
        pose proof (get_cv_profile_result user_id w1) as G
    end.
    cbn [cv_profiles set_cv_profiles set_log cvr_id cv_model_dump cvr_with_status] in G.
    rewrite lookup_insert_eq in G. exact G.
Qed.

(** X11. [update_cv_profile] writes only when the run of the user is in the
    store, can be read, and a profile is given; it then replaces the run by
    one built from its arguments, which keeps of the stored run only the
    creation time and the file path, and changes no other run. In every
    other case it raises and the store is as before: a [ValueError] naming
    the user when there is no run, the [AttributeError] of reading a field
    off [None] when there is no profile. *)
Theorem update_cv_profile_replaces_run
    (now : Z) (user_id : string) (cv_profile : option CVProfile)
    (average_tenure : option Q) (cs fs gs : option Z)
    (status : CVProfileRunStatus.t) (status_comment : option string)
    (years_experience : option Q) (w : World) :
  let out := CVProfileManager.update_cv_profile now user_id cv_profile average_tenure
               cs fs gs status status_comment years_experience w in
  users (snd out) = users w
  /\ role_profiles (snd out) = role_profiles w
  /\ match cv_profiles w !! user_id with
     | None =>
         fst out = Raise (ValueError ("No CV profile found for user " ++ user_id))
         /\ cv_profiles (snd out) = cv_profiles w
     | Some d0 =>
         match CVProfileRunStatus.of_value (cvr_status d0), cv_profile with
         | Some _, Some p =>
             fst out = Ok tt
             /\ cv_profiles (snd out)
                = <[user_id :=
                      {| cvr_id := user_id; cvr_created_at := cvr_created_at d0;
                         cvr_updated_at := now;
                         cvr_average_tenure := average_tenure;
                         cvr_creativity_score := cs;
                         cvr_file_path := cvr_file_path d0;
                         cvr_formatting_score := fs; cvr_grammar_score := gs;
                         cvr_status := CVProfileRunStatus.value status;
                         cvr_status_comment := status_comment;
                         cvr_years_experience := years_experience;
                         cvr_profile := p |}]> (cv_profiles w)
         | Some _, None =>
             fst out
             = Raise (AttributeError "'NoneType' object has no attribute 'awards'")
             /\ cv_profiles (snd out) = cv_profiles w
         | None, _ =>
             (exists e, fst out = Raise e) /\ cv_profiles (snd out) = cv_profiles w
         end
     end.
Proof.
  cbv zeta.
  pose proof (get_cv_profile_result user_id w) as G.
  unfold CVProfileManager.update_cv_profile.
  destruct (cv_profiles w !! user_id) as [d0|] eqn:L.
  - destruct (CVProfileRunStatus.of_value (cvr_status d0)) as [s|] eqn:V.
    + destruct cv_profile as [p|].
      * destruct (CompletionFacts.update_cv_profile_ok now user_id p average_tenure
                    cs fs gs status status_comment years_experience w d0 s L V)
          as (l & U).
        unfold CVProfileManager.update_cv_profile in U. rewrite U.
        repeat split; reflexivity.
      * match goal with
        | |- context [log_and_reraise ?m ?b w] =>
            rewrite (log_and_reraise_raise m b w w
                       (AttributeError "'NoneType' object has no attribute 'awards'"))
        end; [repeat split; reflexivity|].
        rewrite (bind_ok _ _ _ _ _ G). reflexivity.
    + destruct G as (l & G).
      match goal with
      | |- context [log_and_reraise ?m ?b w] =>
          rewrite (log_and_reraise_raise m b w (set_log l w) _ (bind_raise _ _ _ _ _ G))
      end.
      split; [reflexivity|]. split; [reflexivity|].
      destruct cv_profile; (split; [eexists; reflexivity|reflexivity]).
  - match goal with
    | |- context [log_and_reraise ?m ?b w] =>
        rewrite (log_and_reraise_raise m b w w
                   (ValueError ("No CV profile found for user " ++ user_id)))
    end; [repeat split; reflexivity|].
    rewrite (bind_ok _ _ _ _ _ G). reflexivity.
Qed.

End RunStoreFacts.

(** * The handlers of the routers *)

Module RouterFacts.

Import Logic ManagerFacts Pipeline Routers.

Lemma try_except_ok {A} (body : M A) (handler : exn -> option (M A))
    (w w' : World) (a : A) :
  body w = (Ok a, w') -> try_except body handler w = (Ok a, w').
Proof. intros H. unfold try_except. rewrite H. reflexivity. Qed.

Lemma try_except_caught {A} (body : M A) (handler : exn -> option (M A))
    (w w' : World) (e : exn) (h : M A) :
  body w = (Raise e, w') -> handler e = Some h -> try_except body handler w = h w'.
Proof. intros H E. unfold try_except. rewrite H, E. reflexivity. Qed.

Lemma get_role_by_id_result (role_id : string) (w : World) :
  RoleListings.get_role_by_id role_id w
  = (Ok (RoleListings.rl_with_id role_id <$> role_listings w !! role_id), w).
Proof. reflexivity. Qed.

Lemma delete_role_ok (role_id : string) (w : World) (r : RoleListing) :
  role_listings w !! role_id = Some r ->
  exists l,
    RoleListings.delete_role role_id w
    = (Ok tt, set_log l (set_role_listings (delete role_id (role_listings w)) w)).
Proof.
  intros L. unfold RoleListings.delete_role. eexists. apply log_and_reraise_ok.
  unfold bind, gets, modify, logger. rewrite L. simpl. reflexivity.
Qed.

(** X12. [delete_role] never raises and never touches users or résumé
    runs. It looks for a listing with the id first and for a run only when
    there is no listing. What it finds is deleted only for its creator, and
    nothing else is deleted; any other user is answered 403 and the stores
    stay as they are. It answers 404 when neither exists, and 500 when the
    run it finds cannot be read. *)
Theorem delete_role_needs_creator (role_id user_id : string) (w : World) :
  let out := delete_role role_id user_id w in
  users (snd out) = users w
  /\ cv_profiles (snd out) = cv_profiles w
  /\ match role_listings w !! role_id with
     | Some role =>
         role_profiles (snd out) = role_profiles w
         /\ if String.eqb (rl_creator_id role) user_id
            then fst out = Ok (Returned ("Role " ++ role_id ++ " deleted successfully"))
                 /\ role_listings (snd out) = delete role_id (role_listings w)
            else fst out
                 = Ok (JSONResponse 403 "You are not authorized to delete this role")
                 /\ role_listings (snd out) = role_listings w
     | None =>
         role_listings (snd out) = role_listings w
         /\ match role_profiles w !! role_id with
            | None =>
                fst out = Ok (JSONResponse 404 "Role not found")
                /\ role_profiles (snd out) = role_profiles w
            | Some d =>
                match RoleListingRunStatus.of_value (rpr_status d) with
                | None =>
                    fst out = Ok (JSONResponse 500 "Failed to delete role")
                    /\ role_profiles (snd out) = role_profiles w
                | Some _ =>
                    if String.eqb (rpr_creator_id d) user_id
                    then fst out
                         = Ok (Returned ("Role profile " ++ role_id
                                         ++ " deleted successfully"))
                         /\ role_profiles (snd out) = delete role_id (role_profiles w)
                    else fst out
                         = Ok (JSONResponse 403
                                 "You are not authorized to delete this role")
                         /\ role_profiles (snd out) = role_profiles w
                end
            end
     end.
Proof.
  cbv zeta. unfold delete_role.
  destruct (role_listings w !! role_id) as [role|] eqn:L.
  - assert (G : RoleListings.get_role_by_id role_id w
                = (Ok (Some (RoleListings.rl_with_id role_id role)), w))
      by (rewrite get_role_by_id_result, L; reflexivity).
    cbn [rl_creator_id RoleListings.rl_with_id].
    destruct (String.eqb (rl_creator_id role) user_id) eqn:C.
    + destruct (delete_role_ok role_id w role L) as (l & D).
      erewrite try_except_ok.
      2: { rewrite (bind_ok _ _ _ _ _ G). cbn [rl_creator_id RoleListings.rl_with_id].
           rewrite C. cbn [negb]. rewrite (bind_ok _ _ _ _ _ D). reflexivity. }
      repeat split; reflexivity.
    + erewrite try_except_ok.
      2: { rewrite (bind_ok _ _ _ _ _ G). cbn [rl_creator_id RoleListings.rl_with_id].
           rewrite C. reflexivity. }
      repeat split; reflexivity.
  - assert (G : RoleListings.get_role_by_id role_id w = (Ok None, w))
      by (rewrite get_role_by_id_result, L; reflexivity).
    pose proof (get_role_profile_result role_id w) as P.
    destruct (role_profiles w !! role_id) as [d|] eqn:L2.
    + destruct (RoleListingRunStatus.of_value (rpr_status d)) as [s|] eqn:V.
      * cbn [rpr_creator_id rpr_with_status rpr_with_id].
        destruct (String.eqb (rpr_creator_id d) user_id) eqn:C.
        -- destruct (JDFacts.delete_role_profile_ok role_id w d L2) as (l & D).
           erewrite try_except_ok.
           2: { rewrite (bind_ok _ _ _ _ _ G), (bind_ok _ _ _ _ _ P).
                cbn [rpr_creator_id rpr_with_status rpr_with_id].
                rewrite C. cbn [negb]. rewrite (bind_ok _ _ _ _ _ D). reflexivity. }
           repeat split; reflexivity.
        -- erewrite try_except_ok.
           2: { rewrite (bind_ok _ _ _ _ _ G), (bind_ok _ _ _ _ _ P).
                cbn [rpr_creator_id rpr_with_status rpr_with_id].
                rewrite C. reflexivity. }
           repeat split; reflexivity.
      * destruct P as (l & P).
        erewrite try_except_caught.
        2: { rewrite (bind_ok _ _ _ _ _ G). apply (bind_raise _ _ _ _ _ P). }
        2: { reflexivity. }
        rewrite bind_logger. repeat split; reflexivity.
    + erewrite try_except_ok.
      2: { rewrite (bind_ok _ _ _ _ _ G), (bind_ok _ _ _ _ _ P). reflexivity. }
      repeat split; reflexivity.
Qed.

(** X13. [update_user_role] never raises. A body without the key ["role"]
    is answered 500, a value that is no role 400 with the message of the
    [ValueError], both before the user is looked up and without a write; an
    unknown user is answered 404. For a known user the stored user gets the
    role and keeps every other field, and no other user changes. *)
Theorem update_user_role_answers
    (user_id : string) (role_data : gmap string string) (w : World) :
  let out := update_user_role user_id role_data w in
  cv_profiles (snd out) = cv_profiles w
  /\ role_listings (snd out) = role_listings w
  /\ match role_data !! "role" with
     | None =>
         fst out = Ok (JSONResponse 500 "Internal server error")
         /\ users (snd out) = users w
     | Some value =>
         match UserRole_of_value value with
         | Raise _ =>
             fst out
             = Ok (JSONResponse 400 ("'" ++ value ++ "' is not a valid UserRole"))
             /\ users (snd out) = users w
         | Ok role =>
             match users w !! user_id with
             | None =>
                 fst out = Ok (JSONResponse 404 "User not found")
                 /\ users (snd out) = users w
             | Some user =>
                 if String.eqb user_id ""
                 then fst out = Ok (JSONResponse 400 "Missing user_id or user data")
                      /\ users (snd out) = users w
                 else fst out = Ok (Returned "User role updated successfully")
                      /\ users (snd out)
                         = <[user_id := UserManager.with_id user_id
                                          (with_role (Some role) user)]> (users w)
             end
         end
     end.
Proof.
  cbv zeta.
  destruct (role_data !! "role") as [value|] eqn:RD.
  2: { unfold update_user_role, try_except, bind, lift. rewrite RD.
       repeat split; reflexivity. }
  destruct (UserRole_of_value value) as [role|e] eqn:UR.
  2: { assert (e = ValueError ("'" ++ value ++ "' is not a valid UserRole")) as ->.
       { unfold UserRole_of_value in UR.
         destruct (String.eqb value "recruiter"); [discriminate|].
         destruct (String.eqb value "job_seeker"); [discriminate|].
         congruence. }
       unfold update_user_role, try_except, bind, lift. rewrite RD, UR.
       repeat split; reflexivity. }
  destruct (users w !! user_id) as [user|] eqn:U.
  2: { unfold update_user_role, try_except, bind, lift, UserManager.get_user_by_id, gets.
       rewrite RD, UR. cbv beta iota. rewrite U. repeat split; reflexivity. }
  destruct (String.eqb user_id "") eqn:N.
  - unfold update_user_role, try_except, bind, lift, UserManager.get_user_by_id, gets,
      UserManager.update_user, nonempty.
    rewrite RD, UR. cbv beta iota. rewrite U, N. repeat split; reflexivity.
  - assert (Hne : user_id <> "") by (intros ->; discriminate).
    destruct (ProfilerFacts.update_user_ok user_id (with_role (Some role) user) user w
                Hne U) as (l & D).
    unfold update_user_role, try_except, bind, lift, UserManager.get_user_by_id, gets.
    rewrite RD, UR. cbv beta iota. rewrite U, D. repeat split; reflexivity.
Qed.

(** ** The combined listings of a user *)

Lemma listing_items_ids (m : gmap string RoleListing) :
  rl_id <$> RoleListings.items m = fst <$> map_to_list m.
Proof.
  unfold RoleListings.items. rewrite <- list_fmap_compose.
  apply list_fmap_ext. intros _ [k r] _. reflexivity.
Qed.

Lemma run_items_ids (m : gmap string RoleProfileRunDoc) :
  rpr_id <$> RoleProfileManager.items m = fst <$> map_to_list m.
Proof.
  unfold RoleProfileManager.items. rewrite <- list_fmap_compose.
  apply list_fmap_ext. intros _ [k r] _. reflexivity.
Qed.

Lemma elem_of_listing_items (m : gmap string RoleListing) (x : RoleListing) :
  x ∈ RoleListings.items m
  <-> exists i r0, m !! i = Some r0 /\ x = RoleListings.rl_with_id i r0.
Proof.
  unfold RoleListings.items. rewrite list_elem_of_fmap. split.
  - intros ([k r0] & -> & H). apply elem_of_map_to_list in H.
    exists k, r0. split; [exact H|reflexivity].
  - intros (i & r0 & H & E). exists (i, r0). split; [exact E|].
    apply elem_of_map_to_list. exact H.
Qed.

Lemma elem_of_run_items (m : gmap string RoleProfileRunDoc) (x : RoleProfileRunDoc) :
  x ∈ RoleProfileManager.items m
  <-> exists i d, m !! i = Some d /\ x = rpr_with_id i d.
Proof.
  unfold RoleProfileManager.items. rewrite list_elem_of_fmap. split.
  - intros ([k r0] & -> & H). apply elem_of_map_to_list in H.
    exists k, r0. split; [exact H|reflexivity].
  - intros (i & r0 & H & E). exists (i, r0). split; [exact E|].
    apply elem_of_map_to_list. exact H.
Qed.

Lemma validate_all_raise (ds : list RoleProfileRunDoc) (d : RoleProfileRunDoc) :
  d ∈ ds -> RoleListingRunStatus.of_value (rpr_status d) = None ->
  exists e, RoleProfileManager.validate_all ds = Raise e.
Proof.
  induction ds as [|d' ds IH]; intros H V; [inversion H|].
  simpl. unfold role_model_validate.
  destruct (RoleListingRunStatus.of_value (rpr_status d')) as [s|] eqn:V'; [|eauto].
  apply elem_of_cons in H as [->|H]; [congruence|].
  destruct (IH H V) as (e & ->). eauto.
Qed.

Lemma validate_all_ok (ds : list RoleProfileRunDoc) :
  (forall d, d ∈ ds -> is_Some (RoleListingRunStatus.of_value (rpr_status d))) ->
  exists rs,
    RoleProfileManager.validate_all ds = Ok rs
    /\ rpr_id <$> rs = rpr_id <$> ds
    /\ forall r, r ∈ rs
                 <-> exists d s, d ∈ ds
                                 /\ RoleListingRunStatus.of_value (rpr_status d) = Some s
                                 /\ r = rpr_with_status s d.
Proof.
  induction ds as [|d ds IH]; intros H.
  - exists []. repeat split; [|intros (d & s & D & _); inversion D].
    intros D. inversion D.
  - destruct IH as (rs & E & I & S).
    { intros d' D. apply H. right. exact D. }
    destruct (H d) as [s V]; [left|].
    exists (rpr_with_status s d :: rs). simpl. unfold role_model_validate.
    rewrite V, E. split; [reflexivity|]. split.
    + simpl. f_equal. exact I.
    + intros r. rewrite elem_of_cons, S. split.
      * intros [->|(d' & s' & D & V' & ->)].
        -- exists d, s. repeat split; [left|exact V].
        -- exists d', s'. repeat split; [right; exact D|exact V'].
      * intros (d' & s' & D & V' & ->). apply elem_of_cons in D as [->|D].
        -- left. congruence.
        -- right. exists d', s'. repeat split; assumption.
Qed.

Lemma NoDup_fmap_filter {A B} (f : A -> B) (P : A -> bool) (l : list A) :
  NoDup (f <$> l) -> NoDup (f <$> List.filter P l).
Proof.
  induction l as [|a l IH]; simpl; [auto|].
  intros H. apply NoDup_cons in H as [N H].
  destruct (P a); [|auto]. rewrite fmap_cons. apply NoDup_cons. split; [|auto].
  intros E. apply N. apply list_elem_of_fmap in E as (a' & -> & E).
  apply list_elem_of_fmap. exists a'. split; [reflexivity|].
  apply list_elem_of_In, filter_In in E as [E _]. apply list_elem_of_In. exact E.
Qed.

(** X14. [get_user_listings] never raises and changes no store. It answers
    404 for an unknown user and 500 when a run of the user has a status that
    cannot be read. Otherwise it returns the user id, the list and its
    length, and the list has no id twice: it holds exactly the stored
    listings the user created, and the stored runs the user created whose
    id is not the id of one of these listings. *)
Theorem user_listings_combined (user_id : string) (w : World) :
  let out := get_user_listings user_id w in
  let readable :=
    forall i d, role_profiles w !! i = Some d -> rpr_creator_id d = user_id ->
                is_Some (RoleListingRunStatus.of_value (rpr_status d)) in
  let mine (i : string) :=
    exists r0, role_listings w !! i = Some r0 /\ rl_creator_id r0 = user_id in
  (exists l, snd out = set_log l w)
  /\ (users w !! user_id = None ->
      out = (Ok (JSONResponse 404 "User not found"), w))
  /\ (forall i d,
        is_Some (users w !! user_id) ->
        role_profiles w !! i = Some d -> rpr_creator_id d = user_id ->
        RoleListingRunStatus.of_value (rpr_status d) = None ->
        fst out = Ok (JSONResponse 500 "Failed to fetch user listings"))
  /\ (is_Some (users w !! user_id) -> readable ->
      exists listings,
        out = (Ok (Returned (user_id, listings, length listings)), w)
        /\ NoDup (listing_id <$> listings)
        /\ (forall r, inl r ∈ listings
                      <-> exists r0, role_listings w !! rl_id r = Some r0
                                     /\ r = RoleListings.rl_with_id (rl_id r) r0
                                     /\ rl_creator_id r = user_id)
        /\ (forall p, inr p ∈ listings
                      <-> exists d s, role_profiles w !! rpr_id p = Some d
                                      /\ RoleListingRunStatus.of_value (rpr_status d)
                                         = Some s
                                      /\ p = rpr_with_status s (rpr_with_id (rpr_id p) d)
                                      /\ rpr_creator_id p = user_id
                                      /\ ~ mine (rpr_id p))).
Proof.
  cbv zeta.
  set (roles := List.filter (fun r => String.eqb (rl_creator_id r) user_id)
                  (RoleListings.items (role_listings w))).
  set (docs := List.filter (fun d => String.eqb (rpr_creator_id d) user_id)
                 (RoleProfileManager.items (role_profiles w))).
  assert (Hdocs : forall d, d ∈ docs
                    <-> exists i d0, role_profiles w !! i = Some d0
                                     /\ d = rpr_with_id i d0
                                     /\ rpr_creator_id d0 = user_id).
  { intros d. unfold docs. rewrite list_elem_of_In, filter_In, <- list_elem_of_In,
      elem_of_run_items, String.eqb_eq.
    split; [intros [(i & d0 & L & ->) C]|intros (i & d0 & L & -> & C)]; eauto 6. }
  assert (Hroles : forall r, r ∈ roles
                    <-> exists i r0, role_listings w !! i = Some r0
                                     /\ r = RoleListings.rl_with_id i r0
                                     /\ rl_creator_id r0 = user_id).
  { intros r. unfold roles. rewrite list_elem_of_In, filter_In, <- list_elem_of_In,
      elem_of_listing_items, String.eqb_eq.
    split; [intros [(i & r0 & L & ->) C]|intros (i & r0 & L & -> & C)]; eauto 6. }
  assert (G : RoleProfiles.get_role_profiles_by_creator_id user_id w
              = match RoleProfileManager.validate_all docs with
                | Ok rs => (Ok rs, w)
                | Raise e =>
                    (Raise e,
                     set_log (log w ++ [(ERROR, "Error fetching role profiles for creator "
                                                ++ user_id ++ ": " ++ exn_str e)]) w)
                end).
  { unfold RoleProfiles.get_role_profiles_by_creator_id.
    fold docs. destruct (RoleProfileManager.validate_all docs) as [rs|e] eqn:V.
    - apply log_and_reraise_ok. unfold bind, gets, lift. fold docs. rewrite V. reflexivity.
    - erewrite log_and_reraise_raise; [reflexivity|].
      unfold bind, gets, lift. fold docs. rewrite V. reflexivity. }
  assert (E : get_user_listings user_id w
              = match users w !! user_id with
                | None => (Ok (JSONResponse 404 "User not found"), w)
                | Some _ =>
                    match RoleProfileManager.validate_all docs with
                    | Ok rs =>
                        let role_ids : gset string := list_to_set (rl_id <$> roles) in
                        let listings :=
                          ((inl <$> roles)
                           ++ (inr <$> List.filter
                                 (fun profile => bool_decide (rpr_id profile ∉ role_ids))
                                 rs))%list in
                        (Ok (Returned (user_id, listings, length listings)), w)
                    | Raise e =>
                        (Ok (JSONResponse 500 "Failed to fetch user listings"),
                         set_log
                           ((log w ++ [(ERROR, "Error fetching role profiles for creator "
                                               ++ user_id ++ ": " ++ exn_str e)])
                            ++ [(ERROR, "Error fetching combined listings for user "
                                        ++ user_id ++ ": " ++ exn_str e)]) w)
                    end
                end).
  { unfold get_user_listings, try_except, bind at 1, UserManager.get_user_by_id, gets.
    destruct (users w !! user_id); [|reflexivity].
    unfold bind at 1, RoleListings.get_roles_by_creator_id, gets. fold roles.
    unfold bind at 1. rewrite G.
    destruct (RoleProfileManager.validate_all docs); reflexivity. }
  rewrite E. clear E G. repeat split.
  - destruct (users w !! user_id); [|exists (log w); destruct w; reflexivity].
    destruct (RoleProfileManager.validate_all docs); [|eexists; reflexivity].
    exists (log w); destruct w; reflexivity.
  - intros ->. reflexivity.
  - intros i d [u U] L C V. rewrite U.
    destruct (validate_all_raise docs (rpr_with_id i d)) as (e & ->); [|exact V|reflexivity].
    apply Hdocs. exists i, d. repeat split; assumption.
  - intros [u U] R. rewrite U.
    destruct (validate_all_ok docs) as (rs & -> & I & S).
    { intros d D. apply Hdocs in D as (i & d0 & L & -> & C). apply (R _ _ L C). }
    cbv zeta. eexists. split; [reflexivity|].
    assert (Nroles : NoDup (rl_id <$> roles)).
    { apply NoDup_fmap_filter. rewrite listing_items_ids. apply NoDup_fst_map_to_list. }
    assert (Nrs : NoDup (rpr_id <$> rs)).
    { rewrite I. apply NoDup_fmap_filter. rewrite run_items_ids.
      apply NoDup_fst_map_to_list. }
    split; [|split].
    + rewrite fmap_app, <- !list_fmap_compose. apply NoDup_app. repeat split.
      * exact Nroles.
      * intros i Hi Hp. apply list_elem_of_fmap in Hp as (p & -> & Hp).
        apply list_elem_of_In, filter_In in Hp as [_ Hp].
        apply bool_decide_eq_true in Hp. apply Hp. apply elem_of_list_to_set. exact Hi.
      * apply (NoDup_fmap_filter rpr_id). exact Nrs.
    + intros r. rewrite elem_of_app, !list_elem_of_fmap. split.
      * intros [(r' & [= ->] & H)|(p & [=] & _)].
        apply Hroles in H as (i & r0 & L & -> & C). exists r0. repeat split; assumption.
      * intros (r0 & L & E & C). left. exists r. split; [reflexivity|].
        apply Hroles. exists (rl_id r), r0. split; [exact L|]. split; [exact E|].
        rewrite E in C. exact C.
    + intros p. rewrite elem_of_app, !list_elem_of_fmap. split.
      * intros [(r' & [=] & _)|(p' & [= <-] & H)].
        apply list_elem_of_In, filter_In in H as [H Hp].
        apply list_elem_of_In, S in H as (d & s & D & V & ->).
        apply Hdocs in D as (i & d0 & L & -> & C).
        apply bool_decide_eq_true in Hp.
        exists d0, s. split; [exact L|]. split; [exact V|]. split; [reflexivity|].
        split; [exact C|].
        intros (r0 & L0 & C0). apply Hp. apply elem_of_list_to_set.
        apply list_elem_of_fmap. exists (RoleListings.rl_with_id i r0).
        split; [reflexivity|]. apply Hroles. exists i, r0. repeat split; assumption.
      * intros (d & s & L & V & Ep & C & N). right. exists p. split; [reflexivity|].
        apply list_elem_of_In, filter_In. split.
        -- apply list_elem_of_In, S. exists (rpr_with_id (rpr_id p) d), s.
           split; [|split; [exact V|exact Ep]].
           apply Hdocs. exists (rpr_id p), d. split; [exact L|]. split; [reflexivity|].
           rewrite Ep in C. exact C.
        -- apply bool_decide_eq_true. intros Hin. apply N.
           apply elem_of_list_to_set, list_elem_of_fmap in Hin as (r & Er & Hr).
           apply Hroles in Hr as (i & r0 & L0 & -> & C0). exists r0.
           rewrite Er. split; assumption.
Qed.


(** ** The endpoints that read a run or a role *)

(** X15. The two status endpoints and [get_role] never raise and write to no
    store. A status endpoint answers 404 when there is no run with the id,
    500 when the stored status cannot be read, and otherwise the status and
    [updated_at] of the stored run. [get_role] returns the listing with the
    id when there is one, without reading the run container; only when there
    is no listing does it return the run with the id, 404 when there is
    none, 500 when the run cannot be read. *)
Theorem read_endpoints_answer (i : string) (w : World) :
  match cv_profiles w !! i with
  | None =>
      get_cv_profile_run_status i w
      = (Ok (JSONResponse 404 "CV profile not found"), w)
  | Some d =>
      match CVProfileRunStatus.of_value (cvr_status d) with
      | Some s =>
          get_cv_profile_run_status i w = (Ok (Returned (s, cvr_updated_at d)), w)
      | None =>
          exists l, get_cv_profile_run_status i w
                    = (Ok (JSONResponse 500 "Failed to fetch CV status"), set_log l w)
      end
  end
  /\ match role_profiles w !! i with
     | None =>
         get_role_profile_run_status i w
         = (Ok (JSONResponse 404 "Role profile not found"), w)
     | Some d =>
         match RoleListingRunStatus.of_value (rpr_status d) with
         | Some s =>
             get_role_profile_run_status i w
             = (Ok (Returned (s, rpr_updated_at d)), w)
         | None =>
             exists l, get_role_profile_run_status i w
                       = (Ok (JSONResponse 500 "Failed to fetch role status"),
                          set_log l w)
         end
     end
  /\ match role_listings w !! i, role_profiles w !! i with
     | Some r, _ => get_role i w = (Ok (Returned (inl (RoleListings.rl_with_id i r))), w)
     | None, None => get_role i w = (Ok (JSONResponse 404 "Role not found"), w)
     | None, Some d =>
         match RoleListingRunStatus.of_value (rpr_status d) with
         | Some s =>
             get_role i w
             = (Ok (Returned (inr (rpr_with_status s (rpr_with_id i d)))), w)
         | None =>
             exists l, get_role i w
                       = (Ok (JSONResponse 500 "Failed to fetch role"), set_log l w)
         end
     end.
Proof.
  pose proof (get_cv_profile_result i w) as C.
  pose proof (get_role_profile_result i w) as P.
  pose proof (get_role_by_id_result i w) as G.
  split; [|split].
  - unfold get_cv_profile_run_status.
    destruct (cv_profiles w !! i) as [d|].
    + destruct (CVProfileRunStatus.of_value (cvr_status d)) as [s|].
      * apply try_except_ok. rewrite (bind_ok _ _ _ _ _ C). reflexivity.
      * destruct C as (l & C). eexists.
        erewrite try_except_caught; [|apply (bind_raise _ _ _ _ _ C)|reflexivity].
        rewrite bind_logger. reflexivity.
    + apply try_except_ok. rewrite (bind_ok _ _ _ _ _ C). reflexivity.
  - unfold get_role_profile_run_status.
    destruct (role_profiles w !! i) as [d|].
    + destruct (RoleListingRunStatus.of_value (rpr_status d)) as [s|].
      * apply try_except_ok. rewrite (bind_ok _ _ _ _ _ P). reflexivity.
      * destruct P as (l & P). eexists.
        erewrite try_except_caught; [|apply (bind_raise _ _ _ _ _ P)|reflexivity].
        rewrite bind_logger. reflexivity.
    + apply try_except_ok. rewrite (bind_ok _ _ _ _ _ P). reflexivity.
  - unfold get_role.
    destruct (role_listings w !! i) as [r|].
    + apply try_except_ok. rewrite (bind_ok _ _ _ _ _ G). reflexivity.
    + destruct (role_profiles w !! i) as [d|].
      * destruct (RoleListingRunStatus.of_value (rpr_status d)) as [s|].
        -- apply try_except_ok.
           rewrite (bind_ok _ _ _ _ _ G). cbn [fmap option_fmap option_map].
           rewrite (bind_ok _ _ _ _ _ P). reflexivity.
        -- destruct P as (l & P). eexists.
           erewrite try_except_caught; [| |reflexivity].
           2: { rewrite (bind_ok _ _ _ _ _ G). apply (bind_raise _ _ _ _ _ P). }
           rewrite bind_logger. reflexivity.
      * apply try_except_ok.
        rewrite (bind_ok _ _ _ _ _ G). cbn [fmap option_fmap option_map].
        rewrite (bind_ok _ _ _ _ _ P). reflexivity.
Qed.

(** X16. In every state the pipeline reaches, the status endpoint of a
    résumé answers 404 when the user has no run, and otherwise PENDING with
    the [updated_at] of the stored run: a client that polls it never sees
    COMPLETED or FAILED. *)
Theorem cv_status_endpoint_only_pending (user_id : string) (w : World) :
  reachable w ->
  match cv_profiles w !! user_id with
  | None =>
      get_cv_profile_run_status user_id w
      = (Ok (JSONResponse 404 "CV profile not found"), w)
  | Some d =>
      get_cv_profile_run_status user_id w
      = (Ok (Returned (CVProfileRunStatus.PENDING, cvr_updated_at d)), w)
  end.
Proof.
  intros R.
  assert (P : profiler_worker w = None
              /\ forall i v, cv_run_status w i = Some v -> v = "pending").
  { induction R as [|l w _ IH].
    - split; [reflexivity|]. exact PendingFacts.start_all_pending.
    - apply PendingFacts.step_keeps_pending_invariant. exact IH. }
  destruct P as [_ P].
  pose proof (get_cv_profile_result user_id w) as C.
  specialize (P user_id). unfold cv_run_status in P.
  unfold get_cv_profile_run_status.
  destruct (cv_profiles w !! user_id) as [d|].
  - rewrite (P (cvr_status d) eq_refl) in C. cbn in C.
    apply try_except_ok. rewrite (bind_ok _ _ _ _ _ C). reflexivity.
  - apply try_except_ok. rewrite (bind_ok _ _ _ _ _ C). reflexivity.
Qed.

(** After the upload of a one-page résumé by "u1" and a turn of the CV
    worker that obtains an assessment. *)
Lemma cv_status_endpoint_witness :
  let w := step (CVTurn "CVProcessor-0"
                   (Scenario.cv_env 1 (Ok (Some Scenario.assessment))))
             Scenario.cv_submitted in
  match cv_profiles w !! "u1" with
  | None =>
      get_cv_profile_run_status "u1" w
      = (Ok (JSONResponse 404 "CV profile not found"), w)
  | Some d =>
      get_cv_profile_run_status "u1" w
      = (Ok (Returned (CVProfileRunStatus.PENDING, cvr_updated_at d)), w)
  end.
Proof.
  cbv zeta. apply cv_status_endpoint_only_pending.
  unfold Scenario.cv_submitted, run. cbn [fold_left].
  repeat apply reachable_step. apply reachable_start.
Defined.


End RouterFacts.

(** * Uploads fill the queues in order of arrival *)

Module UploadFacts.

Import Logic Pipeline.

Lemma upload_cv_step (now : Z) (user_id file_path : string) (w : World)
    (q : list (string * string)) :
  cv_worker w = Some q ->
  let w' := step (UploadCV now user_id file_path) w in
  users w' = users w /\ jd_worker w' = jd_worker w
  /\ cv_worker w'
     = Some (q ++ (if bool_decide (is_Some (users w !! user_id))
                      && nonempty user_id && nonempty file_path
                   then [(user_id, file_path)] else []))%list.
Proof.
  intros Q. cbv zeta. unfold step. cbn [action].
  destruct (upload_cv now user_id file_path w) as [r w'] eqn:B. cbn [snd].
  unfold upload_cv in B. unfold bind at 1 in B.
  unfold UserManager.get_user_by_id, gets in B.
  destruct (users w !! user_id) as [u|] eqn:U.
  2: { injection B as <- <-. rewrite bool_decide_eq_false_2 by (intros [? ?]; discriminate).
       cbn [andb]. rewrite app_nil_r. repeat split; auto. }
  rewrite bool_decide_eq_true_2 by eauto. cbn [andb].
  unfold CVProfileManager.add_cv_profile in B.
  destruct (nonempty user_id); cbn [negb andb] in *.
  2: { injection B as <- <-. rewrite app_nil_r. repeat split; auto. }
  destruct (nonempty file_path); cbn [negb andb] in *.
  2: { injection B as <- <-. rewrite app_nil_r. repeat split; auto. }
  unfold CVProcessorWorker.add_cv_to_queue, CVProfileManager.upsert_item, bind, logger,
    modify, gets in B. simpl in B. rewrite Q in B. simpl in B.
  injection B as <- <-. repeat split; reflexivity.
Qed.

Lemma upload_jd_step (now : Z) (role_id file_path user_id : string) (w : World)
    (q : list (string * string)) :
  jd_worker w = Some q ->
  let w' := step (UploadJD now role_id file_path user_id) w in
  users w' = users w /\ cv_worker w' = cv_worker w
  /\ jd_worker w'
     = Some (q ++ (match users w !! user_id with
                   | Some user =>
                       if is_recruiter user && nonempty file_path
                       then [(role_id, file_path)] else []
                   | None => []
                   end))%list.
Proof.
  intros Q. cbv zeta. unfold step. cbn [action].
  destruct (upload_jd now role_id file_path user_id w) as [r w'] eqn:B. cbn [snd].
  unfold upload_jd in B. unfold bind at 1 in B.
  unfold UserManager.get_user_by_id, gets in B.
  destruct (users w !! user_id) as [u|] eqn:U.
  2: { injection B as <- <-. rewrite app_nil_r. repeat split; auto. }
  destruct (is_recruiter u); cbn [andb].
  2: { injection B as <- <-. rewrite app_nil_r. repeat split; auto. }
  unfold RoleProfileManager.add_role_profile in B.
  destruct (nonempty file_path); cbn [negb] in B.
  2: { injection B as <- <-. rewrite app_nil_r. repeat split; auto. }
  unfold JDProcessorWorker.add_jd_to_queue, RoleProfileManager.upsert_item, bind, logger,
    modify, gets in B. simpl in B. rewrite Q in B. simpl in B.
  injection B as <- <-. repeat split; reflexivity.
Qed.

(** X17. Once the two pools are constructed, a sequence of uploads leaves
    the users as they are and appends to each queue, in order of arrival,
    the uploads it accepts: to the CV queue the résumés of known users (with
    a non-empty id and file path), to the JD queue the job descriptions of
    known recruiters (with a non-empty file path). An upload of an unknown
    user, or of a job description by a user who is no recruiter, queues
    nothing. *)
Theorem uploads_are_queued_in_order
    (ls : list label) (w : World) (q q' : list (string * string)) :
  cv_worker w = Some q -> jd_worker w = Some q' ->
  Forall (fun l => is_submission l = true) ls ->
  let w' := run ls w in
  users w' = users w
  /\ cv_worker w'
     = Some (q ++ omap (fun l =>
                          match l with
                          | UploadCV _ user_id file_path =>
                              if bool_decide (is_Some (users w !! user_id))
                                 && nonempty user_id && nonempty file_path
                              then Some (user_id, file_path) else None
                          | _ => None
                          end) ls)%list
  /\ jd_worker w'
     = Some (q' ++ omap (fun l =>
                           match l with
                           | UploadJD _ role_id file_path user_id =>
                               match users w !! user_id with
                               | Some user =>
                                   if is_recruiter user && nonempty file_path
                                   then Some (role_id, file_path) else None
                               | None => None
                               end
                           | _ => None
                           end) ls)%list.
Proof.
  intros Q Q' F. cbv zeta. revert w q q' Q Q'.
  induction F as [|l ls S _ IH]; intros w q q' Q Q'.
  - simpl. rewrite !app_nil_r. auto.
  - change (run (l :: ls) w) with (run ls (step l w)).
    destruct l; try discriminate S.
    + destruct (upload_cv_step now user_id file_path w q Q) as (U & J & C).
      rewrite Q' in J.
      destruct (IH _ _ _ C J) as (U' & C' & J'). rewrite U' , C', J', U.
      split; [reflexivity|]. split; [|reflexivity].
      cbn [omap list_omap]. rewrite <- app_assoc. f_equal. f_equal.
      destruct (bool_decide (is_Some (users w !! user_id)) && nonempty user_id
                && nonempty file_path); reflexivity.
    + destruct (upload_jd_step now role_id file_path user_id w q' Q') as (U & C & J).
      rewrite Q in C.
      destruct (IH _ _ _ C J) as (U' & C' & J'). rewrite U' , C', J', U.
      split; [reflexivity|]. split; [reflexivity|].
      cbn [omap list_omap]. rewrite <- app_assoc. f_equal. f_equal.
      destruct (users w !! user_id) as [u|]; [|reflexivity].
      destruct (is_recruiter u && nonempty file_path); reflexivity.
Qed.

(** A job seeker and a recruiter, four uploads: the résumé of the job
    seeker, a job description by the job seeker, one by the recruiter, and
    the résumé of an unknown user. *)
Lemma uploads_are_queued_witness :
  let w := run [CreateUser (Scenario.new_user "u1" JOB_SEEKER);
                CreateUser (Scenario.new_user "r1" RECRUITER);
                StartCVWorkers; StartJDWorkers] empty_world in
  let ls := [UploadCV 1 "u1" "cv.pdf"; UploadJD 2 "j1" "jd.pdf" "u1";
             UploadJD 3 "j2" "jd.pdf" "r1"; UploadCV 4 "u9" "cv.pdf"] in
  cv_worker (run ls w) = Some [("u1", "cv.pdf")]
  /\ jd_worker (run ls w) = Some [("j2", "jd.pdf")].
Proof.
  cbv zeta.
  match goal with
  | |- cv_worker (run ?ls ?w) = _ /\ _ =>
      destruct (uploads_are_queued_in_order ls w [] []) as (_ & C & J);
        [reflexivity|reflexivity|repeat constructor|]
  end.
  split; [rewrite C|rewrite J]; reflexivity.
Defined.

End UploadFacts.

(** * What a turn of the profiler may write *)

Module ProfilerWriteFacts.

Import Logic Pipeline.

(** X18. A turn of the profiler, whatever its queue and whatever the LLM
    answers, never raises, leaves the role containers as they are, creates
    no run and deletes none. A run it writes belongs to an id that had a run
    before and is COMPLETED without a status comment: the profiler never
    records a failure, so a run whose profiling fails keeps the status it
    had. *)
Theorem profiler_writes_only_completed
    (thread_name : string) (env : ProfilerWorker.Env) (w : World) :
  let out := ProfilerWorker._process_queue thread_name env w in
  fst out = Ok tt
  /\ role_profiles (snd out) = role_profiles w
  /\ role_listings (snd out) = role_listings w
  /\ forall i,
       cv_profiles (snd out) !! i = cv_profiles w !! i
       \/ (is_Some (cv_profiles w !! i)
           /\ exists d, cv_profiles (snd out) !! i = Some d
                        /\ cvr_status d = "completed"
                        /\ cvr_status_comment d = None).
Proof.
  cbv zeta.
  set (I := fun w' : World =>
              role_profiles w' = role_profiles w
              /\ role_listings w' = role_listings w
              /\ forall i,
                   cv_profiles w' !! i = cv_profiles w !! i
                   \/ (is_Some (cv_profiles w !! i)
                       /\ exists d, cv_profiles w' !! i = Some d
                                    /\ cvr_status d = "completed"
                                    /\ cvr_status_comment d = None)).
  assert (K : keeps I (ProfilerWorker._process_queue thread_name env)).
  { apply ProfilerFacts.profiler_turn_keeps.
    - intros w0 l H. exact H.
    - intros w0 m H. exact H.
    - intros w0 q H. exact H.
    - intros i w0 d0 d (R & L & H) L0 S C. split; [exact R|]. split; [exact L|].
      intros j. cbn [cv_profiles set_cv_profiles].
      destruct (decide (i = j)) as [<-|D].
      + right. rewrite lookup_insert_eq. split.
        * destruct (H i) as [E|[E _]]; [rewrite <- E, L0; eauto|exact E].
        * exists d. auto.
      + rewrite lookup_insert_ne by exact D. apply H. }
  split.
  - pose proof (ProfilerFacts.profiler_turn_never_raises thread_name env w) as N.
    destruct (fst (ProfilerWorker._process_queue thread_name env w)) as [[]|e];
      [reflexivity|discriminate N].
  - apply (K w). repeat split. intros i. left. reflexivity.
Qed.

End ProfilerWriteFacts.

(** * The id of an upload after its promotion *)

Module LifecycleFacts.

Import Logic ManagerFacts Pipeline Routers.

(** X19. The id that [upload_jd] hands to the client names the run only.
    After the turn of the JD worker that promotes the run (the conditions of
    a successful analysis), when the new listing got another id and no
    listing was stored under the id of the run: the status endpoint and
    [get_role] answer 404 for the id of the upload, so a client that polls
    the status never reads COMPLETED; the listing is found under its own
    id, with the uploader as creator. *)
Theorem promoted_upload_id_not_found
    (thread_name : string) (env : JDProcessorWorker.Env) (w : World)
    (jd_id file_path : string) (q : list (string * string)) (d0 : RoleProfileRunDoc)
    (s : RoleListingRunStatus.t) (pages : nat) (paragraphs : list string)
    (a : RoleProfile) (loc : Location) :
  jd_worker w = Some ((jd_id, file_path) :: q) ->
  role_profiles w !! jd_id = Some d0 ->
  RoleListingRunStatus.of_value (rpr_status d0) = Some s ->
  PyStr.endswith (PyStr.lower file_path) ".pdf" = true ->
  JDProcessorWorker.page_count_of env file_path = Ok pages ->
  (pages <= Configuration.JD_MAX_PAGES)%nat ->
  JDProcessorWorker.analyze_paragraphs env file_path = Ok paragraphs ->
  JDProcessorWorker.llm_parse env paragraphs = Ok (Some a) ->
  rp_location a = Some loc ->
  role_listings w !! jd_id = None ->
  JDProcessorWorker.new_listing_id env <> jd_id ->
  let w' := snd (JDProcessorWorker._process_queue thread_name env w) in
  get_role_profile_run_status jd_id w'
  = (Ok (JSONResponse 404 "Role profile not found"), w')
  /\ get_role jd_id w' = (Ok (JSONResponse 404 "Role not found"), w')
  /\ exists listing,
       get_role (JDProcessorWorker.new_listing_id env) w'
       = (Ok (Returned (inl listing)), w')
       /\ rl_id listing = JDProcessorWorker.new_listing_id env
       /\ rl_creator_id listing = rpr_creator_id d0.
Proof.
  intros Hq L V Pdf C Short A P Loc NoL Fresh. cbv zeta.
  destruct (PromotionFacts.promoted_stores thread_name env w jd_id file_path q d0 s
              pages paragraphs a loc Hq L V Pdf C Short A P Loc)
    as (R & listing & Ls & Li & Lc).
  cbv zeta in R, Ls.
  set (w' := snd (JDProcessorWorker._process_queue thread_name env w)) in *.
  clearbody w'.
  assert (R1 : role_profiles w' !! jd_id = None) by (rewrite R; apply lookup_delete_eq).
  assert (L1 : role_listings w' !! jd_id = None)
    by (rewrite Ls, lookup_insert_ne by exact Fresh; exact NoL).
  assert (L2 : role_listings w' !! JDProcessorWorker.new_listing_id env = Some listing)
    by (rewrite Ls; apply lookup_insert_eq).
  pose proof (get_role_profile_result jd_id w') as G. rewrite R1 in G.
  pose proof (RouterFacts.get_role_by_id_result jd_id w') as G1. rewrite L1 in G1.
  pose proof (RouterFacts.get_role_by_id_result (JDProcessorWorker.new_listing_id env) w')
    as G2.
  rewrite L2 in G2. cbn [fmap option_fmap option_map] in G1, G2.
  split; [|split].
  - unfold get_role_profile_run_status. apply RouterFacts.try_except_ok.
    rewrite (bind_ok _ _ _ _ _ G). reflexivity.
  - unfold get_role. apply RouterFacts.try_except_ok.
    rewrite (bind_ok _ _ _ _ _ G1), (bind_ok _ _ _ _ _ G). reflexivity.
  - exists (RoleListings.rl_with_id (JDProcessorWorker.new_listing_id env) listing).
    split; [|split; [reflexivity|exact Lc]].
    unfold get_role. apply RouterFacts.try_except_ok.
    rewrite (bind_ok _ _ _ _ _ G2). reflexivity.
Qed.

(** The one-page job description "j1" of the recruiter "r1", promoted to
    the listing "l1". *)
Lemma promoted_upload_id_witness :
  let w' := snd (JDProcessorWorker._process_queue "JDProcessor-0"
                   (Scenario.jd_env 1 (Ok (Some Scenario.engineer)))
                   Scenario.jd_submitted) in
  get_role_profile_run_status "j1" w'
  = (Ok (JSONResponse 404 "Role profile not found"), w')
  /\ get_role "j1" w' = (Ok (JSONResponse 404 "Role not found"), w')
  /\ exists listing,
       get_role "l1" w' = (Ok (Returned (inl listing)), w')
       /\ rl_id listing = "l1"
       /\ rl_creator_id listing = "r1".
Proof.
  apply (promoted_upload_id_not_found "JDProcessor-0"
           (Scenario.jd_env 1 (Ok (Some Scenario.engineer)))
           Scenario.jd_submitted "j1" "jd.pdf" [] MoreScenarios.stored_j1
           RoleListingRunStatus.PENDING 1 ["Compiler engineer"] Scenario.engineer
           {| city := Some "Paris"; country := Some "France" |});
    [reflexivity|vm_compute; reflexivity|reflexivity|reflexivity|reflexivity|
     vm_compute; lia|reflexivity|reflexivity|reflexivity|vm_compute; reflexivity|
     discriminate].
Defined.

End LifecycleFacts.
